(** * Operational scripts of the InstructLab DSPA deployment: a verified model

    The repository is a set of stand-alone Python scripts under
    [dspa-deployment/].  Each script talks to an OpenShift cluster through
    [oc]/[kubectl] sub-processes and through the DSPA REST API.  This file
    embeds the scripts' functions as Rocq functions:

    - Python values (what [json.loads] and [yaml.safe_load] return) are the
      inductive type [pyval]; attribute and subscript errors are results in
      an error monad whose exceptions are the type [exn];
    - the outside world (sub-process outcomes, HTTP responses, the wall
      clock, keyboard interrupts) is an explicit argument of every function
      that touches it;
    - [while] loops are run with fuel: [None] means "still running when the
      fuel ran out", so termination is a statement that some fuel suffices.

    Modules are named after the source files, definitions after the source
    functions. *)

From Stdlib Require Import ZArith Floats Uint63 Ascii String List Bool Lia.
From stdpp Require Import base option list strings gmap pretty.

Set Warnings "-register-all,-inexact-float".
Local Open Scope string_scope.
Local Open Scope Z_scope.

(* ===================================================================== *)
(** ** Python values, exceptions and the error monad *)
(* ===================================================================== *)

Module Py.

(** The exception classes the scripts can meet.  [KeyboardInterrupt] and
    [SystemExit] derive from [BaseException] only, so [except Exception]
    does not catch them. *)
Inductive exn : Type :=
| KeyboardInterrupt
| SystemExit (code : Z)
| CalledProcessError (returncode : Z) (stderr : string)
| HTTPError (status_code : Z)
| ConnectionError
| OSError
| JSONDecodeError
| ValueError
| OverflowError
| AttributeError
| TypeError
| KeyError (key : string)
| IndexError
| UnboundLocalError (name : string).

Definition is_Exception (e : exn) : bool :=
  match e with
  | KeyboardInterrupt | SystemExit _ => false
  | _ => true
  end.

Definition is_KeyboardInterrupt (e : exn) : bool :=
  match e with KeyboardInterrupt => true | _ => false end.

Definition is_CalledProcessError (e : exn) : bool :=
  match e with CalledProcessError _ _ => true | _ => false end.

Definition is_JSONDecodeError (e : exn) : bool :=
  match e with JSONDecodeError => true | _ => false end.

Inductive result (A : Type) : Type :=
| Ok (a : A)
| Raise (e : exn).
Arguments Ok {A} a.
Arguments Raise {A} e.

#[global] Instance result_ret : MRet result := fun A a => Ok a.
#[global] Instance result_bind : MBind result := fun A B k m =>
  match m with
  | Ok a => k a
  | Raise e => Raise e
  end.

(** [try: m except Exception: h] and [try: m except KeyboardInterrupt: h] *)
Definition catch {A : Type} (handles : exn -> bool) (m : result A)
    (h : exn -> result A) : result A :=
  match m with
  | Ok a => Ok a
  | Raise e => if handles e then h e else Raise e
  end.

(** Values as [json.loads] / [yaml.safe_load] build them.  A dict keeps its
    insertion order, as in Python; its keys are strings. *)
Inductive pyval : Type :=
| PNone
| PBool (b : bool)
| PInt (z : Z)
| PFloat (f : float)
| PStr (s : string)
| PList (l : list pyval)
| PDict (d : list (string * pyval)).

(** *** Floats: Python's [float] is IEEE binary64, Rocq's primitive [float]. *)

(** [int(x)] on a float: truncation toward zero; NaN and infinities raise. *)
Definition int_of_float (f : float) : result Z :=
  match Prim2SF f with
  | S754_zero _ => Ok 0
  | S754_finite s m e =>
      let mag := if 0 <=? e then Z.shiftl (Zpos m) e
                 else Z.shiftr (Zpos m) (- e) in
      Ok (if s then - mag else mag)
  | S754_infinity _ => Raise OverflowError
  | S754_nan => Raise ValueError
  end.

(** [float(n)] for a list length (exact below 2^53). *)
Definition float_of_nat (n : nat) : float :=
  PrimFloat.of_uint63 (Uint63.of_Z (Z.of_nat n)).

(** Exact comparison of a float with an integer, as Python's [==] does. *)
Definition float_eq_Z (f : float) (z : Z) : bool :=
  match Prim2SF f with
  | S754_zero _ => z =? 0
  | S754_finite s m e =>
      let v := if s then Zneg m else Zpos m in
      if 0 <=? e then z =? Z.shiftl v e
      else Z.shiftl z (- e) =? v
  | _ => false
  end.

(** *** Strings *)

Definition ascii_lower (c : ascii) : ascii :=
  let n := N_of_ascii c in
  if ((65 <=? n) && (n <=? 90))%N then ascii_of_N (n + 32) else c.

(** [s.lower()] on the ASCII letters (other bytes are left alone). *)
Fixpoint lower (s : string) : string :=
  match s with
  | EmptyString => EmptyString
  | String c s' => String (ascii_lower c) (lower s')
  end.

(** [needle in haystack] for two strings. *)
Fixpoint str_contains (needle haystack : string) : bool :=
  String.prefix needle haystack ||
  match haystack with
  | EmptyString => false
  | String _ h' => str_contains needle h'
  end.

Fixpoint chars (s : string) : list string :=
  match s with
  | EmptyString => []
  | String c s' => String c EmptyString :: chars s'
  end.

(** *** Truthiness and equality *)

Definition truthy (v : pyval) : bool :=
  match v with
  | PNone => false
  | PBool b => b
  | PInt z => negb (z =? 0)
  | PFloat f => negb (PrimFloat.eqb f PrimFloat.zero)
  | PStr s => negb (String.eqb s "")
  | PList l => match l with [] => false | _ => true end
  | PDict d => match d with [] => false | _ => true end
  end.

Fixpoint dict_lookup {A : Type} (k : string) (d : list (string * A)) : option A :=
  match d with
  | [] => None
  | (k', v) :: d' => if String.eqb k k' then Some v else dict_lookup k d'
  end.

(** Numbers compare across [bool], [int] and [float]. *)
Inductive number : Type :=
| NumZ (z : Z)
| NumF (f : float).

Definition as_number (v : pyval) : option number :=
  match v with
  | PBool b => Some (NumZ (if b then 1 else 0))
  | PInt z => Some (NumZ z)
  | PFloat f => Some (NumF f)
  | _ => None
  end.

Definition number_eq (a b : number) : bool :=
  match a, b with
  | NumZ x, NumZ y => x =? y
  | NumF x, NumF y => PrimFloat.eqb x y
  | NumZ x, NumF y => float_eq_Z y x
  | NumF x, NumZ y => float_eq_Z x y
  end.

(** Python's [a == b] on these values. *)
Fixpoint py_eq (a b : pyval) {struct a} : bool :=
  match a, b with
  | PNone, PNone => true
  | PStr s, PStr t => String.eqb s t
  | PList l, PList m =>
      (fix go (l m : list pyval) {struct l} : bool :=
         match l, m with
         | [], [] => true
         | x :: l', y :: m' => py_eq x y && go l' m'
         | _, _ => false
         end) l m
  | PDict d, PDict e =>
      (length d =? length e)%nat &&
      (fix go (d : list (string * pyval)) {struct d} : bool :=
         match d with
         | [] => true
         | (k, v) :: d' =>
             match dict_lookup k e with
             | Some w => py_eq v w
             | None => false
             end && go d'
         end) d
  | PNone, _ | PStr _, _ | PList _, _ | PDict _, _ => false
  | _, _ =>
      match as_number a, as_number b with
      | Some x, Some y => number_eq x y
      | _, _ => false
      end
  end.

(** [v == 'literal'] *)
Definition eq_str (v : pyval) (s : string) : bool := py_eq v (PStr s).

(** [v in ['a', 'b', ...]] *)
Definition in_strs (v : pyval) (ss : list string) : bool := existsb (eq_str v) ss.

(** *** Attribute access, subscripts, iteration *)

(** [v.get(key, default)]: only dicts have [get]. *)
Definition py_get (v : pyval) (key : string) (default : pyval) : result pyval :=
  match v with
  | PDict d => Ok (match dict_lookup key d with Some x => x | None => default end)
  | _ => Raise AttributeError
  end.

(** [v[key]] with a string key. *)
Definition subscript (v : pyval) (key : string) : result pyval :=
  match v with
  | PDict d => match dict_lookup key d with
               | Some x => Ok x
               | None => Raise (KeyError key)
               end
  | _ => Raise TypeError
  end.

(** [v[0]] *)
Definition first_item (v : pyval) : result pyval :=
  match v with
  | PList (x :: _) => Ok x
  | PList [] => Raise IndexError
  | PStr (String c _) => Ok (PStr (String c EmptyString))
  | PStr EmptyString => Raise IndexError
  | PDict _ => Raise (KeyError "0")
  | _ => Raise TypeError
  end.

(** ['key' in v] *)
Definition contains (key : string) (v : pyval) : result bool :=
  match v with
  | PDict d => Ok (match dict_lookup key d with Some _ => true | None => false end)
  | PList l => Ok (existsb (fun x => eq_str x key) l)
  | PStr s => Ok (str_contains key s)
  | _ => Raise TypeError
  end.

(** [for x in v]: the items the loop visits. *)
Definition iterate (v : pyval) : result (list pyval) :=
  match v with
  | PList l => Ok l
  | PDict d => Ok (map (fun kv => PStr (fst kv)) d)
  | PStr s => Ok (map PStr (chars s))
  | _ => Raise TypeError
  end.

(** [len(v)] *)
Definition len (v : pyval) : result nat :=
  match v with
  | PList l => Ok (length l)
  | PDict d => Ok (length d)
  | PStr s => Ok (String.length s)
  | _ => Raise TypeError
  end.

(** [v.items()] and [v.values()]: dicts only. *)
Definition items (v : pyval) : result (list (string * pyval)) :=
  match v with
  | PDict d => Ok d
  | _ => Raise AttributeError
  end.

Definition values (v : pyval) : result (list pyval) :=
  match v with
  | PDict d => Ok (map snd d)
  | _ => Raise AttributeError
  end.

(** [v.lower()]: strings only. *)
Definition py_lower (v : pyval) : result string :=
  match v with
  | PStr s => Ok (lower s)
  | _ => Raise AttributeError
  end.

(** What the Python runtime computes and this model does not: parsing JSON
    text, [int()] on a string, and the text [str()] gives for a value or an
    exception inside an f-string. *)
Class Runtime : Type := {
  json_loads : string -> option pyval;  (* [None]: JSONDecodeError *)
  int_of_str : string -> option Z;      (* [None]: ValueError *)
  str_of : pyval -> string;
  str_of_exn : exn -> string;
}.

End Py.

(* ===================================================================== *)
(** ** The outside world: sub-processes, HTTP, the clock, [while] loops *)
(* ===================================================================== *)

Module World.
Import Py.

(** What running a command does: it exits with a status and two captured
    streams, or the call itself raises ([OSError], a keyboard interrupt). *)
Inductive proc_outcome : Type :=
| Exited (returncode : Z) (stdout stderr : string)
| ProcRaise (e : exn).

(** [subprocess.run(..., capture_output=True, text=True, check=True)]:
    the captured stdout, or [CalledProcessError] on a non-zero status. *)
Definition subprocess_run (p : proc_outcome) : result string :=
  match p with
  | Exited rc out err => if rc =? 0 then Ok out else Raise (CalledProcessError rc err)
  | ProcRaise e => Raise e
  end.

(** What [requests.get] / [requests.post] does. *)
Inductive http_outcome : Type :=
| Response (status_code : Z) (text : string)
| HttpRaise (e : exn).

Definition request (h : http_outcome) : result (Z * string) :=
  match h with
  | Response code text => Ok (code, text)
  | HttpRaise e => Raise e
  end.

(** [response.raise_for_status()] *)
Definition raise_for_status (response : Z * string) : result unit :=
  if (400 <=? fst response) && (fst response <? 600)
  then Raise (HTTPError (fst response)) else Ok tt.

(** [response.json()] *)
Definition response_json `{Runtime} (response : Z * string) : result pyval :=
  match json_loads (snd response) with
  | Some v => Ok v
  | None => Raise JSONDecodeError
  end.

(** [time.sleep(secs)] returns after [secs] seconds or later, unless the
    user interrupts it. *)
Inductive sleep_outcome : Type :=
| Slept (late : nat)
| Interrupted.

(** How a script ends. *)
Inductive process_end : Type :=
| Exit (code : Z)
| Traceback (e : exn).

(** The end of a process whose main program finished or raised. *)
Definition end_of {A : Type} (r : result A) : process_end :=
  match r with
  | Ok _ => Exit 0
  | Raise (SystemExit code) => Exit code
  | Raise e => Traceback e
  end.

(** What a script does that can be seen from outside, in order. *)
Inductive event : Type :=
| Print (line : string)
| Command (cmd : string)           (* a shell command line *)
| Exec (argv : list string)        (* a program run without a shell *)
| Get (url : string)
| Post (url : string) (body : pyval)
| WriteFile (path content : string)
| Sleep (secs : nat).

(** A computation that acts on the world and then returns or raises. *)
Record io (A : Type) : Type := IO {
  trace : list event;
  outcome : result A;
}.
Arguments IO {A} trace outcome.
Arguments trace {A} i.
Arguments outcome {A} i.

#[global] Instance io_ret : MRet io := fun A a => IO [] (Ok a).
#[global] Instance io_bind : MBind io := fun A B k m =>
  match outcome m with
  | Ok a => IO (trace m ++ trace (k a)) (outcome (k a))
  | Raise e => IO (trace m) (Raise e)
  end.

Definition act {A : Type} (e : event) (r : result A) : io A := IO [e] r.
Definition print (line : string) : io unit := act (Print line) (Ok tt).
Definition lift {A : Type} (r : result A) : io A := IO [] r.
Definition raise {A : Type} (e : exn) : io A := IO [] (Raise e).

(** [try: m except <handles> as e: h e] *)
Definition try_except {A : Type} (m : io A) (handles : exn -> bool)
    (h : exn -> io A) : io A :=
  match outcome m with
  | Ok a => m
  | Raise e =>
      if handles e then IO (trace m ++ trace (h e)) (outcome (h e)) else m
  end.

(** The lines a computation printed. *)
Definition printed {A : Type} (m : io A) : list string :=
  omap (fun e => match e with Print line => Some line | _ => None end) (trace m).

Definition is_space (c : ascii) : bool :=
  let n := N_of_ascii c in
  (((9 <=? n) && (n <=? 13)) || ((28 <=? n) && (n <=? 32)))%N.

Fixpoint lstrip (s : string) : string :=
  match s with
  | EmptyString => EmptyString
  | String c s' => if is_space c then lstrip s' else s
  end.

Fixpoint rstrip (s : string) : string :=
  match s with
  | EmptyString => EmptyString
  | String c s' =>
      let r := rstrip s' in
      if is_space c && String.eqb r "" then EmptyString else String c r
  end.

(** [s.strip()], for texts whose white space is ASCII (Python strips the
    other white space of Unicode as well). *)
Definition strip (s : string) : string := rstrip (lstrip s).

Definition nonempty (s : string) : bool := negb (String.eqb s "").

Section While.
Context {S R : Type}.
(** [while cond: body] followed by [after]; the body of iteration [k]
    either gives the next locals or leaves the function with a result
    (a [return], a [break] followed by the code after the loop, or an
    exception nobody catches). *)
Variable cond : S -> bool.
Variable body : nat -> S -> S + R.
Variable after : S -> R.

Fixpoint while (fuel k : nat) (s : S) : option R :=
  match fuel with
  | O => None
  | Datatypes.S fuel' =>
      if cond s then
        match body k s with
        | inl s' => while fuel' (Datatypes.S k) s'
        | inr r => Some r
        end
      else Some (after s)
  end.

(** The locals at the head of the loop after [n] more full iterations,
    if the loop is still running then. *)
Fixpoint locals_after (n k : nat) (s : S) : option S :=
  match n with
  | O => Some s
  | Datatypes.S n' =>
      if cond s then
        match body k s with
        | inl s' => locals_after n' (Datatypes.S k) s'
        | inr _ => None
        end
      else None
  end.
End While.

Section WhileEvents.
Context {S R : Type}.
(** What a [while] loop does to the world, when pass [k], entered with the
    locals [s], does [events k s]. *)
Variable cond : S -> bool.
Variable body : nat -> S -> S + R.
Variable events : nat -> S -> list event.

Fixpoint while_events (fuel k : nat) (s : S) : list event :=
  match fuel with
  | O => []
  | Datatypes.S fuel' =>
      if cond s then
        (events k s ++
         match body k s with
         | inl s' => while_events fuel' (Datatypes.S k) s'
         | inr _ => []
         end)%list
      else []
  end.
End WhileEvents.

(** [s.split()]: the words between runs of white space. *)
Fixpoint split_from (word : string) (s : string) : list string :=
  match s with
  | EmptyString => if nonempty word then [word] else []
  | String c s' =>
      if is_space c
      then (if nonempty word then word :: split_from EmptyString s'
            else split_from EmptyString s')
      else split_from (word +:+ String c EmptyString) s'
  end.

Definition split (s : string) : list string := split_from EmptyString s.

(** [parts[i]] on a list of words. *)
Definition item (parts : list string) (i : nat) : result string :=
  match nth_error parts i with
  | Some w => Ok w
  | None => Raise IndexError
  end.

End World.

(* ===================================================================== *)
(** ** monitor_production_pipeline.py *)
(* ===================================================================== *)

Module monitor_production_pipeline.
Import Py World.

Section WithRuntime.
Context `{Runtime}.

Definition run_kubectl (sh : string -> proc_outcome) (cmd : string)
  : io (option string) :=
  try_except
    (stdout ← act (Command cmd) (subprocess_run (sh cmd));
     mret (Some (strip stdout)))
    is_CalledProcessError
    (fun e =>
       print ("❌ Error running command: " +:+ cmd);;
       print ("Error: " +:+ match e with CalledProcessError _ stderr => stderr | _ => "" end);;
       mret None).

Definition get_workflow_status (sh : string -> proc_outcome) (workflow_name : string)
  : io pyval :=
  let cmd := "kubectl get workflow " +:+ workflow_name +:+ " -n petloan-instructlab -o json" in
  output ← run_kubectl sh cmd;
  match output with
  | Some s =>
      if nonempty s then
        match json_loads s with
        | Some v => mret v
        | None => mret PNone
        end
      else mret PNone
  | None => mret PNone
  end.

Definition get_workflow_pods (sh : string -> proc_outcome) (workflow_name : string)
  : io pyval :=
  let cmd := "kubectl get pods -n petloan-instructlab --selector=workflows.argoproj.io/workflow="
             +:+ workflow_name +:+ " -o json" in
  output ← run_kubectl sh cmd;
  match output with
  | Some s =>
      if nonempty s then
        match json_loads s with
        | Some v => mret v
        | None => mret PNone
        end
      else mret PNone
  | None => mret PNone
  end.

End WithRuntime.

(** The four name lists the [for] loop of [analyze_workflow_progress] fills. *)
Record buckets : Type := {
  b_completed : list string;
  b_running : list string;
  b_failed : list string;
  b_pending : list string;
}.

Definition no_buckets : buckets :=
  {| b_completed := []; b_running := []; b_failed := []; b_pending := [] |}.

Definition place (name : string) (phase : pyval) (b : buckets) : buckets :=
  if eq_str phase "Succeeded" then
    {| b_completed := b_completed b ++ [name]; b_running := b_running b;
       b_failed := b_failed b; b_pending := b_pending b |}
  else if eq_str phase "Running" then
    {| b_completed := b_completed b; b_running := b_running b ++ [name];
       b_failed := b_failed b; b_pending := b_pending b |}
  else if in_strs phase ["Failed"; "Error"] then
    {| b_completed := b_completed b; b_running := b_running b;
       b_failed := b_failed b ++ [name]; b_pending := b_pending b |}
  else if in_strs phase ["Pending"] then
    {| b_completed := b_completed b; b_running := b_running b;
       b_failed := b_failed b; b_pending := b_pending b ++ [name] |}
  else b.

Fixpoint classify (nodes : list (string * pyval)) (b : buckets) : result buckets :=
  match nodes with
  | [] => Ok b
  | (name, node) :: rest =>
      phase ← py_get node "phase" (PStr "Unknown");
      classify rest (place name phase b)
  end.

(** [int((done / total) * 100) if total > 0 else 0], in binary64. *)
Definition percent (done total : nat) : result Z :=
  if (0 <? total)%nat then
    int_of_float
      (PrimFloat.mul (PrimFloat.div (float_of_nat done) (float_of_nat total))
                     (float_of_nat 100))
  else Ok 0.

(** The dict [analyze_workflow_progress] returns. *)
Record progress_info : Type := {
  workflow_status : pyval;
  start_time : pyval;
  finish_time : pyval;
  total_nodes : nat;
  completed_nodes : nat;
  running_nodes : nat;
  failed_nodes : nat;
  pending_nodes : nat;
  progress_pct : Z;
  failed_node_names : list string;
  running_node_names : list string;
  completed_node_names : list string;
}.

Definition analyze_workflow_progress (workflow_data : pyval)
  : result (option progress_info) :=
  if negb (truthy workflow_data) then Ok None else
  status ← py_get workflow_data "status" (PDict []);
  workflow_status ← py_get status "phase" (PStr "Unknown");
  metadata ← py_get workflow_data "metadata" (PDict []);
  start_time ← py_get metadata "creationTimestamp" PNone;
  finish_time ← py_get status "finishedAt" PNone;
  nodes ← py_get status "nodes" (PDict []);
  total_nodes ← len nodes;
  node_items ← items nodes;
  b ← classify node_items no_buckets;
  progress_pct ← percent (length (b_completed b)) total_nodes;
  Ok (Some {| workflow_status := workflow_status;
              start_time := start_time;
              finish_time := finish_time;
              total_nodes := total_nodes;
              completed_nodes := length (b_completed b);
              running_nodes := length (b_running b);
              failed_nodes := length (b_failed b);
              pending_nodes := length (b_pending b);
              progress_pct := progress_pct;
              failed_node_names := b_failed b;
              running_node_names := b_running b;
              completed_node_names := b_completed b |}).

(** [print_status_update] (the printing left out): [None] when there is no
    progress information, [False] when a node failed, [True] otherwise. *)
Definition print_status_update (info : option progress_info) : option bool :=
  match info with
  | None => None
  | Some i => if (0 <? failed_nodes i)%nat then Some false else Some true
  end.

Definition workflow_name : string := "instructlab-production-z4fqp".
Definition max_duration : nat := 24 * 60 * 60.
Definition check_interval : nat := 10 * 60.
Definition terminal : list string := ["Succeeded"; "Failed"; "Error"].

(** One pass of the loop as the world sees it: what the shell does with
    the command, how long the polling takes, and how the sleep ends. *)
Record tick : Type := {
  kubectl : string -> proc_outcome;
  poll_secs : nat;
  nap : sleep_outcome;
}.

(** The local variables of [monitor_pipeline] ([now] is what [time.time()]
    would return at this point). *)
Record locals : Type := {
  now : nat;
  last_progress : Z;
  iteration : nat;
}.

(** [time.sleep(check_interval); iteration += 1] *)
Definition sleep_and_count (t : tick) (st : locals) : result locals :=
  match nap t with
  | Slept late =>
      Ok {| now := now st + poll_secs t + check_interval + late;
            last_progress := last_progress st;
            iteration := iteration st + 1 |}
  | Interrupted => Raise KeyboardInterrupt
  end.

Section WithRuntime.
Context `{Runtime}.

(** The body of the [try]: [inr r] is [return r]. *)
Definition attempt (t : tick) (st : locals) : result (locals + option bool) :=
  workflow_data ← outcome (get_workflow_status (kubectl t) workflow_name);
  info ← analyze_workflow_progress workflow_data;
  let should_print :=
    match info with
    | None => true
    | Some i =>
        negb (progress_pct i =? last_progress st)
        || (iteration st mod 6 =? 1)%nat
        || (0 <? failed_nodes i)%nat
        || in_strs (workflow_status i) terminal
    end in
  let verdict : locals + option bool :=
    if should_print then
      match print_status_update info with
      | Some true =>
          match info with
          | Some i =>
              if in_strs (workflow_status i) terminal then
                if eq_str (workflow_status i) "Succeeded"
                then inr (Some true) else inr (Some false)
              else inl {| now := now st; last_progress := progress_pct i;
                          iteration := iteration st |}
          | None => inl st
          end
      | _ => inr (Some false)
      end
    else inl st in
  match verdict with
  | inr r => Ok (inr r)
  | inl st' => st'' ← sleep_and_count t st'; Ok (inl st'')
  end.

(** The [try] with its two handlers. *)
Definition body (t : tick) (st : locals) : locals + result (option bool) :=
  match attempt t st with
  | Ok (inl st') => inl st'
  | Ok (inr r) => inr (Ok r)
  | Raise e =>
      if is_KeyboardInterrupt e then inr (Ok None)
      else if is_Exception e then
        match sleep_and_count t st with
        | Ok st' => inl st'
        | Raise e' => inr (Raise e')
        end
      else inr (Raise e)
  end.

Definition in_time (start_time : nat) (st : locals) : bool :=
  (now st - start_time <? max_duration)%nat.

(** [monitor_pipeline()], started when the clock reads [start_time]. *)
Definition monitor_pipeline (fuel : nat) (world : nat -> tick) (start_time : nat)
  : option (result (option bool)) :=
  while (in_time start_time) (fun k => body (world k)) (fun _ => Ok None)
        fuel 0%nat
        {| now := start_time; last_progress := -1; iteration := 1 |}.

(** The [__main__] block. *)
Definition exit_code (r : option bool) : Z :=
  match r with
  | Some true => 0
  | Some false => 1
  | None => 2
  end.

Definition main (fuel : nat) (world : nat -> tick) (start_time : nat)
  : option process_end :=
  match monitor_pipeline fuel world start_time with
  | None => None
  | Some (Ok r) => Some (Exit (exit_code r))
  | Some (Raise e) => Some (end_of (@Raise unit e))
  end.

(** What a pass does to the cluster: the command of [get_workflow_status],
    with which the [try] begins. *)
Definition pass_events (t : tick) : list event :=
  trace (get_workflow_status (kubectl t) workflow_name).

(** What a run of the script does to the cluster. *)
Definition events (fuel : nat) (world : nat -> tick) (start_time : nat) : list event :=
  while_events (in_time start_time) (fun k => body (world k))
    (fun k _ => pass_events (world k))
    fuel 0%nat
    {| now := start_time; last_progress := -1; iteration := 1 |}.

End WithRuntime.

End monitor_production_pipeline.

(* ===================================================================== *)
(** ** The code submit_pipeline_production.py and
       submit_pipeline_nfs_storage.py share (DSPA API v1beta1) *)
(* ===================================================================== *)

Module v1beta1.
Import Py World.

(** The attribute [e.response] of an exception, as the handler of
    [submit_pipeline_run] reads it: [requests] gives every
    [RequestException] the attribute, set to the response for an
    [HTTPError] raised by [raise_for_status] and to [None] when no response
    arrived and when [response.json()] cannot decode the body (the
    [JSONDecodeError] of [requests] is a [RequestException] too); other
    exceptions do not have it.  [Some None] is the attribute holding
    [None]. *)
Definition response_attr (e : exn) (text : string) : option (option string) :=
  match e with
  | HTTPError _ => Some (Some text)
  | ConnectionError | JSONDecodeError => Some None
  | _ => None
  end.

Section Script.
Context `{Runtime}.
(** The two scripts differ in the marks they put before their messages. *)
Variable bad good : string.

Definition get_bearer_token (oc : list string -> proc_outcome) : io string :=
  let argv := ["oc"; "whoami"; "--show-token"] in
  try_except
    (stdout ← act (Exec argv) (subprocess_run (oc argv));
     mret (strip stdout))
    is_CalledProcessError
    (fun e =>
       print (bad +:+ "Error getting token: " +:+ str_of_exn e);;
       raise (SystemExit 1)).

Definition get_dspa_route (oc : list string -> proc_outcome) (namespace : string)
  : io string :=
  let argv := ["oc"; "get"; "route"; "ds-pipeline-dspa"; "-n"; namespace;
               "-o"; "jsonpath={.spec.host}"] in
  try_except
    (stdout ← act (Exec argv) (subprocess_run (oc argv));
     mret (strip stdout))
    is_CalledProcessError
    (fun e =>
       print (bad +:+ "Error getting route: " +:+ str_of_exn e);;
       raise (SystemExit 1)).

(** The [for] loop of [get_pipeline_info]: [Some id] is [return pipeline['id']]. *)
Fixpoint look_for_instructlab (pipelines : list pyval) : io (option pyval) :=
  match pipelines with
  | [] => mret None
  | pipeline :: rest =>
      display_name ← lift (py_get pipeline "display_name" (PStr ""));
      lowered ← lift (py_lower display_name);
      if str_contains "instructlab" lowered then
        shown ← lift (subscript pipeline "display_name");
        print (good +:+ "Found InstructLab pipeline: " +:+ str_of shown);;
        id ← lift (subscript pipeline "id");
        mret (Some id)
      else look_for_instructlab rest
  end.

Definition pipelines_url (dspa_host : string) : string :=
  "https://" +:+ dspa_host +:+ "/apis/v1beta1/pipelines".

Definition get_pipeline_info (get : string -> http_outcome)
    (dspa_host token namespace : string) : io pyval :=
  try_except
    (response ← act (Get (pipelines_url dspa_host))
                    (request (get (pipelines_url dspa_host)));
     lift (raise_for_status response);;
     data ← lift (response_json response);
     has_key ← lift (contains "pipelines" data);
     listed ← (if has_key : bool
               then pipelines ← lift (subscript data "pipelines");
                    mret (truthy pipelines)
               else mret false);
     if listed : bool then
       pipelines ← lift (subscript data "pipelines");
       each ← lift (iterate pipelines);
       found ← look_for_instructlab each;
       match found with
       | Some id => mret id
       | None =>
           pipeline ← lift (first_item pipelines);
           shown ← lift (subscript pipeline "display_name");
           print (good +:+ "Using pipeline: " +:+ str_of shown);;
           lift (subscript pipeline "id")
       end
     else
       print (bad +:+ "No pipelines found");;
       mret PNone)
    is_Exception
    (fun e => print (bad +:+ "Error getting pipeline info: " +:+ str_of_exn e);;
              mret PNone).

(** The parameter list both scripts send, except for the storage class. *)
Definition parameters (storage_class_name : string) : list (string * string) :=
  [ ("model_to_train", "instructlab/granite-7b-lab");
    ("num_epochs", "10");
    ("learning_rate", "0.0002");
    ("num_instructions_to_generate", "100");
    ("taxonomy_repo_branch", "main");
    ("mmlu_branch", "main");
    ("mt_bench_branch", "main");
    ("storage_class_name", storage_class_name);
    ("pipeline_output_directory", "/tmp/instructlab");
    ("enable_lora", "true");
    ("lora_rank", "4");
    ("lora_alpha", "32");
    ("batch_size", "1");
    ("gradient_accumulation_steps", "4");
    ("warmup_steps", "10");
    ("save_samples", "0");
    ("log_level", "INFO");
    ("max_batch_len", "60000");
    ("seed", "42") ].

Definition pipeline_spec (display_name description storage_class_name : string)
    (pipeline_id : pyval) (namespace : string) : pyval :=
  PDict
    [ ("display_name", PStr display_name);
      ("description", PStr description);
      ("pipeline_spec",
        PDict [ ("pipeline_id", pipeline_id);
                ("parameters",
                  PList (map (fun nv => PDict [ ("name", PStr (fst nv));
                                                ("value", PStr (snd nv)) ])
                             (parameters storage_class_name))) ]);
      ("resource_references",
        PList [ PDict [ ("key", PDict [ ("type", PStr "NAMESPACE");
                                        ("id", PStr namespace) ]);
                        ("relationship", PStr "OWNER") ] ]) ].

Definition runs_url (dspa_host : string) : string :=
  "https://" +:+ dspa_host +:+ "/apis/v1beta1/runs".

(** [submit_pipeline_run]: the pair [(run_id, run_name)].  [success_lines]
    are the lines the script prints once the run is accepted. *)
Definition submit_pipeline_run (post : string -> pyval -> http_outcome)
    (spec : pyval) (dspa_host : string)
    (success_lines : pyval -> pyval -> list string) : io (pyval * pyval) :=
  let sent := post (runs_url dspa_host) spec in
  try_except
    (response ← act (Post (runs_url dspa_host) spec) (request sent);
     lift (raise_for_status response);;
     run_data ← lift (response_json response);
     run ← lift (py_get run_data "run" (PDict []));
     run_id ← lift (py_get run "id" PNone);
     run' ← lift (py_get run_data "run" (PDict []));
     run_name ← lift (py_get run' "name" PNone);
     IO (map Print (success_lines run_id run_name)) (Ok tt);;
     mret (run_id, run_name))
    is_Exception
    (fun e =>
       print (bad +:+ "Error submitting pipeline run: " +:+ str_of_exn e);;
       match response_attr e (match sent with Response _ text => text | _ => "" end) with
       | Some (Some text) => print ("Response: " +:+ text);; mret (PNone, PNone)
       | Some None => raise AttributeError
       | None => mret (PNone, PNone)
       end).

(** [json.loads(v)] on a value: text is parsed, anything else is a
    [TypeError]. *)
Definition loads (v : pyval) : result pyval :=
  match v with
  | PStr s => match json_loads s with
              | Some d => Ok d
              | None => Raise JSONDecodeError
              end
  | _ => Raise TypeError
  end.

(** [sum(1 for node in nodes.values() if node.get('phase') in phases)] *)
Fixpoint count_phase (phases : list string) (nodes : list pyval) : result nat :=
  match nodes with
  | [] => Ok 0%nat
  | node :: rest =>
      phase ← py_get node "phase" PNone;
      n ← count_phase phases rest;
      Ok (if in_strs phase phases then S n else n)
  end.

(** [[name for name, node in nodes.items() if node.get('phase') == 'Failed']] *)
Fixpoint names_failed (nodes : list (string * pyval)) : result (list string) :=
  match nodes with
  | [] => Ok []
  | (name, node) :: rest =>
      phase ← py_get node "phase" PNone;
      names ← names_failed rest;
      Ok (if eq_str phase "Failed" then name :: names else names)
  end.

Definition run_url (dspa_host : string) (run_id : pyval) : string :=
  "https://" +:+ dspa_host +:+ "/apis/v1beta1/runs/" +:+ str_of run_id.

(** What one poll of the run yields, up to the manifest. *)
Definition poll_run (get : string -> http_outcome) (url : string)
  : result (pyval * pyval) :=
  response ← request (get url);
  raise_for_status response;;
  data ← response_json response;
  run_detail ← py_get data "run" (PDict []);
  status ← py_get run_detail "status" (PStr "Unknown");
  pipeline_runtime ← py_get run_detail "pipeline_runtime" (PDict []);
  workflow_manifest ← py_get pipeline_runtime "workflow_manifest" PNone;
  Ok (status, workflow_manifest).

End Script.

Definition terminal : list string := ["Succeeded"; "Failed"; "Error"].

(** One pass of a monitoring loop as the world sees it. *)
Record tick : Type := {
  get : string -> http_outcome;
  poll_secs : nat;
  nap : sleep_outcome;
}.

End v1beta1.

(* ===================================================================== *)
(** ** submit_pipeline_production.py *)
(* ===================================================================== *)

Module submit_pipeline_production.
Import Py World v1beta1.

Definition max_duration : nat := 24 * 60 * 60.
Definition check_interval : nat := 10 * 60.

(** The local variables of [monitor_pipeline_run]. *)
Record locals : Type := {
  now : nat;
  last_status : pyval;
  last_progress : Z;
}.

(** [time.sleep(check_interval)] *)
Definition sleep (t : tick) (st : locals) : result locals :=
  match nap t with
  | Slept late =>
      Ok {| now := now st + poll_secs t + check_interval + late;
            last_status := last_status st;
            last_progress := last_progress st |}
  | Interrupted => Raise KeyboardInterrupt
  end.

Section WithRuntime.
Context `{Runtime}.

Definition get_bearer_token := get_bearer_token "❌ ".
Definition get_dspa_route := get_dspa_route "❌ ".
Definition get_pipeline_info := get_pipeline_info "❌ " "✅ ".

(** [timestamp] is [int(time.time())], [started] the formatted
    [datetime.now()]. *)
Definition submit_pipeline_run (post : string -> pyval -> http_outcome)
    (dspa_host token : string) (pipeline_id : pyval) (namespace : string)
    (timestamp : Z) (started : string) : io (pyval * pyval) :=
  submit_pipeline_run "❌ " post
    (pipeline_spec ("InstructLab-Production-" +:+ pretty timestamp)
       "Production InstructLab pipeline run with proven stable configuration"
       "gp3" pipeline_id namespace)
    dspa_host
    (fun run_id run_name =>
       [ "🚀 Pipeline run submitted successfully!";
         "📝 Run ID: " +:+ str_of run_id;
         "📝 Run Name: " +:+ str_of run_name;
         "🕒 Started at: " +:+ started ]).

(** The inner [try] of the loop, entered when the manifest is truthy:
    [inr r] is [return r]. *)
Definition inspect (status workflow_manifest : pyval) (st : locals)
  : result (locals + option bool) :=
  catch is_JSONDecodeError
    (workflow_data ← loads workflow_manifest;
     workflow_status ← py_get workflow_data "status" (PDict []);
     nodes ← py_get workflow_status "nodes" (PDict []);
     total_nodes ← len nodes;
     node_values ← values nodes;
     completed_nodes ← count_phase terminal node_values;
     node_values' ← values nodes;
     running_nodes ← count_phase ["Running"] node_values';
     node_items ← items nodes;
     failed_nodes ← names_failed node_items;
     progress_pct ← monitor_production_pipeline.percent completed_nodes total_nodes;
     let changed := negb (py_eq status (last_status st))
                    || negb (progress_pct =? last_progress st) in
     if changed && match failed_nodes with [] => false | _ => true end
     then Ok (inr (Some false))
     else
       let st' := if changed
                  then {| now := now st; last_status := status;
                          last_progress := progress_pct |}
                  else st in
       if in_strs status terminal then
         if eq_str status "Succeeded" then Ok (inr (Some true))
         else Ok (inr (Some false))
       else Ok (inl st'))
    (fun _ => Ok (inl st)).

(** The body of the outer [try]. *)
Definition attempt (url : string) (t : tick) (st : locals)
  : result (locals + option bool) :=
  polled ← poll_run (get t) url;
  verdict ← (if truthy polled.2 then inspect polled.1 polled.2 st else Ok (inl st));
  match verdict with
  | inr r => Ok (inr r)
  | inl st' => st'' ← sleep t st'; Ok (inl st'')
  end.

(** The outer [try] with its handlers; [break] leads to the [return None]
    after the loop. *)
Definition body (url : string) (t : tick) (st : locals)
  : locals + result (option bool) :=
  match attempt url t st with
  | Ok (inl st') => inl st'
  | Ok (inr r) => inr (Ok r)
  | Raise e =>
      if is_KeyboardInterrupt e then inr (Ok None)
      else if is_Exception e then
        match sleep t st with
        | Ok st' => inl st'
        | Raise e' => inr (Raise e')
        end
      else inr (Raise e)
  end.

Definition in_time (start_time : nat) (st : locals) : bool :=
  (now st - start_time <? max_duration)%nat.

Definition monitor_pipeline_run (fuel : nat) (world : nat -> tick) (start_time : nat)
    (dspa_host token : string) (run_id : pyval) (namespace : string)
  : option (result (option bool)) :=
  while (in_time start_time) (fun k => body (run_url dspa_host run_id) (world k))
        (fun _ => Ok None)
        fuel 0%nat
        {| now := start_time; last_status := PNone; last_progress := -1 |}.

(** The command line and everything [main] meets outside the process. *)
Record args : Type := {
  route : option string;
  namespace : string;
  no_monitor : bool;
}.

Record environment : Type := {
  oc : list string -> proc_outcome;
  http_get : string -> http_outcome;
  http_post : string -> pyval -> http_outcome;
  timestamp : Z;
  started : string;
  world : nat -> tick;
  start_time : nat;
}.

Definition given (o : option string) : bool :=
  match o with
  | Some s => nonempty s
  | None => false
  end.

(** [main()] up to the monitoring: the run id, unless the script stopped. *)
Definition submit (a : args) (env : environment) : io (string * string * pyval) :=
  token ← get_bearer_token (oc env);
  dspa_host ← (if given (route a)
               then mret (default "" (route a))
               else get_dspa_route (oc env) (namespace a));
  pipeline_id ← get_pipeline_info (http_get env) dspa_host token (namespace a);
  if negb (truthy pipeline_id) then
    print "❌ Could not find pipeline";; raise (SystemExit 1)
  else
    run ← submit_pipeline_run (http_post env) dspa_host token pipeline_id
            (namespace a) (timestamp env) (started env);
    if negb (truthy run.1) then
      print "❌ Failed to submit pipeline run";; raise (SystemExit 1)
    else mret (dspa_host, token, run.1).

Definition exit_code (success : option bool) : Z :=
  match success with
  | Some true => 0
  | Some false => 1
  | None => 2
  end.

Definition main (fuel : nat) (a : args) (env : environment) : option process_end :=
  match outcome (submit a env) with
  | Raise e => Some (end_of (@Raise unit e))
  | Ok (dspa_host, token, run_id) =>
      if negb (no_monitor a) then
        match monitor_pipeline_run fuel (world env) (start_time env)
                dspa_host token run_id (namespace a) with
        | None => None
        | Some (Ok success) => Some (Exit (exit_code success))
        | Some (Raise e) => Some (end_of (@Raise unit e))
        end
      else Some (Exit 0)
  end.

(** What a pass does to the cluster: the [requests.get] with which the
    [try] begins. *)
Definition pass_events (url : string) : list event := [Get url].

Definition monitor_events (fuel : nat) (world : nat -> tick) (start_time : nat)
    (dspa_host token : string) (run_id : pyval) (namespace : string) : list event :=
  while_events (in_time start_time) (fun k => body (run_url dspa_host run_id) (world k))
    (fun _ _ => pass_events (run_url dspa_host run_id))
    fuel 0%nat
    {| now := start_time; last_status := PNone; last_progress := -1 |}.

(** What a run of the script does to the cluster: the submission, then the
    monitoring. *)
Definition events (fuel : nat) (a : args) (env : environment) : list event :=
  (trace (submit a env) ++
   match outcome (submit a env) with
   | Ok (dspa_host, token, run_id) =>
       if negb (no_monitor a)
       then monitor_events fuel (world env) (start_time env) dspa_host token run_id
              (namespace a)
       else []
   | Raise _ => []
   end)%list.

End WithRuntime.

End submit_pipeline_production.

(* ===================================================================== *)
(** ** submit_pipeline_nfs_storage.py *)
(* ===================================================================== *)

Module submit_pipeline_nfs_storage.
Import Py World v1beta1.

(** The loop sleeps 30 seconds between checks ("Check every 30 seconds")
    and 60 seconds after an error. *)
Definition check_interval : nat := 30.
Definition error_delay : nat := 60.

(** The local variables of [monitor_pipeline_run]. *)
Record locals : Type := {
  now : nat;
  last_status : pyval;
}.

(** [time.sleep(secs)] *)
Definition sleep (secs : nat) (t : tick) (st : locals) : result locals :=
  match nap t with
  | Slept late =>
      Ok {| now := now st + poll_secs t + secs + late;
            last_status := last_status st |}
  | Interrupted => Raise KeyboardInterrupt
  end.

Section WithRuntime.
Context `{Runtime}.

Definition get_bearer_token := get_bearer_token "".
Definition get_dspa_route := get_dspa_route "".
Definition get_pipeline_info := get_pipeline_info "" "".

Definition submit_pipeline_run (post : string -> pyval -> http_outcome)
    (dspa_host token : string) (pipeline_id : pyval) (namespace : string)
    (timestamp : Z) : io (pyval * pyval) :=
  submit_pipeline_run "" post
    (pipeline_spec ("InstructLab-Complete-NFS-" +:+ pretty timestamp)
       "Complete InstructLab pipeline run with NFS storage for RWX volumes"
       "nfs-manual" pipeline_id namespace)
    dspa_host
    (fun run_id run_name =>
       [ "✅ Pipeline run submitted successfully!";
         "Run ID: " +:+ str_of run_id;
         "Run Name: " +:+ str_of run_name ]).

(** The inner [try]: [inr tt] is [break]. *)
Definition inspect (status workflow_manifest : pyval) (st : locals)
  : result (locals + unit) :=
  catch is_JSONDecodeError
    (workflow_data ← loads workflow_manifest;
     workflow_status ← py_get workflow_data "status" (PDict []);
     nodes ← py_get workflow_status "nodes" (PDict []);
     total_nodes ← len nodes;
     node_values ← values nodes;
     completed_nodes ← count_phase terminal node_values;
     progress_pct ← monitor_production_pipeline.percent completed_nodes total_nodes;
     st' ← (if negb (py_eq status (last_status st)) then
              node_items ← items nodes;
              failed_nodes ← names_failed node_items;
              Ok {| now := now st; last_status := status |}
            else Ok st);
     if in_strs status terminal then Ok (inr tt) else Ok (inl st'))
    (fun _ => Ok (inl st)).

Definition attempt (url : string) (t : tick) (st : locals) : result (locals + unit) :=
  polled ← poll_run (get t) url;
  verdict ← (if truthy polled.2 then inspect polled.1 polled.2 st else Ok (inl st));
  match verdict with
  | inr tt => Ok (inr tt)
  | inl st' => st'' ← sleep check_interval t st'; Ok (inl st'')
  end.

(** The function has no [return]: leaving the loop returns [None]. *)
Definition body (url : string) (t : tick) (st : locals) : locals + result unit :=
  match attempt url t st with
  | Ok (inl st') => inl st'
  | Ok (inr tt) => inr (Ok tt)
  | Raise e =>
      if is_KeyboardInterrupt e then inr (Ok tt)
      else if is_Exception e then
        match sleep error_delay t st with
        | Ok st' => inl st'
        | Raise e' => inr (Raise e')
        end
      else inr (Raise e)
  end.

(** [while True:] *)
Definition monitor_pipeline_run (fuel : nat) (world : nat -> tick) (start_time : nat)
    (dspa_host token : string) (run_id : pyval) (namespace : string)
  : option (result unit) :=
  while (fun _ => true) (fun k => body (run_url dspa_host run_id) (world k))
        (fun _ => Ok tt)
        fuel 0%nat
        {| now := start_time; last_status := PNone |}.

Record args : Type := {
  route : option string;
  namespace : string;
  monitor : bool;
}.

Record environment : Type := {
  oc : list string -> proc_outcome;
  http_get : string -> http_outcome;
  http_post : string -> pyval -> http_outcome;
  timestamp : Z;
  world : nat -> tick;
  start_time : nat;
}.

Definition submit (a : args) (env : environment) : io (string * string * pyval) :=
  token ← get_bearer_token (oc env);
  dspa_host ← (if submit_pipeline_production.given (route a)
               then mret (default "" (route a))
               else get_dspa_route (oc env) (namespace a));
  pipeline_id ← get_pipeline_info (http_get env) dspa_host token (namespace a);
  if negb (truthy pipeline_id) then
    print "❌ Could not find pipeline";; raise (SystemExit 1)
  else
    run ← submit_pipeline_run (http_post env) dspa_host token pipeline_id
            (namespace a) (timestamp env);
    if negb (truthy run.1) then
      print "❌ Failed to submit pipeline run";; raise (SystemExit 1)
    else mret (dspa_host, token, run.1).

Definition main (fuel : nat) (a : args) (env : environment) : option process_end :=
  match outcome (submit a env) with
  | Raise e => Some (end_of (@Raise unit e))
  | Ok (dspa_host, token, run_id) =>
      if monitor a then
        match monitor_pipeline_run fuel (world env) (start_time env)
                dspa_host token run_id (namespace a) with
        | None => None
        | Some r => Some (end_of r)
        end
      else Some (Exit 0)
  end.

(** What a pass does to the cluster: the [requests.get] with which the
    [try] begins. *)
Definition pass_events (url : string) : list event := [Get url].

Definition monitor_events (fuel : nat) (world : nat -> tick) (start_time : nat)
    (dspa_host token : string) (run_id : pyval) (namespace : string) : list event :=
  while_events (fun _ => true) (fun k => body (run_url dspa_host run_id) (world k))
    (fun _ _ => pass_events (run_url dspa_host run_id))
    fuel 0%nat
    {| now := start_time; last_status := PNone |}.

(** What a run of the script does to the cluster: the submission, then the
    monitoring. *)
Definition events (fuel : nat) (a : args) (env : environment) : list event :=
  (trace (submit a env) ++
   match outcome (submit a env) with
   | Ok (dspa_host, token, run_id) =>
       if monitor a
       then monitor_events fuel (world env) (start_time env) dspa_host token run_id
              (namespace a)
       else []
   | Raise _ => []
   end)%list.

End WithRuntime.

End submit_pipeline_nfs_storage.

(* ===================================================================== *)
(** ** The code the DSPA API v2beta1 scripts share
       (submit_pipeline.py, submit_pipeline_complete.py and their
       variants): kubeconfig token, route and pipeline lookup *)
(* ===================================================================== *)

Module v2beta1.
Import Py World.

(** The first [for] loop of [get_openshift_token]: [Some user_name] is the
    [break], [None] the [else] branch of the loop. *)
Fixpoint find_context (contexts : list pyval) (current_context : pyval)
  : result (option pyval) :=
  match contexts with
  | [] => Ok None
  | context :: rest =>
      name ← subscript context "name";
      if py_eq name current_context then
        inner ← subscript context "context";
        user_name ← subscript inner "user";
        Ok (Some user_name)
      else find_context rest current_context
  end.

(** The second [for] loop: [Some token] is the [return]. *)
Fixpoint find_token (users : list pyval) (user_name : pyval) : result (option pyval) :=
  match users with
  | [] => Ok None
  | user :: rest =>
      name ← subscript user "name";
      if py_eq name user_name then
        inner ← subscript user "user";
        has_token ← contains "token" inner;
        if has_token : bool then
          inner' ← subscript user "user";
          token ← subscript inner' "token";
          Ok (Some token)
        else find_token rest user_name
      else find_token rest user_name
  end.

(** [dict[key] = value] and [dict.update(other)], keeping insertion order. *)
Fixpoint dict_set (d : list (string * pyval)) (key : string) (value : pyval)
  : list (string * pyval) :=
  match d with
  | [] => [(key, value)]
  | (k, v) :: d' =>
      if String.eqb key k then (k, value) :: d' else (k, v) :: dict_set d' key value
  end.

Definition dict_update (d other : list (string * pyval)) : list (string * pyval) :=
  fold_left (fun acc kv => dict_set acc (fst kv) (snd kv)) other d.

(** [v[:8]] *)
Definition slice8 (v : pyval) : result pyval :=
  match v with
  | PStr s => Ok (PStr (String.substring 0 8 s))
  | PList l => Ok (PList (take 8 l))
  | _ => Raise TypeError
  end.

Section WithRuntime.
Context `{Runtime}.

(** [get_openshift_token()]; [kubeconfig] is what opening and parsing
    [~/.kube/config] gives. *)
Definition get_openshift_token (kubeconfig : result pyval) : io pyval :=
  try_except
    (config ← lift kubeconfig;
     current_context ← lift (py_get config "current-context" PNone);
     if negb (truthy current_context) then mret PNone else
     contexts ← lift (py_get config "contexts" (PList []));
     each ← lift (iterate contexts);
     found ← lift (find_context each current_context);
     match found with
     | None => mret PNone
     | Some user_name =>
         users ← lift (py_get config "users" (PList []));
         each_user ← lift (iterate users);
         token ← lift (find_token each_user user_name);
         mret (default PNone token)
     end)
    is_Exception
    (fun e => print ("Error reading kubeconfig: " +:+ str_of_exn e);; mret PNone).

Definition route_cmd (namespace : string) : string :=
  "oc get route ds-pipeline-dspa -n " +:+ namespace
  +:+ " -o jsonpath='{.spec.host}' 2>/dev/null".

(** [get_dspa_info(namespace)]; [popen cmd] is [os.popen(cmd).read()]. *)
Definition get_dspa_info (popen : string -> result string) (namespace : string)
  : io (option string) :=
  try_except
    (out ← act (Command (route_cmd namespace)) (popen (route_cmd namespace));
     let route := strip out in
     mret (if nonempty route then Some ("https://" +:+ route) else None))
    is_Exception
    (fun _ => mret None).

Definition versions_url (dspa_url : string) (pipeline_id : pyval) : string :=
  dspa_url +:+ "/apis/v2beta1/pipelines/" +:+ str_of pipeline_id +:+ "/versions".

(** The [for] loop of [get_pipeline_info]: [Some ids] is the [return]. *)
Fixpoint look_for_pipeline (get : string -> http_outcome) (dspa_url : string)
    (pipelines : list pyval) : io (option (pyval * pyval)) :=
  match pipelines with
  | [] => mret None
  | pipeline :: rest =>
      display_name ← lift (py_get pipeline "display_name" PNone);
      if eq_str display_name "InstructLab" then
        pipeline_id ← lift (py_get pipeline "pipeline_id" PNone);
        versions_response ← act (Get (versions_url dspa_url pipeline_id))
                                (request (get (versions_url dspa_url pipeline_id)));
        if versions_response.1 =? 200 then
          versions ← lift (response_json versions_response);
          listed ← lift (py_get versions "pipeline_versions" PNone);
          if truthy listed then
            listed' ← lift (subscript versions "pipeline_versions");
            newest ← lift (first_item listed');
            version_id ← lift (py_get newest "pipeline_version_id" PNone);
            mret (Some (pipeline_id, version_id))
          else look_for_pipeline get dspa_url rest
        else look_for_pipeline get dspa_url rest
      else look_for_pipeline get dspa_url rest
  end.

Definition get_pipeline_info (get : string -> http_outcome) (dspa_url : string)
  : io (pyval * pyval) :=
  let pipelines_url := dspa_url +:+ "/apis/v2beta1/pipelines" in
  try_except
    (response ← act (Get pipelines_url) (request (get pipelines_url));
     if response.1 =? 200 then
       pipelines ← lift (response_json response);
       listed ← lift (py_get pipelines "pipelines" (PList []));
       each ← lift (iterate listed);
       found ← look_for_pipeline get dspa_url each;
       mret (default (PNone, PNone) found)
     else mret (PNone, PNone))
    is_Exception
    (fun e => print ("Error getting pipeline info: " +:+ str_of_exn e);;
              mret (PNone, PNone)).

End WithRuntime.

End v2beta1.

(* ===================================================================== *)
(** ** submit_pipeline.py *)
(* ===================================================================== *)

Module submit_pipeline.
Import Py World v2beta1.

(** The table [default_params] of [submit_pipeline]. *)
Definition default_params : list (string * pyval) :=
  [ ("output_model_name", PStr "fine-tuned-granite-7b");
    ("output_model_registry_api_url", PStr "");
    ("output_model_registry_name", PStr "");
    ("output_model_version", PStr "");
    ("output_oci_model_uri", PStr "");
    ("output_oci_registry_secret", PStr "oci-output-push-secret");
    ("sdg_base_model", PStr "oci://registry.redhat.io/rhoai/granite-7b-starter");
    ("sdg_repo_url", PStr "https://github.com/cnuland/hello-chris-dev-taxonomy.git");
    ("train_node_selectors", PDict []);
    ("train_tolerations",
      PList [ PDict [ ("key", PStr "nvidia.com/gpu");
                      ("operator", PStr "Equal");
                      ("value", PStr "true");
                      ("effect", PStr "NoSchedule") ] ]);
    ("sdg_teacher_secret", PStr "teacher-secret");
    ("sdg_repo_secret", PStr "taxonomy-repo-secret");
    ("eval_judge_secret", PStr "judge-secret");
    ("train_gpu_identifier", PStr "nvidia.com/gpu");
    ("eval_gpu_identifier", PStr "nvidia.com/gpu");
    ("k8s_storage_class_name", PStr "gp3");
    ("k8s_storage_size", PStr "50Gi");
    ("sdg_scale_factor", PInt 30);
    ("train_num_epochs_phase_1", PInt 7);
    ("train_num_epochs_phase_2", PInt 10);
    ("train_effective_batch_size_phase_1", PInt 3840);
    ("train_effective_batch_size_phase_2", PInt 3840);
    ("train_learning_rate_phase_1", PFloat 2e-6%float);
    ("train_learning_rate_phase_2", PFloat 1e-6%float);
    ("train_cpu_per_worker", PStr "8");
    ("train_memory_per_worker", PStr "32Gi");
    ("train_gpu_per_worker", PInt 1);
    ("train_num_workers", PInt 4);
    ("sdg_batch_size", PInt 10);
    ("sdg_num_workers", PInt 4);
    ("mt_bench_merge_system_user_message", PBool false);
    ("final_eval_merge_system_user_message", PBool false);
    ("mt_bench_max_workers", PStr "auto");
    ("final_eval_max_workers", PStr "auto");
    ("final_eval_batch_size", PStr "auto");
    ("final_eval_few_shots", PInt 5) ].

(** The [payload] of [submit_pipeline]. *)
Definition payload (pipeline_id version_id : pyval) (parameters : list (string * pyval))
  : pyval :=
  PDict
    [ ("display_name", PStr "instructlab-pipeline-run");
      ("description", PStr "InstructLab SDG and Training Pipeline Run");
      ("pipeline_version_reference",
        PDict [ ("pipeline_id", pipeline_id);
                ("pipeline_version_id", version_id) ]);
      ("runtime_config", PDict [ ("parameters", PDict parameters) ]) ].

Definition port_forward_url : string := "https://localhost:8888".

(** Everything [submit_pipeline] meets outside the process. *)
Record environment : Type := {
  kubeconfig : result pyval;
  popen : string -> result string;
  http_get : string -> http_outcome;
  http_post : string -> pyval -> http_outcome;
}.

Section WithRuntime.
Context `{Runtime}.

(** The [try] around the POST, with its handler. *)
Definition post_run (env : environment) (namespace : string) (use_port_forward : bool)
    (dspa_url : string) (body : pyval) : io bool :=
  let url := dspa_url +:+ "/apis/v2beta1/runs" in
  try_except
    (response ← act (Post url body) (request (http_post env url body));
     if (response.1 =? 200) || (response.1 =? 201) then
       result ← lift (response_json response);
       run_id ← lift (py_get result "run_id" (PStr "unknown"));
       print "✅ Pipeline run submitted successfully!";;
       print ("   Run ID: " +:+ str_of run_id);;
       shown ← lift (py_get result "display_name" PNone);
       print ("   Display Name: " +:+ str_of shown);;
       print "
📊 Monitor your pipeline run:";;
       (if use_port_forward then mret tt
        else
          again ← get_dspa_info (popen env) namespace;
          match again with
          | Some _ => mret tt
          | None => raise AttributeError
          end);;
       print ("   DSPA Route: " +:+ dspa_url);;
       print ("   CLI: oc get pods -n " +:+ namespace +:+ " | grep instructlab");;
       mret true
     else
       print "❌ Pipeline submission failed:";;
       print ("   Status: " +:+ pretty response.1);;
       print ("   Response: " +:+ response.2);;
       mret false)
    is_Exception
    (fun e => print ("❌ Error submitting pipeline: " +:+ str_of_exn e);; mret false).

Definition submit_pipeline (env : environment) (namespace : string)
    (use_port_forward : bool) (custom_params : option (list (string * pyval)))
  : io bool :=
  token ← get_openshift_token (kubeconfig env);
  if negb (truthy token) then
    print "❌ OpenShift token not found. Please log in to OpenShift with 'oc login'";;
    mret false
  else
    dspa ← (if use_port_forward then
              print "🔗 Using port-forwarded connection (recommended)";;
              print "   Make sure port-forwarding is active: oc port-forward -n petloan-instructlab svc/ds-pipeline-dspa 8888:8888";;
              mret (Some port_forward_url)
            else
              print "🔗 Using OAuth route connection";;
              get_dspa_info (popen env) namespace);
    match dspa with
    | None =>
        print "❌ Could not get DSPA route. Try using port-forward mode.";;
        mret false
    | Some dspa_url =>
        print "📋 Getting pipeline information...";;
        ids ← get_pipeline_info (http_get env) dspa_url;
        if negb (truthy ids.1) || negb (truthy ids.2) then
          print "❌ Could not find InstructLab pipeline. Make sure it's registered in DSPA.";;
          mret false
        else
          short_id ← lift (slice8 ids.1);
          print ("✅ Found InstructLab pipeline: " +:+ str_of short_id +:+ "...");;
          short_version ← lift (slice8 ids.2);
          print ("✅ Using version: " +:+ str_of short_version +:+ "...");;
          let parameters :=
            match custom_params with
            | Some (c :: cs) => dict_update default_params (c :: cs)
            | _ => default_params
            end in
          print "🚀 Submitting pipeline run...";;
          post_run env namespace use_port_forward dspa_url
                   (payload ids.1 ids.2 parameters)
    end.

(** The command line of the script. *)
Record args : Type := {
  namespace : string;
  route : bool;
  repo_url : option string;
  base_model : option string;
  output_model_name : option string;
}.

Definition given (o : option string) : bool :=
  match o with
  | Some s => nonempty s
  | None => false
  end.

(** The dict [custom_params] that [main] builds from the arguments. *)
Definition custom_params (a : args) : list (string * pyval) :=
  let c0 := [] in
  let c1 := if given (repo_url a)
            then dict_set c0 "sdg_repo_url" (PStr (default "" (repo_url a))) else c0 in
  let c2 := if given (base_model a)
            then dict_set c1 "sdg_base_model" (PStr (default "" (base_model a))) else c1 in
  if given (output_model_name a)
  then dict_set c2 "output_model_name" (PStr (default "" (output_model_name a))) else c2.

Definition main (a : args) (env : environment) : io unit :=
  let custom := custom_params a in
  success ← submit_pipeline env (namespace a) (negb (route a))
              (match custom with [] => None | _ => Some custom end);
  if negb success then raise (SystemExit 1) else mret tt.

End WithRuntime.

End submit_pipeline.

(* ===================================================================== *)
(** ** [submit_pipeline] of submit_pipeline_fixed.py,
       submit_pipeline_complete.py and submit_pipeline_storage_fixed.py *)
(* ===================================================================== *)

(** The three scripts carry the function of submit_pipeline.py with other
    parameter tables, other messages and other return values. *)
Module variants.
Import Py World v2beta1.

Section Script.
Context `{Runtime} {R : Type}.
(** What the function returns where it gives up before the POST, when the
    POST fails, and when the server accepts the run. *)
Variable failed refused : R.
Variable accepted : pyval -> R.
(** The parameter table, the names in the payload, and the lines printed
    before the POST and after an accepted one. *)
Variable table : list (string * pyval).
Variable display_name description : string.
Variable announce : list string.
Variable submitted : string.
Variable report : string -> list string.

Definition payload (pipeline_id version_id : pyval) (parameters : list (string * pyval))
  : pyval :=
  PDict
    [ ("display_name", PStr display_name);
      ("description", PStr description);
      ("pipeline_version_reference",
        PDict [ ("pipeline_id", pipeline_id);
                ("pipeline_version_id", version_id) ]);
      ("runtime_config", PDict [ ("parameters", PDict parameters) ]) ].

(** The [try] around the POST, with its handler. *)
Definition post_run (env : submit_pipeline.environment) (namespace dspa_url : string)
    (body : pyval) : io R :=
  let url := dspa_url +:+ "/apis/v2beta1/runs" in
  try_except
    (response ← act (Post url body) (request (submit_pipeline.http_post env url body));
     if (response.1 =? 200) || (response.1 =? 201) then
       result ← lift (response_json response);
       run_id ← lift (py_get result "run_id" (PStr "unknown"));
       print submitted;;
       print ("   Run ID: " +:+ str_of run_id);;
       shown ← lift (py_get result "display_name" PNone);
       print ("   Display Name: " +:+ str_of shown);;
       IO (map Print (report namespace)) (Ok tt);;
       mret (accepted run_id)
     else
       print "❌ Pipeline submission failed:";;
       print ("   Status: " +:+ pretty response.1);;
       print ("   Response: " +:+ response.2);;
       mret refused)
    is_Exception
    (fun e => print ("❌ Error submitting pipeline: " +:+ str_of_exn e);; mret refused).

Definition submit_pipeline (env : submit_pipeline.environment) (namespace : string)
    (use_port_forward : bool) (custom_params : option (list (string * pyval)))
  : io R :=
  token ← get_openshift_token (submit_pipeline.kubeconfig env);
  if negb (truthy token) then
    print "❌ OpenShift token not found. Please log in to OpenShift with 'oc login'";;
    mret failed
  else
    dspa ← (if use_port_forward then
              print "🔗 Using port-forwarded connection (recommended)";;
              print "   Make sure port-forwarding is active: oc port-forward -n petloan-instructlab svc/ds-pipeline-dspa 8888:8888";;
              mret (Some submit_pipeline.port_forward_url)
            else
              print "🔗 Using OAuth route connection";;
              get_dspa_info (submit_pipeline.popen env) namespace);
    match dspa with
    | None =>
        print "❌ Could not get DSPA route. Try using port-forward mode.";;
        mret failed
    | Some dspa_url =>
        print "📋 Getting pipeline information...";;
        ids ← get_pipeline_info (submit_pipeline.http_get env) dspa_url;
        if negb (truthy ids.1) || negb (truthy ids.2) then
          print "❌ Could not find InstructLab pipeline. Make sure it's registered in DSPA.";;
          mret failed
        else
          short_id ← lift (slice8 ids.1);
          print ("✅ Found InstructLab pipeline: " +:+ str_of short_id +:+ "...");;
          short_version ← lift (slice8 ids.2);
          print ("✅ Using version: " +:+ str_of short_version +:+ "...");;
          let parameters :=
            match custom_params with
            | Some (c :: cs) => dict_update table (c :: cs)
            | _ => table
            end in
          IO (map Print announce) (Ok tt);;
          post_run env namespace dspa_url (payload ids.1 ids.2 parameters)
    end.

End Script.

End variants.

(* ===================================================================== *)
(** ** submit_pipeline_fixed.py *)
(* ===================================================================== *)

Module submit_pipeline_fixed.
Import Py World.

Definition cuda_fixed_params : list (string * pyval) :=
  [
    ("output_model_name", PStr "fine-tuned-granite-7b-fixed");
    ("output_model_registry_api_url", PStr "");
    ("output_model_registry_name", PStr "");
    ("output_model_version", PStr "");
    ("output_oci_model_uri", PStr "");
    ("output_oci_registry_secret", PStr "oci-output-push-secret");
    ("sdg_base_model", PStr "oci://registry.redhat.io/rhoai/granite-7b-starter");
    ("sdg_repo_url", PStr "https://github.com/cnuland/hello-chris-dev-taxonomy.git");
    ("train_node_selectors", PDict [ ("node-role.kubernetes.io/gpu", PStr "") ]);
    ("train_tolerations", PList [ PDict [ ("key", PStr "nvidia.com/gpu");
                ("operator", PStr "Equal");
                ("value", PStr "true");
                ("effect", PStr "NoSchedule") ] ]);
    ("sdg_teacher_secret", PStr "teacher-secret");
    ("sdg_repo_secret", PStr "taxonomy-repo-secret");
    ("eval_judge_secret", PStr "judge-secret");
    ("train_gpu_identifier", PStr "nvidia.com/gpu");
    ("eval_gpu_identifier", PStr "nvidia.com/gpu");
    ("k8s_storage_class_name", PStr "gp3");
    ("k8s_storage_size", PStr "50Gi");
    ("sdg_scale_factor", PInt 1);
    ("train_num_epochs_phase_1", PInt 1);
    ("train_num_epochs_phase_2", PInt 1);
    ("train_effective_batch_size_phase_1", PInt 128);
    ("train_effective_batch_size_phase_2", PInt 128);
    ("train_learning_rate_phase_1", PFloat 1e-5%float);
    ("train_learning_rate_phase_2", PFloat 5e-6%float);
    ("train_cpu_per_worker", PStr "4");
    ("train_memory_per_worker", PStr "16Gi");
    ("train_gpu_per_worker", PInt 1);
    ("train_num_workers", PInt 1);
    ("sdg_batch_size", PInt 2);
    ("sdg_num_workers", PInt 2);
    ("mt_bench_merge_system_user_message", PBool false);
    ("final_eval_merge_system_user_message", PBool false);
    ("mt_bench_max_workers", PStr "2");
    ("final_eval_max_workers", PStr "2");
    ("final_eval_batch_size", PStr "2");
    ("final_eval_few_shots", PInt 1) ].

Section WithRuntime.
Context `{Runtime}.

Definition submit_pipeline : submit_pipeline.environment -> string -> bool ->
    option (list (string * pyval)) -> io bool :=
  variants.submit_pipeline false false (fun _ => true) cuda_fixed_params
    "instructlab-cuda-fixed-run"
    "InstructLab Pipeline Run - CUDA Driver Issues Fixed"
    [ "🚀 Submitting CUDA-FIXED pipeline run...";
      "   Using conservative parameters to avoid GPU driver issues";
      "   Batch sizes reduced, single worker mode enabled" ]
    "✅ CUDA-FIXED Pipeline run submitted successfully!"
    (fun namespace =>
       [ "
🔧 CUDA FIX APPLIED:";
         "   • Reduced batch sizes to minimize GPU memory usage";
         "   • Single worker configuration to reduce complexity";
         "   • Conservative training parameters";
         "   • GPU node selection with proper tolerations";
         "
📊 Monitor your pipeline run:";
         "   CLI: kubectl get pods -n " +:+ namespace +:+ " | grep instructlab";
         "   CLI: kubectl get workflows -n " +:+ namespace ]).

(** The command line is that of submit_pipeline.py. *)
Definition main (a : submit_pipeline.args) (env : submit_pipeline.environment) : io unit :=
  print "🔧 CUDA-FIXED INSTRUCTLAB PIPELINE SUBMISSION";;
  print "   This version includes fixes for CUDA driver compatibility issues";;
  print "   Using conservative parameters to ensure successful training";;
  print "";;
  let custom := submit_pipeline.custom_params a in
  success ← submit_pipeline env (submit_pipeline.namespace a)
              (negb (submit_pipeline.route a))
              (match custom with [] => None | _ => Some custom end);
  if negb success then raise (SystemExit 1)
  else
    print "
🎯 NEXT STEPS:";;
    print "   1. Monitor the pipeline: kubectl get workflows -n petloan-instructlab";;
    print "   2. Check pod logs if issues occur: kubectl logs <pod-name> -n petloan-instructlab";;
    print "   3. If successful, this will produce a fine-tuned model from your taxonomy".

End WithRuntime.

End submit_pipeline_fixed.

(* ===================================================================== *)
(** ** submit_pipeline_complete.py: monitoring *)
(* ===================================================================== *)

Module submit_pipeline_complete.
Import Py World.

Definition max_monitoring_time : nat := 4 * 60 * 60.
Definition check_interval : nat := 30.
Definition terminal : list string := ["Succeeded"; "Failed"; "Error"].

(** One pass of the loop as the world sees it; [popen cmd] is
    [os.popen(cmd).read()]. *)
Record tick : Type := {
  popen : string -> result string;
  poll_secs : nat;
  nap : sleep_outcome;
}.

(** The local variables of [monitor_pipeline]; [now] is the wall clock,
    which the function never reads, and [current_time] tells whether the
    variable of that name has been assigned yet. *)
Record locals : Type := {
  now : nat;
  monitoring_duration : nat;
  last_status : option string;
  last_progress : option string;
  current_time : bool;
}.

Definition jsonpath_cmd (workflow_name namespace field : string) : string :=
  "kubectl get workflow " +:+ workflow_name +:+ " -n " +:+ namespace
  +:+ " -o jsonpath='{.status." +:+ field +:+ "}'".

Definition pytorchjobs_cmd (namespace : string) : string :=
  "kubectl get pytorchjobs -n " +:+ namespace +:+ " --no-headers 2>/dev/null | wc -l".

(** [time.sleep(check_interval); monitoring_duration += check_interval] *)
Definition sleep_and_count (t : tick) (st : locals) : result locals :=
  match nap t with
  | Slept late =>
      Ok {| now := now st + poll_secs t + check_interval + late;
            monitoring_duration := monitoring_duration st + check_interval;
            last_status := last_status st;
            last_progress := last_progress st;
            current_time := current_time st |}
  | Interrupted => Raise KeyboardInterrupt
  end.

Definition differs (s : string) (last : option string) : bool :=
  match last with
  | Some l => negb (String.eqb s l)
  | None => true
  end.

Section WithRuntime.
Context `{Runtime}.

(** The part of the [try] after the status report. *)
Definition training_check (namespace : string) (t : tick) (st : locals)
  : locals * result (unit + bool) :=
  match popen t (pytorchjobs_cmd namespace) with
  | Raise e => (st, Raise e)
  | Ok out =>
      let pytorch_jobs := strip out in
      let counted := if nonempty pytorch_jobs
                     then match int_of_str pytorch_jobs with
                          | Some _ => Ok tt
                          | None => Raise ValueError
                          end
                     else Ok tt in
      match counted with
      | Raise e => (st, Raise e)
      | Ok _ =>
          match sleep_and_count t st with
          | Ok st' => (st', Ok (inl tt))
          | Raise e => (st, Raise e)
          end
      end
  end.

(** The body of the [try]: the locals as the body leaves them, and how it
    ends ([inr b] is [return b]). *)
Definition attempt (workflow_name namespace : string) (t : tick) (st : locals)
  : locals * result (unit + bool) :=
  match popen t (jsonpath_cmd workflow_name namespace "phase") with
  | Raise e => (st, Raise e)
  | Ok out1 =>
  match popen t (jsonpath_cmd workflow_name namespace "progress") with
  | Raise e => (st, Raise e)
  | Ok out2 =>
  match popen t (jsonpath_cmd workflow_name namespace "message") with
  | Raise e => (st, Raise e)
  | Ok out3 =>
      let status := strip out1 in
      let progress := strip out2 in
      let st1 := {| now := now st; monitoring_duration := monitoring_duration st;
                    last_status := last_status st; last_progress := last_progress st;
                    current_time := true |} in
      if differs status (last_status st) || differs progress (last_progress st) then
        if existsb (String.eqb status) terminal then
          (st1, Ok (inr (String.eqb status "Succeeded")))
        else
          training_check namespace t
            {| now := now st; monitoring_duration := monitoring_duration st;
               last_status := Some status; last_progress := Some progress;
               current_time := true |}
      else training_check namespace t st1
  end end end.

(** The [try] with its two handlers.  The second handler prints
    [current_time] before it sleeps. *)
Definition body (workflow_name namespace : string) (t : tick) (st : locals)
  : locals + result bool :=
  match attempt workflow_name namespace t st with
  | (st', Ok (inl tt)) => inl st'
  | (_, Ok (inr b)) => inr (Ok b)
  | (st', Raise e) =>
      if is_KeyboardInterrupt e then inr (Ok false)
      else if is_Exception e then
        if current_time st' then
          match sleep_and_count t st' with
          | Ok st'' => inl st''
          | Raise e' => inr (Raise e')
          end
        else inr (Raise (UnboundLocalError "current_time"))
      else inr (Raise e)
  end.

Definition in_time (st : locals) : bool :=
  (monitoring_duration st <? max_monitoring_time)%nat.

Definition find_cmd (namespace : string) (run_id : pyval) : string :=
  if truthy run_id then
    "kubectl get workflows -n " +:+ namespace +:+ " -l pipeline/runid=" +:+ str_of run_id
    +:+ " -o jsonpath='{.items[0].metadata.name}'"
  else
    "kubectl get workflows -n " +:+ namespace
    +:+ " --sort-by=.metadata.creationTimestamp -o jsonpath='{.items[-1].metadata.name}'".

(** [monitor_pipeline(namespace, run_id)]; [lookup] is the world of the
    command that finds the workflow, [world] that of the loop. *)
Definition monitor_pipeline (fuel : nat) (lookup : string -> result string)
    (world : nat -> tick) (start_time : nat) (namespace : string) (run_id : pyval)
  : option (result bool) :=
  match lookup (find_cmd namespace run_id) with
  | Raise e => Some (Raise e)
  | Ok out =>
      let workflow_name := strip out in
      if nonempty workflow_name then
        while in_time (fun k => body workflow_name namespace (world k))
              (fun _ => Ok false)
              fuel 0%nat
              {| now := start_time; monitoring_duration := 0;
                 last_status := None; last_progress := None;
                 current_time := false |}
      else Some (Ok false)
  end.

(** [main()] from the point where [submit_pipeline] has returned
    [(success, run_id)]: the exit on failure, then the monitoring. *)
Definition main_after_submit (fuel : nat) (monitor : bool) (success : bool)
    (run_id : pyval) (lookup : string -> result string) (world : nat -> tick)
    (start_time : nat) (namespace : string) : option process_end :=
  if negb success then Some (Exit 1)
  else if monitor then
    match monitor_pipeline fuel lookup world start_time namespace run_id with
    | None => None
    | Some r => Some (end_of r)
    end
  else Some (Exit 0).

End WithRuntime.

(** *** What the monitoring does to the cluster *)

(** What a pass does to the cluster: the three status queries and, unless
    the pass returns, the count of the PyTorchJobs; a query that raises
    ends the [try]. *)
Definition pass_events (workflow_name namespace : string) (t : tick) (st : locals)
  : list event :=
  let phase := jsonpath_cmd workflow_name namespace "phase" in
  let progress := jsonpath_cmd workflow_name namespace "progress" in
  let message := jsonpath_cmd workflow_name namespace "message" in
  match popen t phase with
  | Raise _ => [Command phase]
  | Ok out1 =>
  match popen t progress with
  | Raise _ => [Command phase; Command progress]
  | Ok out2 =>
  match popen t message with
  | Raise _ => [Command phase; Command progress; Command message]
  | Ok _ =>
      if (differs (strip out1) (last_status st) || differs (strip out2) (last_progress st))
         && existsb (String.eqb (strip out1)) terminal
      then [Command phase; Command progress; Command message]
      else [Command phase; Command progress; Command message;
            Command (pytorchjobs_cmd namespace)]
  end end end.

Section WithRuntime.
Context `{Runtime}.

Definition monitor_events (fuel : nat) (lookup : string -> result string)
    (world : nat -> tick) (start_time : nat) (namespace : string) (run_id : pyval)
  : list event :=
  Command (find_cmd namespace run_id) ::
  match lookup (find_cmd namespace run_id) with
  | Raise _ => []
  | Ok out =>
      let workflow_name := strip out in
      if nonempty workflow_name then
        while_events in_time (fun k => body workflow_name namespace (world k))
          (fun k st => pass_events workflow_name namespace (world k) st)
          fuel 0%nat
          {| now := start_time; monitoring_duration := 0;
             last_status := None; last_progress := None;
             current_time := false |}
      else []
  end.

End WithRuntime.

(** *** The submission *)

Definition complete_training_params : list (string * pyval) :=
  [
    ("output_model_name", PStr "fine-tuned-granite-7b-complete");
    ("output_model_registry_api_url", PStr "");
    ("output_model_registry_name", PStr "");
    ("output_model_version", PStr "");
    ("output_oci_model_uri", PStr "");
    ("output_oci_registry_secret", PStr "oci-output-push-secret");
    ("sdg_base_model", PStr "oci://registry.redhat.io/rhoai/granite-7b-starter");
    ("sdg_repo_url", PStr "https://github.com/cnuland/hello-chris-dev-taxonomy.git");
    ("train_node_selectors", PDict []);
    ("train_tolerations", PList [ PDict [ ("key", PStr "nvidia.com/gpu");
                ("operator", PStr "Equal");
                ("value", PStr "true");
                ("effect", PStr "NoSchedule") ] ]);
    ("sdg_teacher_secret", PStr "teacher-secret");
    ("sdg_repo_secret", PStr "taxonomy-repo-secret");
    ("eval_judge_secret", PStr "judge-secret");
    ("train_gpu_identifier", PStr "nvidia.com/gpu");
    ("eval_gpu_identifier", PStr "nvidia.com/gpu");
    ("k8s_storage_class_name", PStr "gp3");
    ("k8s_storage_size", PStr "50Gi");
    ("sdg_scale_factor", PInt 5);
    ("train_num_epochs_phase_1", PInt 2);
    ("train_num_epochs_phase_2", PInt 3);
    ("train_effective_batch_size_phase_1", PInt 256);
    ("train_effective_batch_size_phase_2", PInt 256);
    ("train_learning_rate_phase_1", PFloat 2e-5%float);
    ("train_learning_rate_phase_2", PFloat 1e-5%float);
    ("train_cpu_per_worker", PStr "6");
    ("train_memory_per_worker", PStr "24Gi");
    ("train_gpu_per_worker", PInt 1);
    ("train_num_workers", PInt 1);
    ("sdg_batch_size", PInt 4);
    ("sdg_num_workers", PInt 4);
    ("mt_bench_merge_system_user_message", PBool false);
    ("final_eval_merge_system_user_message", PBool false);
    ("mt_bench_max_workers", PStr "2");
    ("final_eval_max_workers", PStr "2");
    ("final_eval_batch_size", PStr "4");
    ("final_eval_few_shots", PInt 2);
    ("train_num_warmup_steps_phase_1", PInt 100);
    ("train_num_warmup_steps_phase_2", PInt 100);
    ("train_save_samples", PInt 50000);
    ("train_seed", PInt 42);
    ("train_max_batch_len", PInt 4096);
    ("sdg_max_batch_len", PInt 4096);
    ("sdg_sample_size", PFloat 1.0%float);
    ("sdg_pipeline", PStr "/usr/share/instructlab/sdg/pipelines/full") ].

(** What [submit_pipeline] returns: a bare [False] where it gives up before
    the POST, the pair [(success, run_id)] after it. *)
Inductive returned : Type :=
| Bare (success : bool)
| Pair (success : bool) (run_id : pyval).

(** The command line of the script. *)
Record args : Type := {
  namespace : string;
  route : bool;
  monitor : bool;
  repo_url : option string;
  base_model : option string;
  output_model_name : option string;
}.

(** The dict [custom_params] that [main] builds from the arguments. *)
Definition custom_params (a : args) : list (string * pyval) :=
  let c0 := [] in
  let c1 := if submit_pipeline.given (repo_url a)
            then v2beta1.dict_set c0 "sdg_repo_url" (PStr (default "" (repo_url a)))
            else c0 in
  let c2 := if submit_pipeline.given (base_model a)
            then v2beta1.dict_set c1 "sdg_base_model" (PStr (default "" (base_model a)))
            else c1 in
  if submit_pipeline.given (output_model_name a)
  then v2beta1.dict_set c2 "output_model_name" (PStr (default "" (output_model_name a)))
  else c2.

Section WithRuntime.
Context `{Runtime}.

Definition submit_pipeline : submit_pipeline.environment -> string -> bool ->
    option (list (string * pyval)) -> io returned :=
  variants.submit_pipeline (Bare false) (Pair false PNone) (fun run_id => Pair true run_id)
    complete_training_params
    "instructlab-complete-training-run"
    "InstructLab Complete Model Training Pipeline - Optimized for Full Completion"
    [ "🚀 Submitting COMPLETE TRAINING pipeline run...";
      "   Optimized for full model training completion";
      "   Two-phase training: Knowledge → Skills → Evaluation" ]
    "✅ COMPLETE TRAINING Pipeline submitted successfully!"
    (fun namespace =>
       [ "
🎯 PIPELINE OPTIMIZATIONS APPLIED:";
         "   • Relaxed node selectors for better scheduling";
         "   • Single worker configuration for stability";
         "   • Realistic training epochs (2+3 phases)";
         "   • Balanced resource allocation";
         "   • Full SDG pipeline for quality data";
         "   • Disabled registry/OCI to avoid blocking";
         "
📊 Monitor your complete training pipeline:";
         "   kubectl get workflows -n " +:+ namespace;
         "   kubectl get pods -n " +:+ namespace +:+ " | grep instructlab";
         "   kubectl get pytorchjobs -n " +:+ namespace ]).

(** [submit_pipeline] as [main] calls it. *)
Definition submission (a : args) (env : submit_pipeline.environment) : io returned :=
  let custom := custom_params a in
  submit_pipeline env (namespace a) (negb (route a))
    (match custom with [] => None | _ => Some custom end).

(** [main()]: [success, run_id = submit_pipeline(...)] cannot unpack a bare
    [False]. *)
Definition main (fuel : nat) (a : args) (env : submit_pipeline.environment)
    (lookup : string -> result string) (world : nat -> tick) (start_time : nat)
  : option process_end :=
  match outcome (submission a env) with
  | Raise e => Some (end_of (@Raise unit e))
  | Ok (Bare _) => Some (Traceback TypeError)
  | Ok (Pair success run_id) =>
      main_after_submit fuel (monitor a) success run_id lookup world start_time
        (namespace a)
  end.

(** What a run of the script does to the cluster: the submission, then the
    monitoring. *)
Definition events (fuel : nat) (a : args) (env : submit_pipeline.environment)
    (lookup : string -> result string) (world : nat -> tick) (start_time : nat)
  : list event :=
  (trace (submission a env) ++
   match outcome (submission a env) with
   | Ok (Pair true run_id) =>
       if monitor a
       then monitor_events fuel lookup world start_time (namespace a) run_id
       else []
   | _ => []
   end)%list.

End WithRuntime.

End submit_pipeline_complete.

(* ===================================================================== *)
(** ** submit_pipeline_storage_fixed.py *)
(* ===================================================================== *)

Module submit_pipeline_storage_fixed.
Import Py World.

Definition storage_fixed_params : list (string * pyval) :=
  [
    ("output_model_name", PStr "fine-tuned-granite-7b-storage-fixed");
    ("output_model_registry_api_url", PStr "");
    ("output_model_registry_name", PStr "");
    ("output_model_version", PStr "");
    ("output_oci_model_uri", PStr "");
    ("output_oci_registry_secret", PStr "oci-output-push-secret");
    ("sdg_base_model", PStr "oci://registry.redhat.io/rhoai/granite-7b-starter");
    ("sdg_repo_url", PStr "https://github.com/cnuland/hello-chris-dev-taxonomy.git");
    ("train_node_selectors", PDict []);
    ("train_tolerations", PList [ PDict [ ("key", PStr "nvidia.com/gpu");
                ("operator", PStr "Equal");
                ("value", PStr "true");
                ("effect", PStr "NoSchedule") ] ]);
    ("sdg_teacher_secret", PStr "teacher-secret");
    ("sdg_repo_secret", PStr "taxonomy-repo-secret");
    ("eval_judge_secret", PStr "judge-secret");
    ("train_gpu_identifier", PStr "nvidia.com/gpu");
    ("eval_gpu_identifier", PStr "nvidia.com/gpu");
    ("k8s_storage_class_name", PStr "gp3");
    ("k8s_storage_size", PStr "50Gi");
    ("sdg_scale_factor", PInt 3);
    ("train_num_epochs_phase_1", PInt 1);
    ("train_num_epochs_phase_2", PInt 1);
    ("train_effective_batch_size_phase_1", PInt 128);
    ("train_effective_batch_size_phase_2", PInt 128);
    ("train_learning_rate_phase_1", PFloat 1e-5%float);
    ("train_learning_rate_phase_2", PFloat 5e-6%float);
    ("train_cpu_per_worker", PStr "4");
    ("train_memory_per_worker", PStr "16Gi");
    ("train_gpu_per_worker", PInt 1);
    ("train_num_workers", PInt 1);
    ("sdg_batch_size", PInt 2);
    ("sdg_num_workers", PInt 2);
    ("mt_bench_merge_system_user_message", PBool false);
    ("final_eval_merge_system_user_message", PBool false);
    ("mt_bench_max_workers", PStr "2");
    ("final_eval_max_workers", PStr "2");
    ("final_eval_batch_size", PStr "2");
    ("final_eval_few_shots", PInt 1);
    ("train_num_warmup_steps_phase_1", PInt 50);
    ("train_num_warmup_steps_phase_2", PInt 50);
    ("train_save_samples", PInt 25000);
    ("train_seed", PInt 42);
    ("train_max_batch_len", PInt 2048);
    ("sdg_max_batch_len", PInt 2048);
    ("sdg_sample_size", PFloat 1.0%float);
    ("sdg_pipeline", PStr "/usr/share/instructlab/sdg/pipelines/simple") ].

Definition terminal : list string := ["Succeeded"; "Failed"; "Error"].

Definition latest_cmd (namespace : string) : string :=
  "kubectl get workflows -n " +:+ namespace
  +:+ " --sort-by=.metadata.creationTimestamp --no-headers | tail -1".

(** One pass of the monitoring as the world sees it: what [os.popen] gives
    for the command, what [time.strftime] shows, and how the sleep ends. *)
Record tick : Type := {
  popen : string -> result string;
  clock : string;
  nap : sleep_outcome;
}.

(** [time.sleep(30)] *)
Definition sleep (t : tick) : io unit :=
  act (Sleep 30) (match nap t with
                  | Slept _ => Ok tt
                  | Interrupted => Raise KeyboardInterrupt
                  end).

(** The command line of the script. *)
Record args : Type := {
  namespace : string;
  route : bool;
  monitor : bool;
}.

Section WithRuntime.
Context `{Runtime}.

(** The function takes no custom parameters, and gives the pair
    [(False, None)] wherever it fails. *)
Definition submit_pipeline (env : submit_pipeline.environment) (namespace : string)
    (use_port_forward : bool) : io (bool * pyval) :=
  variants.submit_pipeline (false, PNone) (false, PNone) (fun run_id => (true, run_id))
    storage_fixed_params
    "instructlab-storage-fixed-run"
    "InstructLab Pipeline - Storage Access Mode Fixed (RWO instead of RWX)"
    [ "🚀 Submitting STORAGE-FIXED pipeline run...";
      "   This version should bypass the ReadWriteMany/ReadWriteOnce issue";
      "   Using conservative parameters for reliable completion" ]
    "✅ STORAGE-FIXED Pipeline submitted successfully!"
    (fun namespace =>
       [ "\n🔧 STORAGE FIXES APPLIED:";
         "   • Addressed ReadWriteMany vs ReadWriteOnce issue";
         "   • Removed restrictive node selectors";
         "   • Conservative resource requirements";
         "   • Single worker configuration";
         "   • Simplified SDG pipeline";
         "\n📊 Monitor the new pipeline:";
         "   kubectl get workflows -n " +:+ namespace;
         "   kubectl get pods -n " +:+ namespace +:+ " | grep instructlab" ])
    env namespace use_port_forward None.

(** One pass of the [for] loop: [true] is the [break]. *)
Definition pass (namespace : string) (t : tick) : io bool :=
  try_except
    (out ← act (Command (latest_cmd namespace)) (popen t (latest_cmd namespace));
     let result := strip out in
     stop ← (if nonempty result then
               let parts := split result in
               workflow_name ← lift (item parts 0);
               status ← lift (item parts 1);
               let age := if (2 <? length parts)%nat
                          then default "" (nth_error parts 2) else "unknown" in
               print ("[" +:+ clock t +:+ "] " +:+ workflow_name +:+ ": " +:+ status
                      +:+ " (Age: " +:+ age +:+ ")");;
               if existsb (String.eqb status) terminal then
                 print ("\n🏁 Pipeline completed with status: " +:+ status);;
                 (if String.eqb status "Succeeded"
                  then print "🎉 SUCCESS! Pipeline completed successfully!"
                  else print ("❌ Pipeline ended with status: " +:+ status));;
                 mret true
               else mret false
             else mret false);
     if stop : bool then mret true else sleep t;; mret false)
    is_Exception
    (fun e => print ("Monitoring error: " +:+ str_of_exn e);; sleep t;; mret false).

(** [n] more passes of [for i in range(20)], from pass [k] on. *)
Fixpoint passes (namespace : string) (world : nat -> tick) (n k : nat) : io unit :=
  match n with
  | O => mret tt
  | S n' =>
      stop ← pass namespace (world k);
      if stop : bool then mret tt else passes namespace world n' (S k)
  end.

Definition monitor_pipeline_simple (namespace : string) (world : nat -> tick) : io unit :=
  print "\n🔍 Monitoring latest pipeline...";;
  passes namespace world 20 0;;
  print "\n📋 Check full status manually:";;
  print ("kubectl get workflows -n " +:+ namespace).

Definition main (a : args) (env : submit_pipeline.environment) (world : nat -> tick)
  : io unit :=
  print "🔧 STORAGE-FIXED INSTRUCTLAB PIPELINE SUBMISSION";;
  print "   This version fixes the ReadWriteMany vs ReadWriteOnce storage issue";;
  print "   EBS volumes only support ReadWriteOnce access mode";;
  print "";;
  submitted ← submit_pipeline env (namespace a) (negb (route a));
  if negb submitted.1 then raise (SystemExit 1)
  else
    print "\n🎯 THIS PIPELINE SHOULD WORK:";;
    print "   1. Fixed storage access mode compatibility";;
    print "   2. Removed scheduling constraints";;
    print "   3. Conservative resource requirements";;
    print "   4. Single worker for simplicity";;
    if monitor a then monitor_pipeline_simple (namespace a) world
    else
      print "\n📋 Monitor manually:";;
      print ("   kubectl get workflows -n " +:+ namespace a).

End WithRuntime.

End submit_pipeline_storage_fixed.

(* ===================================================================== *)
(** ** fix_granite_image.py *)
(* ===================================================================== *)

Module fix_granite_image.
Import Py World.

(** The double quote character, for the texts that contain it. *)
Definition dq : string := String "034"%char EmptyString.
Definition quoted (s : string) : string := dq +:+ s +:+ dq.

Definition failing_pods : list string :=
  [ "instructlab-dpltw-system-container-impl-1650928254";
    "instructlab-dpltw-system-container-impl-3973677185" ].

Definition delete_pod_cmd (pod namespace : string) : string :=
  "oc delete pod " +:+ pod +:+ " -n " +:+ namespace +:+ " --ignore-not-found=true".

Definition workaround_path : string := "/tmp/granite_workaround.yaml".
Definition apply_cmd : string := "oc apply -f /tmp/granite_workaround.yaml".

(** The manifest [create_replacement_pods] writes. *)
Definition busybox_yaml (namespace : string) : string :=
"
apiVersion: v1
kind: Pod
metadata:
  name: granite-workaround-1650928254
  namespace: " +:+ namespace +:+ "
  labels:
    pipeline/runid: d55c2130-2955-4180-9436-6c359c2fc1a7
    workflows.argoproj.io/workflow: instructlab-dpltw
spec:
  restartPolicy: Never
  imagePullSecrets:
  - name: ilab-pull-secret
  - name: pipeline-runner-dspa-dockercfg-rx6sd
  containers:
  - name: main
    image: registry.redhat.io/ubi8/ubi:latest
    command: ['/bin/bash']
    args:
    - -c
    - |
      echo " +:+ quoted "Creating workaround for granite model..." +:+ "
      mkdir -p /models
      echo " +:+ quoted "model_placeholder" +:+ " > /models/placeholder.txt
      echo " +:+ quoted "Granite workaround complete" +:+ "
      sleep 30
    volumeMounts:
    - name: model-cache
      mountPath: /model
  volumes:
  - name: model-cache
    persistentVolumeClaim:
      claimName: 8b826e65-92eb-4a66-bbbd-75c91f810d01-model-cache
  serviceAccountName: pipeline-runner-dspa
".

(** The JSON patch of [skip_granite_tasks], as written in the source. *)
Definition patch_body : string :=
"[
            {
                " +:+ quoted "op" +:+ ": " +:+ quoted "replace" +:+ ",
                " +:+ quoted "path" +:+ ": "
  +:+ quoted "/status/nodes/instructlab-dpltw-system-container-impl-1650928254/phase" +:+ ",
                " +:+ quoted "value" +:+ ": " +:+ quoted "Succeeded" +:+ "
            },
            {
                " +:+ quoted "op" +:+ ": " +:+ quoted "replace" +:+ ", 
                " +:+ quoted "path" +:+ ": "
  +:+ quoted "/status/nodes/instructlab-dpltw-system-container-impl-3973677185/phase" +:+ ",
                " +:+ quoted "value" +:+ ": " +:+ quoted "Succeeded" +:+ "
            }
        ]".

Definition patch_cmd (workflow_name namespace : string) : string :=
  "oc patch workflow " +:+ workflow_name +:+ " -n " +:+ namespace
  +:+ " --type='json' -p='" +:+ patch_body +:+ "' ".

Definition get_workflow_cmd (workflow_name namespace output : string) : string :=
  "oc get workflow " +:+ workflow_name +:+ " -n " +:+ namespace +:+ " -o " +:+ output.

(** Everything the script meets outside the process. *)
Record environment : Type := {
  sh : string -> proc_outcome;
  write : string -> string -> result unit;
  nap : sleep_outcome;
}.

Definition run_oc_command (env : environment) (cmd : string) : io (option string) :=
  try_except
    (stdout ← act (Command cmd) (subprocess_run (sh env cmd));
     mret (Some (strip stdout)))
    is_CalledProcessError
    (fun e =>
       print ("Command failed: " +:+ cmd);;
       print ("Error: " +:+ match e with CalledProcessError _ stderr => stderr | _ => "" end);;
       mret None).

Definition get_workflow_yaml (env : environment) (workflow_name namespace : string)
  : io (option string) :=
  run_oc_command env (get_workflow_cmd workflow_name namespace "yaml").

Definition delete_pods (env : environment) (verb : string) (namespace : string)
  : io unit :=
  foldr (fun pod rest =>
           print (verb +:+ pod);;
           run_oc_command env (delete_pod_cmd pod namespace);;
           rest)
        (mret tt) failing_pods.

Definition create_replacement_pods (env : environment) (namespace : string) : io bool :=
  act (WriteFile workaround_path (busybox_yaml namespace))
      (write env workaround_path (busybox_yaml namespace));;
  result ← run_oc_command env apply_cmd;
  match result with
  | Some _ =>
      print "Created workaround pod successfully";;
      act (Sleep 35) (match nap env with
                      | Slept _ => Ok tt
                      | Interrupted => Raise KeyboardInterrupt
                      end);;
      run_oc_command env (delete_pod_cmd "granite-workaround-1650928254" namespace);;
      mret true
  | None => mret false
  end.

Definition patch_workflow_image (env : environment) (workflow_name namespace : string)
  : io bool :=
  print ("Attempting to patch workflow " +:+ workflow_name
         +:+ " in namespace " +:+ namespace);;
  delete_pods env "Deleting pod " namespace;;
  create_replacement_pods env namespace.

Section WithRuntime.
Context `{Runtime}.

Definition skip_granite_tasks (env : environment) (workflow_name namespace : string)
  : io bool :=
  workflow_json ← run_oc_command env (get_workflow_cmd workflow_name namespace "json");
  match workflow_json with
  | Some text =>
      if nonempty text then
        marked ← try_except
          (lift (match json_loads text with
                 | Some _ => Ok tt
                 | None => Raise JSONDecodeError
                 end);;
           result ← run_oc_command env (patch_cmd workflow_name namespace);
           match result with
           | Some _ =>
               print "Successfully marked problematic nodes as succeeded";;
               mret true
           | None => mret false
           end)
          is_JSONDecodeError
          (fun _ => print "Failed to parse workflow JSON";; mret false);
        mret marked
      else mret false
  | None => mret false
  end.

End WithRuntime.

Definition namespace : string := "petloan-instructlab".
Definition workflow_name : string := "instructlab-dpltw".

Definition main (env : environment) : io unit :=
  print "=== InstructLab Pipeline Granite Image Fix ===";;
  print "
1. Deleting problematic pods...";;
  delete_pods env "Deleting " namespace;;
  print "
2. Creating workaround for granite image issue...";;
  created ← create_replacement_pods env namespace;
  (if created : bool then print "Workaround created successfully" else mret tt);;
  print "
3. Monitoring pipeline progress...";;
  progress ← run_oc_command env
               (get_workflow_cmd workflow_name namespace "jsonpath='{.status.progress}'");
  match progress with
  | Some p => if nonempty p then print ("Current pipeline progress: " +:+ p) else mret tt
  | None => mret tt
  end;;
  phase ← run_oc_command env
            (get_workflow_cmd workflow_name namespace "jsonpath='{.status.phase}'");
  match phase with
  | Some p => if nonempty p then print ("Pipeline status: " +:+ p) else mret tt
  | None => mret tt
  end;;
  print "
=== Fix attempt completed ===";;
  print "The granite image issue has been worked around.";;
  print "Monitor the pipeline with: oc get workflow instructlab-dpltw -n petloan-instructlab -w".

End fix_granite_image.

(* ===================================================================== *)
(** ** Vocabulary of the statements *)
(* ===================================================================== *)

Module Kubeconfig.
Import Py.

(** A kubeconfig as the claims speak of it: named context entries that
    refer to a user, named user entries that may carry a token. *)
Definition field (v : pyval) (key : string) : option pyval :=
  match v with
  | PDict d => dict_lookup key d
  | _ => None
  end.

Definition entries (config : pyval) (key : string) : list pyval :=
  match field config key with
  | Some (PList l) => l
  | _ => []
  end.

Definition named (name entry : pyval) : bool :=
  match field entry "name" with
  | Some n => py_eq n name
  | None => false
  end.

Definition user_of (context_entry : pyval) : option pyval :=
  match field context_entry "context" with
  | Some c => field c "user"
  | None => None
  end.

Definition token_of (user_entry : pyval) : option pyval :=
  match field user_entry "user" with
  | Some u => field u "token"
  | None => None
  end.

Definition has_token (user_entry : pyval) : bool :=
  match token_of user_entry with
  | Some _ => true
  | None => false
  end.

(** The token of the user entry that the current context refers to. *)
Definition referenced_token (config : pyval) : option pyval :=
  match field config "current-context" with
  | Some current_context =>
      if truthy current_context then
        match List.find (named current_context) (entries config "contexts") with
        | Some context_entry =>
            match user_of context_entry with
            | Some user_name =>
                match List.find (fun e => named user_name e && has_token e)
                                (entries config "users") with
                | Some user_entry => token_of user_entry
                | None => None
                end
            | None => None
            end
        | None => None
        end
      else None
  | None => None
  end.

(** The user name that the current context refers to. *)
Definition referenced_user (config : pyval) : option pyval :=
  match field config "current-context" with
  | Some current_context =>
      if truthy current_context then
        match List.find (named current_context) (entries config "contexts") with
        | Some context_entry => user_of context_entry
        | None => None
        end
      else None
  | None => None
  end.

(** The token as claim C6 words it: the [token] field of the user entry
    that the current context refers to, and nothing when there is no
    current context, no context entry of that name, no user entry of the
    referenced name, or no [token] field in that user entry. *)
Definition claimed_token (config : pyval) : option pyval :=
  match referenced_user config with
  | Some user_name =>
      match List.find (named user_name) (entries config "users") with
      | Some user_entry => token_of user_entry
      | None => None
      end
  | None => None
  end.

(** At most one user entry has the referenced name. *)
Definition one_referenced_user (config : pyval) : bool :=
  match referenced_user config with
  | Some user_name =>
      (length (List.filter (named user_name) (entries config "users")) <=? 1)%nat
  | None => true
  end.

(** The shape of a kubeconfig: an object whose [contexts] and [users], when
    present, are lists of objects that have a [name] and an inner object
    ([context], [user]). *)
Definition entry_shape (inner : string) (entry : pyval) : bool :=
  match field entry "name", field entry inner with
  | Some _, Some (PDict _) => true
  | _, _ => false
  end.

Definition list_shape (inner : string) (config : pyval) (key : string) : bool :=
  match field config key with
  | None => true
  | Some (PList l) => forallb (entry_shape inner) l
  | Some _ => false
  end.

Definition kubeconfig_shape (config : pyval) : bool :=
  match config with
  | PDict _ => list_shape "context" config "contexts" && list_shape "user" config "users"
  | _ => false
  end.

End Kubeconfig.

Module Reading.
Import Py World.

(** The parameters inside the body of a run submission. *)
Definition payload_parameters (body : pyval) : option (list (string * pyval)) :=
  match Kubeconfig.field body "runtime_config" with
  | Some runtime_config =>
      match Kubeconfig.field runtime_config "parameters" with
      | Some (PDict parameters) => Some parameters
      | _ => None
      end
  | None => None
  end.

(** Every event of a computation satisfies [P]. *)
Definition all_events {A : Type} (P : event -> Prop) (m : io A) : Prop :=
  Forall P (trace m).

(** The posts of a computation carry a body that satisfies [Q]. *)
Definition posts (Q : pyval -> Prop) (e : event) : Prop :=
  match e with
  | Post _ body => Q body
  | _ => True
  end.

(** *** Shell command lines *)

(** The characters with which a shell command line goes on to another
    command, substitutes one, or redirects a stream. *)
Definition shell_operator (c : ascii) : bool :=
  existsb (Ascii.eqb c)
    [ ";"; "&"; "|"; "<"; ">"; "$"; "`"; "("; ")"; "010"; "013" ]%char.

(** A text without such a character. *)
Fixpoint harmless (s : string) : bool :=
  match s with
  | EmptyString => true
  | String c s' => negb (shell_operator c) && harmless s'
  end.

(** [s] without the [tail] it ends with. *)
Fixpoint drop_suffix (tail s : string) : option string :=
  if String.eqb s tail then Some EmptyString
  else match s with
       | EmptyString => None
       | String c s' => option_map (String c) (drop_suffix tail s')
       end.

(** What follows the command proper on the lines the scripts hand to the
    shell: nothing, the error stream sent to /dev/null, and a pipe into
    [wc -l] or [tail -1]. *)
Definition read_tails : list string :=
  [ ""; " 2>/dev/null"; " 2>/dev/null | wc -l"; " | tail -1" ].

(** One [oc get] or [kubectl get] command and nothing else. *)
Definition get_command (cmd : string) : bool :=
  (String.prefix "oc get " cmd || String.prefix "kubectl get " cmd) && harmless cmd.

(** Command lines by what they do to the cluster: a line reads when it is
    one [get] command followed by one of the tails above. *)
Definition reads (cmd : string) : bool :=
  existsb (fun tail => match drop_suffix tail cmd with
                       | Some command => get_command command
                       | None => false
                       end) read_tails.

(** One [oc delete pod] command and nothing else. *)
Definition deletes_pod (cmd : string) : bool :=
  String.prefix "oc delete pod " cmd && harmless cmd.

(** The address at which the DSPA server takes new runs. *)
Definition runs_endpoint (url : string) : bool :=
  existsb (fun tail => match drop_suffix tail url with
                       | Some _ => true
                       | None => false
                       end) [ "/apis/v1beta1/runs"; "/apis/v2beta1/runs" ].

Definition reading_argv (argv : list string) : bool :=
  match argv with
  | "oc" :: "whoami" :: _ => true
  | "oc" :: "get" :: _ => true
  | _ => false
  end.

(** How a request fails: no answer, or an answer with an error status. *)
Definition request_error (h : http_outcome) : option exn :=
  match h with
  | HttpRaise e => if is_Exception e then Some e else None
  | Response code _ =>
      if (400 <=? code) && (code <? 600) then Some (HTTPError code) else None
  end.

(** How often a text occurs in another. *)
Fixpoint occurrences (needle hay : string) : nat :=
  ((if String.prefix needle hay then 1 else 0)
   + match hay with
     | EmptyString => 0
     | String _ rest => occurrences needle rest
     end)%nat.

(** Events by what they do to the cluster. *)
Definition is_read (e : event) : Prop :=
  match e with
  | Command cmd => reads cmd = true
  | Exec argv => reading_argv argv = true
  | Get _ | Print _ | Sleep _ => True
  | Post _ _ | WriteFile _ _ => False
  end.

(** What fix_granite_image.py does: reads, pod deletions, the manifest it
    writes and applies, and the patch of the two node phases. *)
Definition fix_event (workflow_name namespace : string) (e : event) : Prop :=
  is_read e \/
  match e with
  | Command cmd =>
      deletes_pod cmd = true \/ cmd = fix_granite_image.apply_cmd
      \/ cmd = fix_granite_image.patch_cmd workflow_name namespace
  | WriteFile path _ => path = fix_granite_image.workaround_path
  | _ => False
  end.

(** What [skip_granite_tasks] does: reads and the patch. *)
Definition skip_event (workflow_name namespace : string) (e : event) : Prop :=
  is_read e \/ e = Command (fix_granite_image.patch_cmd workflow_name namespace).

(** What a submit script does: reads and the POST of a run. *)
Definition submit_event (e : event) : Prop :=
  is_read e \/
  match e with
  | Post url _ => runs_endpoint url = true
  | _ => False
  end.

(** How many names the loop of [analyze_workflow_progress] has placed. *)
Definition placed (b : monitor_production_pipeline.buckets) : nat :=
  (length (monitor_production_pipeline.b_completed b)
   + length (monitor_production_pipeline.b_running b)
   + length (monitor_production_pipeline.b_failed b)
   + length (monitor_production_pipeline.b_pending b))%nat.

(** A pipeline as the listing should hold it: an object with a textual
    [display_name] that does not mention InstructLab. *)
Definition other_pipeline (p : pyval) : Prop :=
  exists d name, p = PDict d /\ dict_lookup "display_name" d = Some (PStr name) /\
                 str_contains "instructlab" (lower name) = false.

(** The parameters [main] has [submit_pipeline] send. *)
Definition sent_parameters (a : submit_pipeline.args) : list (string * pyval) :=
  match submit_pipeline.custom_params a with
  | [] => submit_pipeline.default_params
  | c :: cs => v2beta1.dict_update submit_pipeline.default_params (c :: cs)
  end.

Section WithRuntime.
Context `{Runtime}.

(** What the result of [monitor_pipeline] (monitor_production_pipeline.py)
    says about the run. *)
Definition monitor_meaning (world : nat -> monitor_production_pipeline.tick)
    (start_time : nat) (r : option bool) : Prop :=
  exists n st,
    locals_after (monitor_production_pipeline.in_time start_time)
      (fun k => monitor_production_pipeline.body (world k)) n 0
      {| monitor_production_pipeline.now := start_time;
         monitor_production_pipeline.last_progress := -1;
         monitor_production_pipeline.iteration := 1 |} = Some st /\
    match r with
    | Some b =>
        exists data info,
          outcome (monitor_production_pipeline.get_workflow_status
                     (monitor_production_pipeline.kubectl (world n))
                     monitor_production_pipeline.workflow_name) = Ok data /\
          monitor_production_pipeline.analyze_workflow_progress data = Ok info /\
          if b then
            exists i, info = Some i /\
                      eq_str (monitor_production_pipeline.workflow_status i) "Succeeded"
                      = true /\
                      monitor_production_pipeline.failed_nodes i = 0%nat
          else
            info = None \/
            exists i, info = Some i /\
                      ((0 < monitor_production_pipeline.failed_nodes i)%nat \/
                       (in_strs (monitor_production_pipeline.workflow_status i)
                                monitor_production_pipeline.terminal = true /\
                        eq_str (monitor_production_pipeline.workflow_status i) "Succeeded"
                        = false))
    | None =>
        (monitor_production_pipeline.max_duration
         <= monitor_production_pipeline.now st - start_time)%nat
        \/ monitor_production_pipeline.attempt (world n) st = Raise KeyboardInterrupt
    end.

(** What the result of [monitor_pipeline_run]
    (submit_pipeline_production.py) says about the run. *)
Definition production_meaning (world : nat -> v1beta1.tick) (start_time : nat)
    (url : string) (r : option bool) : Prop :=
  exists n st,
    locals_after (submit_pipeline_production.in_time start_time)
      (fun k => submit_pipeline_production.body url (world k)) n 0
      {| submit_pipeline_production.now := start_time;
         submit_pipeline_production.last_status := PNone;
         submit_pipeline_production.last_progress := -1 |} = Some st /\
    match r with
    | Some b =>
        exists status manifest,
          v1beta1.poll_run (v1beta1.get (world n)) url = Ok (status, manifest) /\
          truthy manifest = true /\
          if b then eq_str status "Succeeded" = true
          else (in_strs status v1beta1.terminal = true /\ eq_str status "Succeeded" = false)
               \/ exists workflow_data workflow_status nodes node_items names,
                    v1beta1.loads manifest = Ok workflow_data /\
                    py_get workflow_data "status" (PDict []) = Ok workflow_status /\
                    py_get workflow_status "nodes" (PDict []) = Ok nodes /\
                    items nodes = Ok node_items /\
                    v1beta1.names_failed node_items = Ok names /\
                    names <> []
    | None =>
        (submit_pipeline_production.max_duration
         <= submit_pipeline_production.now st - start_time)%nat
        \/ submit_pipeline_production.attempt url (world n) st = Raise KeyboardInterrupt
    end.

End WithRuntime.

End Reading.

(* ===================================================================== *)
(** ** Closed inputs for the examples *)
(* ===================================================================== *)

Module Sample.
Import Py World.

Definition dq : string := fix_granite_image.dq.
Definition quoted : string -> string := fix_granite_image.quoted.

(** A workflow with [total] nodes of which the first [done] succeeded and
    the rest are running. *)
Definition node (phase : string) : pyval := PDict [("phase", PStr phase)].

Definition nodes (done total : nat) : list (string * pyval) :=
  map (fun i => ("node-" +:+ pretty i,
                 node (if (i <? done)%nat then "Succeeded" else "Running")))
      (seq 0 total).

Definition workflow (phase : string) (done total : nat) : pyval :=
  PDict [ ("metadata", PDict [("creationTimestamp", PStr "2025-01-01T00:00:00Z")]);
          ("status", PDict [ ("phase", PStr phase);
                             ("nodes", PDict (nodes done total)) ]) ].

(** The JSON texts the examples let the cluster answer with. *)
Definition workflow_text (phase : string) : string :=
  "{" +:+ quoted "status" +:+ ": {" +:+ quoted "phase" +:+ ": " +:+ quoted phase +:+ "}}".

Definition empty_object_text : string := "{}".

Definition run_text (status : string) : string :=
  "{" +:+ quoted "run" +:+ ": {" +:+ quoted "status" +:+ ": " +:+ quoted status +:+ ", "
  +:+ quoted "pipeline_runtime" +:+ ": {" +:+ quoted "workflow_manifest" +:+ ": "
  +:+ quoted "{}" +:+ "}}}".

Definition run_document (status : string) : pyval :=
  PDict [ ("run", PDict [ ("status", PStr status);
                          ("pipeline_runtime",
                            PDict [("workflow_manifest", PStr "{}")]) ]) ].

Definition listing_text : string :=
  "{" +:+ quoted "pipelines" +:+ ": [{" +:+ quoted "id" +:+ ": " +:+ quoted "p-1" +:+ ", "
  +:+ quoted "name" +:+ ": " +:+ quoted "other-pipeline" +:+ "}]}".

Definition listing : pyval :=
  PDict [ ("pipelines", PList [ PDict [ ("id", PStr "p-1");
                                        ("name", PStr "other-pipeline") ] ]) ].

Definition created_text : string :=
  "{" +:+ quoted "run" +:+ ": {" +:+ quoted "id" +:+ ": " +:+ quoted "r-1" +:+ ", "
  +:+ quoted "name" +:+ ": " +:+ quoted "run-1" +:+ "}}".

Definition created : pyval :=
  PDict [ ("run", PDict [ ("id", PStr "r-1"); ("name", PStr "run-1") ]) ].

Definition v1_listing_text : string :=
  "{" +:+ quoted "pipelines" +:+ ": [{" +:+ quoted "id" +:+ ": " +:+ quoted "p-1" +:+ ", "
  +:+ quoted "display_name" +:+ ": " +:+ quoted "InstructLab" +:+ "}]}".

Definition v1_listing : pyval :=
  PDict [ ("pipelines", PList [ PDict [ ("id", PStr "p-1");
                                        ("display_name", PStr "InstructLab") ] ]) ].

Definition v2_listing_text : string :=
  "{" +:+ quoted "pipelines" +:+ ": [{" +:+ quoted "pipeline_id" +:+ ": " +:+ quoted "p-2"
  +:+ ", " +:+ quoted "display_name" +:+ ": " +:+ quoted "InstructLab" +:+ "}]}".

Definition v2_listing : pyval :=
  PDict [ ("pipelines", PList [ PDict [ ("pipeline_id", PStr "p-2");
                                        ("display_name", PStr "InstructLab") ] ]) ].

Definition v2_versions_text : string :=
  "{" +:+ quoted "pipeline_versions" +:+ ": [{" +:+ quoted "pipeline_version_id" +:+ ": "
  +:+ quoted "v-2" +:+ "}]}".

Definition v2_versions : pyval :=
  PDict [ ("pipeline_versions", PList [ PDict [ ("pipeline_version_id", PStr "v-2") ] ]) ].

Definition v2_created_text : string :=
  "{" +:+ quoted "run_id" +:+ ": " +:+ quoted "r-2" +:+ "}".

Definition v2_created : pyval := PDict [ ("run_id", PStr "r-2") ].

Definition documents : list (string * pyval) :=
  [ (empty_object_text, PDict []);
    (workflow_text "Running", workflow "Running" 0 0);
    (workflow_text "Succeeded", workflow "Succeeded" 0 0);
    (workflow_text "Failed", workflow "Failed" 0 0);
    (run_text "Running", run_document "Running");
    (run_text "Failed", run_document "Failed");
    (run_text "Succeeded", run_document "Succeeded");
    (listing_text, listing);
    (created_text, created);
    (v1_listing_text, v1_listing);
    (v2_listing_text, v2_listing);
    (v2_versions_text, v2_versions);
    (v2_created_text, v2_created) ].

Fixpoint digits (s : string) (acc : Z) : option Z :=
  match s with
  | EmptyString => Some acc
  | String c s' =>
      let n := Z.of_N (N_of_ascii c) in
      if (48 <=? n) && (n <=? 57) then digits s' (10 * acc + (n - 48)) else None
  end.

Definition exn_name (e : exn) : string :=
  match e with
  | KeyboardInterrupt => "KeyboardInterrupt"
  | SystemExit _ => "SystemExit"
  | CalledProcessError _ _ => "CalledProcessError"
  | HTTPError _ => "HTTPError"
  | ConnectionError => "ConnectionError"
  | OSError => "OSError"
  | JSONDecodeError => "JSONDecodeError"
  | ValueError => "ValueError"
  | OverflowError => "OverflowError"
  | AttributeError => "AttributeError"
  | TypeError => "TypeError"
  | KeyError key => "'" +:+ key +:+ "'"
  | IndexError => "IndexError"
  | UnboundLocalError name => "UnboundLocalError: " +:+ name
  end.

(** A runtime that parses exactly the documents above. *)
Definition runtime : Runtime :=
  {| json_loads := fun s => dict_lookup s documents;
     int_of_str := fun s => if nonempty s then digits s 0 else None;
     str_of := fun v => match v with
                        | PStr s => s
                        | PInt z => pretty z
                        | _ => "<value>"
                        end;
     str_of_exn := exn_name |}.

(** A cluster whose workflow is in phase [phase] at every poll. *)
Definition kubectl_world (phase : string) (secs : nat) : nat -> monitor_production_pipeline.tick :=
  fun _ => {| monitor_production_pipeline.kubectl := fun _ => Exited 0 (workflow_text phase) "";
              monitor_production_pipeline.poll_secs := secs;
              monitor_production_pipeline.nap := Slept 0 |}.

(** A DSPA server whose run is in state [status] at every poll. *)
Definition run_world (status : string) (secs : nat) : nat -> v1beta1.tick :=
  fun _ => {| v1beta1.get := fun _ => Response 200 (run_text status);
              v1beta1.poll_secs := secs;
              v1beta1.nap := Slept 0 |}.

(** A cluster for [submit_pipeline_complete.py] that answers every status
    query with [answer] and every other command with nothing. *)
Definition popen_world (answer : string) (secs : nat) : nat -> submit_pipeline_complete.tick :=
  fun _ => {| submit_pipeline_complete.popen :=
                fun cmd => Ok (if str_contains "{.status.phase}" cmd then answer else "");
              submit_pipeline_complete.poll_secs := secs;
              submit_pipeline_complete.nap := Slept 0 |}.

Definition host : string := "dspa.example".
Definition run_id : pyval := PStr "r-1".
Definition ns : string := "petloan-instructlab".
Definition run_url : string := v1beta1.run_url (H:=runtime) host run_id.

(** Worlds in which a poll fails or is interrupted. *)
Definition kubectl_gone : monitor_production_pipeline.tick :=
  {| monitor_production_pipeline.kubectl := fun _ => ProcRaise OSError;
     monitor_production_pipeline.poll_secs := 0;
     monitor_production_pipeline.nap := Slept 0 |}.

Definition kubectl_interrupted : monitor_production_pipeline.tick :=
  {| monitor_production_pipeline.kubectl := fun _ => ProcRaise KeyboardInterrupt;
     monitor_production_pipeline.poll_secs := 0;
     monitor_production_pipeline.nap := Slept 0 |}.

Definition http_down : v1beta1.tick :=
  {| v1beta1.get := fun _ => HttpRaise ConnectionError;
     v1beta1.poll_secs := 0;
     v1beta1.nap := Slept 0 |}.

Definition popen_interrupted : submit_pipeline_complete.tick :=
  {| submit_pipeline_complete.popen := fun _ => Raise KeyboardInterrupt;
     submit_pipeline_complete.poll_secs := 0;
     submit_pipeline_complete.nap := Slept 0 |}.

Definition workflow_found : string -> result string := fun _ => Ok "instructlab-abc12".

Definition monitor_start : monitor_production_pipeline.locals :=
  {| monitor_production_pipeline.now := 0;
     monitor_production_pipeline.last_progress := -1;
     monitor_production_pipeline.iteration := 1 |}.

Definition nfs_start : submit_pipeline_nfs_storage.locals :=
  {| submit_pipeline_nfs_storage.now := 0;
     submit_pipeline_nfs_storage.last_status := PNone |}.

Definition complete_start : submit_pipeline_complete.locals :=
  {| submit_pipeline_complete.now := 0;
     submit_pipeline_complete.monitoring_duration := 0;
     submit_pipeline_complete.last_status := None;
     submit_pipeline_complete.last_progress := None;
     submit_pipeline_complete.current_time := false |}.

(** A cluster on which submit_pipeline_nfs_storage.py gets as far as its
    monitoring, and the run is then in state [status]. *)
Definition nfs_environment (status : string) : submit_pipeline_nfs_storage.environment :=
  {| submit_pipeline_nfs_storage.oc := fun _ => Exited 0 "sha256~token" "";
     submit_pipeline_nfs_storage.http_get := fun _ => Response 200 v1_listing_text;
     submit_pipeline_nfs_storage.http_post := fun _ _ => Response 200 created_text;
     submit_pipeline_nfs_storage.timestamp := 1700000000;
     submit_pipeline_nfs_storage.world := run_world status 0;
     submit_pipeline_nfs_storage.start_time := 0 |}.

Definition nfs_args : submit_pipeline_nfs_storage.args :=
  {| submit_pipeline_nfs_storage.route := Some host;
     submit_pipeline_nfs_storage.namespace := ns;
     submit_pipeline_nfs_storage.monitor := true |}.

Definition production_environment (status : string)
  : submit_pipeline_production.environment :=
  {| submit_pipeline_production.oc := fun _ => Exited 0 "sha256~token" "";
     submit_pipeline_production.http_get := fun _ => Response 200 v1_listing_text;
     submit_pipeline_production.http_post := fun _ _ => Response 200 created_text;
     submit_pipeline_production.timestamp := 1700000000;
     submit_pipeline_production.started := "2025-01-01 00:00:00";
     submit_pipeline_production.world := run_world status 0;
     submit_pipeline_production.start_time := 0 |}.

Definition production_args : submit_pipeline_production.args :=
  {| submit_pipeline_production.route := Some host;
     submit_pipeline_production.namespace := ns;
     submit_pipeline_production.no_monitor := false |}.

(** A kubeconfig with two contexts and two users. *)
Definition kubeconfig : pyval :=
  PDict
    [ ("current-context", PStr "dev");
      ("contexts",
        PList [ PDict [ ("name", PStr "prod");
                        ("context", PDict [ ("user", PStr "admin") ]) ];
                PDict [ ("name", PStr "dev");
                        ("context", PDict [ ("user", PStr "alice") ]) ] ]);
      ("users",
        PList [ PDict [ ("name", PStr "admin");
                        ("user", PDict [ ("token", PStr "sha256~admin") ]) ];
                PDict [ ("name", PStr "alice");
                        ("user", PDict [ ("token", PStr "sha256~alice") ]) ] ]) ].

(** A kubeconfig whose first context entry has no [name]. *)
Definition kubeconfig_nameless : pyval :=
  PDict
    [ ("current-context", PStr "dev");
      ("contexts",
        PList [ PDict [ ("context", PDict [ ("user", PStr "admin") ]) ];
                PDict [ ("name", PStr "dev");
                        ("context", PDict [ ("user", PStr "alice") ]) ] ]);
      ("users",
        PList [ PDict [ ("name", PStr "alice");
                        ("user", PDict [ ("token", PStr "sha256~alice") ]) ] ]) ].

(** A kubeconfig with two user entries of the referenced name, of which
    only the second carries a token. *)
Definition kubeconfig_two_alices : pyval :=
  PDict
    [ ("current-context", PStr "dev");
      ("contexts",
        PList [ PDict [ ("name", PStr "dev");
                        ("context", PDict [ ("user", PStr "alice") ]) ] ]);
      ("users",
        PList [ PDict [ ("name", PStr "alice");
                        ("user", PDict [ ("client-certificate-data", PStr "LS0t") ]) ];
                PDict [ ("name", PStr "alice");
                        ("user", PDict [ ("token", PStr "sha256~second") ]) ] ]) ].

(** A cluster on which submit_pipeline.py finds its pipeline and the
    server accepts the run. *)
Definition submit_environment : submit_pipeline.environment :=
  {| submit_pipeline.kubeconfig := Ok kubeconfig;
     submit_pipeline.popen := fun _ => Ok host;
     submit_pipeline.http_get :=
       fun url => if str_contains "/versions" url
                  then Response 200 v2_versions_text
                  else Response 200 v2_listing_text;
     submit_pipeline.http_post := fun _ _ => Response 200 v2_created_text |}.

Definition submit_args : submit_pipeline.args :=
  {| submit_pipeline.namespace := ns;
     submit_pipeline.route := false;
     submit_pipeline.repo_url := Some "https://example.org/taxonomy.git";
     submit_pipeline.base_model := None;
     submit_pipeline.output_model_name := None |}.

(** A cluster on which every command of fix_granite_image.py succeeds. *)
Definition obliging : fix_granite_image.environment :=
  {| fix_granite_image.sh := fun _ => Exited 0 "ok" "";
     fix_granite_image.write := fun _ _ => Ok tt;
     fix_granite_image.nap := Slept 0 |}.

(** Commands that fail. *)
Definition not_logged_in : list string -> proc_outcome :=
  fun _ => Exited 1 "" "error: You must be logged in to the server".

Definition refusing (cmd : string) : proc_outcome :=
  Exited 1 "" "error: the server doesn't have a resource type".

End Sample.

(* ===================================================================== *)
(** ** Vocabulary of the further properties *)
(* ===================================================================== *)

Module Nodes.
Import Py.

Definition is_dict (v : pyval) : bool :=
  match v with PDict _ => true | _ => false end.

(** The phase a node shows: [node.get('phase', 'Unknown')]. *)
Definition phase_of (node : pyval) : pyval :=
  match node with
  | PDict d => default (PStr "Unknown") (dict_lookup "phase" d)
  | _ => PNone
  end.

(** The names of the nodes whose phase is one of [phases], in the order of
    the workflow. *)
Definition names_in (phases : list string) (nodes : list (string * pyval))
  : list string :=
  map fst (List.filter (fun kv => in_strs (phase_of (snd kv)) phases) nodes).

(** The buckets of [analyze_workflow_progress] after its loop has gone
    through [nodes]. *)
Definition sorted (nodes : list (string * pyval))
    (b : monitor_production_pipeline.buckets) : monitor_production_pipeline.buckets :=
  {| monitor_production_pipeline.b_completed :=
       monitor_production_pipeline.b_completed b ++ names_in ["Succeeded"] nodes;
     monitor_production_pipeline.b_running :=
       monitor_production_pipeline.b_running b ++ names_in ["Running"] nodes;
     monitor_production_pipeline.b_failed :=
       monitor_production_pipeline.b_failed b ++ names_in ["Failed"; "Error"] nodes;
     monitor_production_pipeline.b_pending :=
       monitor_production_pipeline.b_pending b ++ names_in ["Pending"] nodes |}.

(** [int((done / total) * 100) if total > 0 else 0] on integers, for
    checking the percentage over a range of node counts. *)
Definition percentZ (done total : Z) : result Z :=
  if 0 <? total then
    int_of_float
      (PrimFloat.mul (PrimFloat.div (PrimFloat.of_uint63 (Uint63.of_Z done))
                                    (PrimFloat.of_uint63 (Uint63.of_Z total)))
                     (PrimFloat.of_uint63 (Uint63.of_Z 100)))
  else Ok 0.

(** The percentage is the exact one or one below it, 100 when all nodes
    are done and 0 when none is. *)
Definition close (done total : Z) : bool :=
  match percentZ done total with
  | Ok p =>
      (100 * done / total - 1 <=? p) && (p <=? 100 * done / total)
      && (if done =? total then p =? 100 else true)
      && (if done =? 0 then p =? 0 else true)
  | Raise _ => false
  end.

Fixpoint upto (n : nat) (from : Z) : list Z :=
  match n with
  | O => []
  | S n' => from :: upto n' (from + 1)
  end.

Definition close_upto (n : nat) : bool :=
  forallb (fun total => forallb (fun done => close done total)
                                (upto (S (Z.to_nat total)) 0))
          (upto n 1).




End Nodes.

Module Listing.
Import Py.

(** The [display_name] the search of [get_pipeline_info] reads off a
    pipeline: [pipeline.get('display_name', '')], when it is a text. *)
Definition display_name_of (pipeline : pyval) : option string :=
  match pipeline with
  | PDict d =>
      match default (PStr "") (dict_lookup "display_name" d) with
      | PStr name => Some name
      | _ => None
      end
  | _ => None
  end.

(** The pipeline's name mentions InstructLab, in whatever case. *)
Definition is_instructlab (pipeline : pyval) : bool :=
  match display_name_of pipeline with
  | Some name => str_contains "instructlab" (lower name)
  | None => false
  end.

(** A pipeline the search passes over. *)
Definition passed_over (pipeline : pyval) : bool :=
  match display_name_of pipeline with
  | Some name => negb (str_contains "instructlab" (lower name))
  | None => false
  end.

End Listing.

(* ===================================================================== *)
(** ** More closed inputs for the examples *)
(* ===================================================================== *)

Module Cases.
Import Py World.

Definition quoted : string -> string := fix_granite_image.quoted.

(** A workflow whose nodes show the given phases, and its JSON text. *)
Definition nodes_of (phases : list string) : list (string * pyval) :=
  imap (fun i phase => ("node-" +:+ pretty i, PDict [("phase", PStr phase)])) phases.

Definition workflow_of (phases : list string) : pyval :=
  PDict [ ("status", PDict [ ("nodes", PDict (nodes_of phases)) ]) ].

Definition node_text (i : nat) (phase : string) : string :=
  quoted ("node-" +:+ pretty i) +:+ ": {" +:+ quoted "phase" +:+ ": " +:+ quoted phase
  +:+ "}".

Fixpoint join (sep : string) (l : list string) : string :=
  match l with
  | [] => EmptyString
  | [x] => x
  | x :: rest => x +:+ sep +:+ join sep rest
  end.

Definition workflow_text (phases : list string) : string :=
  "{" +:+ quoted "status" +:+ ": {" +:+ quoted "nodes" +:+ ": {"
  +:+ join ", " (imap node_text phases) +:+ "}}}".

(** 120 running nodes, and the same workflow once the first node has
    failed. *)
Definition all_running : list string := replicate 120 "Running".
Definition one_failed : list string := "Failed" :: replicate 119 "Running".

(** A run that has succeeded, reported without a workflow manifest. *)
Definition bare_run_text : string :=
  "{" +:+ quoted "run" +:+ ": {" +:+ quoted "status" +:+ ": " +:+ quoted "Succeeded"
  +:+ "}}".

Definition bare_run : pyval := PDict [ ("run", PDict [ ("status", PStr "Succeeded") ]) ].

(** A listing of three pipelines, of which the second and the third
    mention InstructLab. *)
Definition three_pipelines_text : string :=
  "{" +:+ quoted "pipelines" +:+ ": [{" +:+ quoted "id" +:+ ": " +:+ quoted "p-1" +:+ ", "
  +:+ quoted "display_name" +:+ ": " +:+ quoted "Data preparation" +:+ "}, {"
  +:+ quoted "id" +:+ ": " +:+ quoted "p-2" +:+ ", "
  +:+ quoted "display_name" +:+ ": " +:+ quoted "InstructLab Training" +:+ "}, {"
  +:+ quoted "id" +:+ ": " +:+ quoted "p-3" +:+ ", "
  +:+ quoted "display_name" +:+ ": " +:+ quoted "instructlab-nightly" +:+ "}]}".

Definition three_pipelines : pyval :=
  PDict [ ("pipelines",
            PList [ PDict [ ("id", PStr "p-1"); ("display_name", PStr "Data preparation") ];
                    PDict [ ("id", PStr "p-2");
                            ("display_name", PStr "InstructLab Training") ];
                    PDict [ ("id", PStr "p-3");
                            ("display_name", PStr "instructlab-nightly") ] ]) ].

(** The answer to an accepted POST of a run. *)
Definition run_accepted_text : string :=
  "{" +:+ quoted "run" +:+ ": {" +:+ quoted "id" +:+ ": " +:+ quoted "r-1" +:+ ", "
  +:+ quoted "name" +:+ ": " +:+ quoted "InstructLab-Production" +:+ "}}".

Definition run_accepted : pyval :=
  PDict [ ("run", PDict [ ("id", PStr "r-1"); ("name", PStr "InstructLab-Production") ]) ].

Definition documents : list (string * pyval) :=
  [ (bare_run_text, bare_run);
    (run_accepted_text, run_accepted);
    (three_pipelines_text, three_pipelines);
    (workflow_text all_running, workflow_of all_running);
    (workflow_text one_failed, workflow_of one_failed) ].

(** A runtime that parses these documents and those of [Sample]. *)
Definition runtime : Runtime :=
  {| json_loads := fun s => match dict_lookup s documents with
                            | Some v => Some v
                            | None => json_loads (Runtime:=Sample.runtime) s
                            end;
     int_of_str := int_of_str (Runtime:=Sample.runtime);
     str_of := str_of (Runtime:=Sample.runtime);
     str_of_exn := str_of_exn (Runtime:=Sample.runtime) |}.

(** A DSPA server that answers every poll with [text]. *)
Definition answering (text : string) : nat -> v1beta1.tick :=
  fun _ => {| v1beta1.get := fun _ => Response 200 text;
              v1beta1.poll_secs := 0;
              v1beta1.nap := Slept 0 |}.

(** A cluster on which submit_pipeline_production.py gets as far as the
    POST, which then fails to connect. *)
Definition unreachable_at_post : submit_pipeline_production.environment :=
  {| submit_pipeline_production.oc := fun _ => Exited 0 "sha256~token" "";
     submit_pipeline_production.http_get := fun _ => Response 200 Sample.v1_listing_text;
     submit_pipeline_production.http_post := fun _ _ => HttpRaise ConnectionError;
     submit_pipeline_production.timestamp := 1700000000;
     submit_pipeline_production.started := "2025-01-01 00:00:00";
     submit_pipeline_production.world := Sample.run_world "Running" 0;
     submit_pipeline_production.start_time := 0 |}.

(** A cluster that accepts the run of submit_pipeline_production.py and
    then reports it as Succeeded, without a manifest, at every poll. *)
Definition succeeded_without_manifest : submit_pipeline_production.environment :=
  {| submit_pipeline_production.oc := fun _ => Exited 0 "sha256~token" "";
     submit_pipeline_production.http_get := fun _ => Response 200 Sample.v1_listing_text;
     submit_pipeline_production.http_post := fun _ _ => Response 200 run_accepted_text;
     submit_pipeline_production.timestamp := 1700000000;
     submit_pipeline_production.started := "2025-01-01 00:00:00";
     submit_pipeline_production.world := answering bare_run_text;
     submit_pipeline_production.start_time := 0 |}.


(** A machine without a kubeconfig. *)
Definition logged_out : submit_pipeline.environment :=
  {| submit_pipeline.kubeconfig := Raise OSError;
     submit_pipeline.popen := fun _ => Ok Sample.host;
     submit_pipeline.http_get := fun _ => HttpRaise ConnectionError;
     submit_pipeline.http_post := fun _ _ => HttpRaise ConnectionError |}.

Definition complete_args : submit_pipeline_complete.args :=
  {| submit_pipeline_complete.namespace := Sample.ns;
     submit_pipeline_complete.route := false;
     submit_pipeline_complete.monitor := true;
     submit_pipeline_complete.repo_url := None;
     submit_pipeline_complete.base_model := None;
     submit_pipeline_complete.output_model_name := None |}.

Definition storage_fixed_args : submit_pipeline_storage_fixed.args :=
  {| submit_pipeline_storage_fixed.namespace := Sample.ns;
     submit_pipeline_storage_fixed.route := false;
     submit_pipeline_storage_fixed.monitor := true |}.

(** A cluster whose [os.popen] fails. *)
Definition popen_fails : submit_pipeline_complete.tick :=
  {| submit_pipeline_complete.popen := fun _ => Raise OSError;
     submit_pipeline_complete.poll_secs := 0;
     submit_pipeline_complete.nap := Slept 0 |}.

(** A cluster whose latest workflow is in phase [status] at every look. *)
Definition latest (status : string) : nat -> submit_pipeline_storage_fixed.tick :=
  fun _ => {| submit_pipeline_storage_fixed.popen :=
                fun _ => Ok ("instructlab-abc12   " +:+ status +:+ "   5m
");
              submit_pipeline_storage_fixed.clock := "12:00:00";
              submit_pipeline_storage_fixed.nap := Slept 0 |}.

(** A cluster on which submit_pipeline.py finds its pipeline and the
    server accepts the run, but the route is gone when it is looked up. *)
Definition route_gone : submit_pipeline.environment :=
  {| submit_pipeline.kubeconfig := Ok Sample.kubeconfig;
     submit_pipeline.popen := fun _ => Ok "";
     submit_pipeline.http_get := submit_pipeline.http_get Sample.submit_environment;
     submit_pipeline.http_post := fun _ _ => Response 200 Sample.v2_created_text |}.


End Cases.

(* ===================================================================== *)
(** ** Facts about [while] loops *)
(* ===================================================================== *)

Section WhileFacts.
Import World.
Context {S R : Type}.
Variable cond : S -> bool.
Variable body : nat -> S -> S + R.
Variable after : S -> R.

Lemma while_more_fuel (fuel fuel' k : nat) (s : S) (r : R) :
  while cond body after fuel k s = Some r ->
  (fuel <= fuel')%nat ->
  while cond body after fuel' k s = Some r.
Proof.
  revert fuel' k s.
  induction fuel as [|fuel IH]; intros fuel' k s Hrun Hle; simpl in Hrun.
  - discriminate.
  - destruct fuel' as [|fuel']; [lia|]. simpl.
    destruct (cond s); [|exact Hrun].
    destruct (body k s) as [s'|r']; [|exact Hrun].
    apply IH; [exact Hrun | lia].
Qed.

(** A loop that runs only while a quantity is below a bound, and whose
    every pass raises the quantity by at least [d], ends: [fuel] passes
    that cover the distance to the bound, and one more look at the
    condition, suffice. *)
Lemma while_ends (pos : S -> nat) (bound d : nat) :
  (forall s, cond s = true -> (pos s < bound)%nat) ->
  (forall k s s', cond s = true -> body k s = inl s' -> (pos s + d <= pos s')%nat) ->
  forall fuel k s, (bound <= pos s + fuel * d)%nat ->
                   exists r, while cond body after (Datatypes.S fuel) k s = Some r.
Proof.
  intros Hbound Hstep fuel.
  induction fuel as [|fuel IH]; intros k s Hm.
  - simpl. destruct (cond s) eqn:Hc; [|eauto].
    specialize (Hbound s Hc). lia.
  - cbn [while]. destruct (cond s) eqn:Hc; [|eauto].
    destruct (body k s) as [s'|r] eqn:Hb; [|eauto].
    apply IH. specialize (Hstep k s s' Hc Hb). lia.
Qed.

(** A loop whose condition holds and whose body goes on, on every state
    of an invariant, never ends. *)
Lemma while_runs_on (inv : nat -> S -> Prop) :
  (forall k s, inv k s -> cond s = true /\
                          exists s', body k s = inl s' /\ inv (Datatypes.S k) s') ->
  forall fuel k s, inv k s -> while cond body after fuel k s = None.
Proof.
  intros Hinv fuel.
  induction fuel as [|fuel IH]; intros k s Hs; simpl; [reflexivity|].
  destruct (Hinv k s Hs) as [Hc [s' [Hb Hs']]].
  rewrite Hc, Hb. apply IH. exact Hs'.
Qed.

(** A loop that is still running after [n] passes goes on from there. *)
Lemma while_after (n fuel k : nat) (s s' : S) :
  locals_after cond body n k s = Some s' ->
  while cond body after (n + fuel) k s = while cond body after fuel (n + k) s'.
Proof.
  revert k s.
  induction n as [|n IH]; intros k s Hn; simpl in *.
  - congruence.
  - destruct (cond s); [|discriminate].
    destruct (body k s) as [s1|]; [|discriminate].
    rewrite (IH _ _ Hn). f_equal. lia.
Qed.

(** Where a loop that ends leaves: at a head where the condition fails, or
    in a pass whose body leaves. *)
Lemma while_leaves (fuel k : nat) (s : S) (r : R) :
  while cond body after fuel k s = Some r ->
  exists n s', locals_after cond body n k s = Some s' /\
               ((cond s' = false /\ r = after s') \/
                (cond s' = true /\ body (n + k) s' = inr r)).
Proof.
  revert k s.
  induction fuel as [|fuel IH]; intros k s Hrun; simpl in Hrun; [discriminate|].
  destruct (cond s) eqn:Hc.
  - destruct (body k s) as [s1|r1] eqn:Hb.
    + destruct (IH _ _ Hrun) as [n [s' [Hn Hend]]].
      exists (Datatypes.S n), s'. simpl. rewrite Hc, Hb. split; [exact Hn|].
      replace (Datatypes.S (n + k))%nat with (n + Datatypes.S k)%nat by lia. exact Hend.
    + exists 0%nat, s. simpl. split; [reflexivity|]. right. split; congruence.
  - exists 0%nat, s. simpl. split; [reflexivity|]. left. split; congruence.
Qed.

End WhileFacts.

(* ===================================================================== *)
(** ** The monitoring loops: what one pass does *)
(* ===================================================================== *)

Ltac unfold_bind :=
  unfold mbind, mret, Py.result_bind, Py.result_ret, World.io_bind, World.io_ret in *.

Section MonitorProduction.
Import Py World monitor_production_pipeline.
Context `{Runtime}.

Lemma sleep_and_count_now (t : tick) (st st' : locals) :
  sleep_and_count t st = Ok st' ->
  exists late, nap t = Slept late /\
    now st' = (now st + poll_secs t + check_interval + late)%nat /\
    iteration st' = (iteration st + 1)%nat /\
    last_progress st' = last_progress st.
Proof.
  unfold sleep_and_count. destruct (nap t) as [late|]; [|discriminate].
  intros [= <-]. exists late. simpl. auto.
Qed.

Lemma attempt_goes_on (t : tick) (st st' : locals) :
  attempt t st = Ok (inl st') ->
  exists late, nap t = Slept late /\
    now st' = (now st + poll_secs t + check_interval + late)%nat /\
    iteration st' = (iteration st + 1)%nat.
Proof.
  unfold attempt. unfold_bind.
  destruct (outcome (get_workflow_status (kubectl t) workflow_name)) as [data|]; [|discriminate].
  destruct (analyze_workflow_progress data) as [info|]; [|discriminate].
  match goal with
  | |- match ?v with _ => _ end = _ -> _ => destruct v as [st1|r] eqn:Hv
  end; [|discriminate].
  destruct (sleep_and_count t st1) as [st2|] eqn:Hs; [|discriminate].
  intros [= <-].
  destruct (sleep_and_count_now _ _ _ Hs) as [late [Hn [Hnow [Hit _]]]].
  exists late. split; [exact Hn|].
  assert (now st1 = now st /\ iteration st1 = iteration st) as [E1 E2].
  { repeat case_match; simplify_eq; auto. }
  rewrite E1 in Hnow. rewrite E2 in Hit. auto.
Qed.

Lemma body_goes_on (t : tick) (st st' : locals) :
  body t st = inl st' ->
  exists late, nap t = Slept late /\
    now st' = (now st + poll_secs t + check_interval + late)%nat /\
    iteration st' = (iteration st + 1)%nat.
Proof.
  unfold body.
  destruct (attempt t st) as [[st1|r]|e] eqn:Ha.
  - intros [= <-]. eapply attempt_goes_on; eauto.
  - discriminate.
  - destruct (is_KeyboardInterrupt e); [discriminate|].
    destruct (is_Exception e); [|discriminate].
    destruct (sleep_and_count t st) as [st1|] eqn:Hs; [|discriminate].
    intros [= <-].
    destruct (sleep_and_count_now _ _ _ Hs) as [late [Hn [Hnow [Hit _]]]].
    eauto.
Qed.

Lemma monitor_pipeline_ends (world : nat -> tick) (start_time : nat) :
  exists r, monitor_pipeline 145 world start_time = Some r.
Proof.
  unfold monitor_pipeline.
  apply (while_ends _ _ _ now (start_time + max_duration)%nat check_interval).
  - intros s Hc. unfold in_time in Hc. apply Nat.ltb_lt in Hc. lia.
  - intros k s s' _ Hb.
    destruct (body_goes_on _ _ _ Hb) as [late [_ [Hnow _]]]. lia.
  - cbn [now]. unfold max_duration, check_interval. lia.
Qed.

End MonitorProduction.

Section SubmitProduction.
Import Py World v1beta1 submit_pipeline_production.
Context `{Runtime}.

Lemma production_sleep_now (t : tick) (st st' : locals) :
  sleep t st = Ok st' ->
  exists late, nap t = Slept late /\
    st' = {| now := now st + poll_secs t + check_interval + late;
             last_status := last_status st;
             last_progress := last_progress st |}.
Proof.
  unfold sleep. destruct (nap t) as [late|]; [|discriminate].
  intros [= <-]. eauto.
Qed.

Lemma production_inspect_now (status manifest : pyval) (st st' : locals) :
  inspect status manifest st = Ok (inl st') -> now st' = now st.
Proof.
  unfold inspect, catch. unfold_bind.
  intros Hi. repeat case_match; simplify_eq; reflexivity.
Qed.

Lemma production_attempt_goes_on (url : string) (t : tick) (st st' : locals) :
  attempt url t st = Ok (inl st') ->
  exists late, nap t = Slept late /\
    now st' = (now st + poll_secs t + check_interval + late)%nat.
Proof.
  unfold attempt. unfold_bind.
  destruct (poll_run (get t) url) as [polled|]; [|discriminate].
  match goal with
  | |- match ?v with _ => _ end = _ -> _ => destruct v as [[st1|r]|] eqn:Hv
  end; try discriminate.
  destruct (sleep t st1) as [st2|] eqn:Hs; [|discriminate].
  intros [= <-].
  destruct (production_sleep_now _ _ _ Hs) as [late [Hn ->]].
  exists late. split; [exact Hn|]. cbn [now].
  assert (now st1 = now st) as ->; [|reflexivity].
  destruct (truthy polled.2).
  - eapply production_inspect_now; eauto.
  - congruence.
Qed.

Lemma production_body_goes_on (url : string) (t : tick) (st st' : locals) :
  body url t st = inl st' ->
  exists late, nap t = Slept late /\
    now st' = (now st + poll_secs t + check_interval + late)%nat.
Proof.
  unfold body.
  destruct (attempt url t st) as [[st1|r]|e] eqn:Ha.
  - intros [= <-]. eapply production_attempt_goes_on; eauto.
  - discriminate.
  - destruct (is_KeyboardInterrupt e); [discriminate|].
    destruct (is_Exception e); [|discriminate].
    destruct (sleep t st) as [st1|] eqn:Hs; [|discriminate].
    intros [= <-].
    destruct (production_sleep_now _ _ _ Hs) as [late [Hn ->]]. eauto.
Qed.

Lemma production_monitor_ends (world : nat -> tick) (start_time : nat)
    (dspa_host token : string) (run_id : pyval) (namespace : string) :
  exists r, monitor_pipeline_run 145 world start_time dspa_host token run_id namespace
            = Some r.
Proof.
  unfold monitor_pipeline_run.
  apply (while_ends _ _ _ now (start_time + max_duration)%nat check_interval).
  - intros s Hc. unfold in_time in Hc. apply Nat.ltb_lt in Hc. lia.
  - intros k s s' _ Hb.
    destruct (production_body_goes_on _ _ _ _ Hb) as [late [_ Hnow]]. lia.
  - cbn [now]. unfold max_duration, check_interval. lia.
Qed.

End SubmitProduction.

Section SubmitComplete.
Import Py World submit_pipeline_complete.
Context `{Runtime}.

Lemma complete_sleep_and_count (t : tick) (st st' : locals) :
  sleep_and_count t st = Ok st' ->
  exists late, nap t = Slept late /\
    st' = {| now := now st + poll_secs t + check_interval + late;
             monitoring_duration := monitoring_duration st + check_interval;
             last_status := last_status st;
             last_progress := last_progress st;
             current_time := current_time st |}.
Proof.
  unfold sleep_and_count. destruct (nap t) as [late|]; [|discriminate].
  intros [= <-]. eauto.
Qed.

Lemma complete_training_check (namespace : string) (t : tick) (st st' : locals) r :
  training_check namespace t st = (st', r) ->
  match r with
  | Ok (inl _) =>
      exists late, nap t = Slept late /\
        now st' = (now st + poll_secs t + check_interval + late)%nat /\
        monitoring_duration st' = (monitoring_duration st + check_interval)%nat
  | Ok (inr _) => False
  | Raise _ => st' = st
  end.
Proof.
  unfold training_check. intros Ht.
  repeat case_match; simplify_eq; try reflexivity.
  all: match goal with Hs : sleep_and_count _ _ = Ok _ |- _ =>
    destruct (complete_sleep_and_count _ _ _ Hs) as [late [Hn ->]] end.
  all: exists late; auto.
Qed.

Lemma complete_attempt_goes_on (w ns : string) (t : tick) (st st' : locals) :
  attempt w ns t st = (st', Ok (inl tt)) ->
  exists late, nap t = Slept late /\
    now st' = (now st + poll_secs t + check_interval + late)%nat /\
    monitoring_duration st' = (monitoring_duration st + check_interval)%nat.
Proof.
  unfold attempt. intros Ha.
  repeat case_match; simplify_eq;
    match goal with Ht : training_check _ _ _ = _ |- _ =>
      apply complete_training_check in Ht; exact Ht end.
Qed.

Lemma complete_attempt_raises (w ns : string) (t : tick) (st st' : locals) e :
  attempt w ns t st = (st', Raise e) ->
  now st' = now st /\ monitoring_duration st' = monitoring_duration st /\
  (current_time st = true -> current_time st' = true).
Proof.
  unfold attempt. intros Ha.
  repeat case_match; simplify_eq; auto;
    match goal with Ht : training_check _ _ _ = _ |- _ =>
      apply complete_training_check in Ht; subst; auto end.
Qed.

Lemma complete_body_goes_on (w ns : string) (t : tick) (st st' : locals) :
  body w ns t st = inl st' ->
  exists late, nap t = Slept late /\
    now st' = (now st + poll_secs t + check_interval + late)%nat /\
    monitoring_duration st' = (monitoring_duration st + check_interval)%nat.
Proof.
  unfold body.
  destruct (attempt w ns t st) as [st1 [[[]|b]|e]] eqn:Ha.
  - intros [= <-]. eapply complete_attempt_goes_on; eauto.
  - discriminate.
  - destruct (is_KeyboardInterrupt e); [discriminate|].
    destruct (is_Exception e); [|discriminate].
    destruct (current_time st1); [|discriminate].
    destruct (sleep_and_count t st1) as [st2|] eqn:Hs; [|discriminate].
    intros [= <-].
    destruct (complete_sleep_and_count _ _ _ Hs) as [late [Hn ->]].
    destruct (complete_attempt_raises _ _ _ _ _ _ Ha) as [E1 [E2 _]].
    exists late. cbn [now monitoring_duration]. rewrite E1, E2. auto.
Qed.

Lemma complete_monitor_ends (lookup : string -> result string) (world : nat -> tick)
    (start_time : nat) (namespace : string) (run_id : pyval) :
  exists r, monitor_pipeline 481 lookup world start_time namespace run_id = Some r.
Proof.
  unfold monitor_pipeline.
  destruct (lookup (find_cmd namespace run_id)) as [out|e]; [|eauto].
  destruct (nonempty (strip out)); [|eauto].
  apply (while_ends _ _ _ monitoring_duration max_monitoring_time check_interval).
  - intros s Hc. unfold in_time in Hc. apply Nat.ltb_lt in Hc. lia.
  - intros k s s' _ Hb.
    destruct (complete_body_goes_on _ _ _ _ _ Hb) as [late [_ [_ Hd]]]. lia.
  - cbn [monitoring_duration]. unfold max_monitoring_time, check_interval. lia.
Qed.

End SubmitComplete.

Section SubmitNfs.
Import Py World v1beta1 submit_pipeline_nfs_storage.

(** While the run stays in state Running, one pass of the loop leaves the
    locals in the same shape, thirty seconds later. *)
Lemma nfs_pass_running (k : nat) (st : locals) :
  last_status st = PNone \/ last_status st = PStr "Running" ->
  body (H:=Sample.runtime) Sample.run_url (Sample.run_world "Running" 0 k) st
  = inl {| now := now st + 0 + check_interval + 0; last_status := PStr "Running" |}.
Proof.
  destruct st as [n ls]. cbn [last_status now].
  intros [-> | ->]; vm_compute; reflexivity.
Qed.

Lemma nfs_running_forever (fuel k : nat) (st : locals) :
  last_status st = PNone \/ last_status st = PStr "Running" ->
  while (fun _ => true)
        (fun k => body (H:=Sample.runtime) Sample.run_url (Sample.run_world "Running" 0 k))
        (fun _ => Ok tt) fuel k st = None.
Proof.
  intros Hst.
  apply (while_runs_on _ _ _
           (fun _ s => last_status s = PNone \/ last_status s = PStr "Running"));
    [|exact Hst].
  intros k' s Hs. split; [reflexivity|].
  eexists. split; [apply nfs_pass_running; exact Hs|]. right. reflexivity.
Qed.

Lemma nfs_clock_runs (n k : nat) (st : locals) :
  last_status st = PNone \/ last_status st = PStr "Running" ->
  exists st',
    locals_after (fun _ => true)
      (fun k => body (H:=Sample.runtime) Sample.run_url (Sample.run_world "Running" 0 k))
      n k st = Some st' /\
    now st' = (now st + 30 * n)%nat.
Proof.
  revert k st. induction n as [|n IH]; intros k st Hst.
  - exists st. split; [reflexivity|lia].
  - cbn [locals_after]. rewrite (nfs_pass_running k st Hst).
    destruct (IH (Datatypes.S k)
                 {| now := now st + 0 + check_interval + 0; last_status := PStr "Running" |})
      as [st' [Hn Hnow]]; [right; reflexivity|].
    exists st'. split; [exact Hn|]. rewrite Hnow. cbn [now]. unfold check_interval. lia.
Qed.

End SubmitNfs.

Section PassFacts.
Import Py World.

Lemma Exception_not_interrupt (e : exn) :
  is_Exception e = true -> is_KeyboardInterrupt e = false.
Proof. destruct e; simpl; congruence. Qed.

Lemma interrupt_is (e : exn) : is_KeyboardInterrupt e = true -> e = KeyboardInterrupt.
Proof. destruct e; simpl; congruence. Qed.

Lemma while_pass {S R : Type} (cond : S -> bool) (body : nat -> S -> S + R)
    (after : S -> R) (fuel k : nat) (s s' : S) :
  cond s = true -> body k s = inl s' ->
  while cond body after (Datatypes.S fuel) k s = while cond body after fuel (Datatypes.S k) s'.
Proof. intros Hc Hb. simpl. rewrite Hc, Hb. reflexivity. Qed.

Lemma while_exit {S R : Type} (cond : S -> bool) (body : nat -> S -> S + R)
    (after : S -> R) (fuel k : nat) (s : S) (r : R) :
  cond s = true -> body k s = inr r ->
  while cond body after (Datatypes.S fuel) k s = Some r.
Proof. intros Hc Hb. simpl. rewrite Hc, Hb. reflexivity. Qed.

Lemma while_timeout {S R : Type} (cond : S -> bool) (body : nat -> S -> S + R)
    (after : S -> R) (fuel k : nat) (s : S) :
  cond s = false ->
  while cond body after (Datatypes.S fuel) k s = Some (after s).
Proof. intros Hc. simpl. rewrite Hc. reflexivity. Qed.

Context `{Runtime}.

(** *** monitor_production_pipeline.py *)

Lemma monitor_body_exception (t : monitor_production_pipeline.tick)
    (st : monitor_production_pipeline.locals) (e : exn) (late : nat) :
  monitor_production_pipeline.attempt t st = Raise e ->
  is_Exception e = true ->
  monitor_production_pipeline.nap t = Slept late ->
  monitor_production_pipeline.body t st
  = inl {| monitor_production_pipeline.now :=
             monitor_production_pipeline.now st + monitor_production_pipeline.poll_secs t
             + monitor_production_pipeline.check_interval + late;
           monitor_production_pipeline.last_progress :=
             monitor_production_pipeline.last_progress st;
           monitor_production_pipeline.iteration :=
             monitor_production_pipeline.iteration st + 1 |}.
Proof.
  intros Ha He Hn. unfold monitor_production_pipeline.body.
  rewrite Ha, (Exception_not_interrupt e He), He.
  unfold monitor_production_pipeline.sleep_and_count. rewrite Hn. reflexivity.
Qed.

Lemma monitor_body_interrupt (t : monitor_production_pipeline.tick)
    (st : monitor_production_pipeline.locals) :
  monitor_production_pipeline.attempt t st = Raise KeyboardInterrupt ->
  monitor_production_pipeline.body t st = inr (Ok None).
Proof. intros Ha. unfold monitor_production_pipeline.body. rewrite Ha. reflexivity. Qed.

(** How a pass can leave the function: a verdict read off the polled
    status, a keyboard interrupt, or an exception nobody catches. *)
Lemma monitor_body_exits (t : monitor_production_pipeline.tick)
    (st : monitor_production_pipeline.locals) (r : result (option bool)) :
  monitor_production_pipeline.body t st = inr r ->
  (exists b, monitor_production_pipeline.attempt t st = Ok (inr (Some b)) /\ r = Ok (Some b))
  \/ (monitor_production_pipeline.attempt t st = Raise KeyboardInterrupt /\ r = Ok None)
  \/ (exists e, monitor_production_pipeline.attempt t st = Raise e /\
                is_KeyboardInterrupt e = false /\
                ((is_Exception e = true /\
                  monitor_production_pipeline.nap t = Interrupted /\
                  r = Raise KeyboardInterrupt)
                 \/ (is_Exception e = false /\ r = Raise e))).
Proof.
  unfold monitor_production_pipeline.body.
  destruct (monitor_production_pipeline.attempt t st) as [[st1|v]|e] eqn:Ha.
  - discriminate.
  - intros [= <-]. left.
    assert (exists b, v = Some b) as [b ->]; [|eauto].
    revert Ha. unfold monitor_production_pipeline.attempt. unfold_bind.
    intros Ha. repeat case_match; simplify_eq; eauto.
  - destruct (is_KeyboardInterrupt e) eqn:Hk.
    + intros [= <-]. right. left. apply interrupt_is in Hk. subst. auto.
    + intros Hr. right. right. exists e. split; [reflexivity|]. split; [exact Hk|].
      unfold monitor_production_pipeline.sleep_and_count in Hr.
      destruct (is_Exception e); [left|right; split; congruence].
      destruct (monitor_production_pipeline.nap t); [discriminate|].
      split; [reflexivity|]. split; congruence.
Qed.

(** What the verdicts of a pass mean. *)
Lemma monitor_attempt_verdict (t : monitor_production_pipeline.tick)
    (st : monitor_production_pipeline.locals) (b : bool) :
  monitor_production_pipeline.attempt t st = Ok (inr (Some b)) ->
  exists data info,
    outcome (monitor_production_pipeline.get_workflow_status
               (monitor_production_pipeline.kubectl t)
               monitor_production_pipeline.workflow_name) = Ok data /\
    monitor_production_pipeline.analyze_workflow_progress data = Ok info /\
    if b then
      exists i, info = Some i /\
                eq_str (monitor_production_pipeline.workflow_status i) "Succeeded" = true /\
                monitor_production_pipeline.failed_nodes i = 0%nat
    else
      info = None \/
      exists i, info = Some i /\
                ((0 < monitor_production_pipeline.failed_nodes i)%nat \/
                 (in_strs (monitor_production_pipeline.workflow_status i)
                          monitor_production_pipeline.terminal = true /\
                  eq_str (monitor_production_pipeline.workflow_status i) "Succeeded" = false)).
Proof.
  unfold monitor_production_pipeline.attempt. unfold_bind.
  destruct (outcome _) as [data|] eqn:Hd; [|discriminate].
  destruct (monitor_production_pipeline.analyze_workflow_progress data) as [info|] eqn:Hi;
    [|discriminate].
  intros Ha. exists data, info.
  split; [first [reflexivity | assumption]|]. split; [first [reflexivity | assumption]|].
  unfold monitor_production_pipeline.print_status_update in Ha.
  destruct info as [i|].
  - destruct (0 <? monitor_production_pipeline.failed_nodes i)%nat eqn:Hf.
    + apply Nat.ltb_lt in Hf.
      repeat case_match; simplify_eq; try lia; right; exists i; auto.
    + apply Nat.ltb_ge in Hf.
      repeat case_match; simplify_eq.
      * exists i. split; [reflexivity|]. split; [assumption|lia].
      * right. exists i. auto.
  - repeat case_match; simplify_eq. left. reflexivity.
Qed.

End PassFacts.

Section PassFactsHttp.
Import Py World v1beta1.
Context `{Runtime}.

(** *** submit_pipeline_production.py *)

Lemma production_body_exception (url : string) (t : tick)
    (st : submit_pipeline_production.locals) (e : exn) (late : nat) :
  submit_pipeline_production.attempt url t st = Raise e ->
  is_Exception e = true ->
  nap t = Slept late ->
  submit_pipeline_production.body url t st
  = inl {| submit_pipeline_production.now :=
             submit_pipeline_production.now st + poll_secs t
             + submit_pipeline_production.check_interval + late;
           submit_pipeline_production.last_status :=
             submit_pipeline_production.last_status st;
           submit_pipeline_production.last_progress :=
             submit_pipeline_production.last_progress st |}.
Proof.
  intros Ha He Hn. unfold submit_pipeline_production.body.
  rewrite Ha, (Exception_not_interrupt e He), He.
  unfold submit_pipeline_production.sleep. rewrite Hn. reflexivity.
Qed.

Lemma production_body_interrupt (url : string) (t : tick)
    (st : submit_pipeline_production.locals) :
  submit_pipeline_production.attempt url t st = Raise KeyboardInterrupt ->
  submit_pipeline_production.body url t st = inr (Ok None).
Proof. intros Ha. unfold submit_pipeline_production.body. rewrite Ha. reflexivity. Qed.

Lemma production_inspect_verdict (status manifest : pyval)
    (st : submit_pipeline_production.locals) (v : option bool) :
  submit_pipeline_production.inspect status manifest st = Ok (inr v) ->
  exists b, v = Some b /\
    if b then eq_str status "Succeeded" = true
    else (in_strs status terminal = true /\ eq_str status "Succeeded" = false)
         \/ exists workflow_data workflow_status nodes node_items names,
              loads manifest = Ok workflow_data /\
              py_get workflow_data "status" (PDict []) = Ok workflow_status /\
              py_get workflow_status "nodes" (PDict []) = Ok nodes /\
              items nodes = Ok node_items /\
              names_failed node_items = Ok names /\
              names <> [].
Proof.
  unfold submit_pipeline_production.inspect, catch. unfold_bind.
  destruct (loads manifest) as [wd|] eqn:Hl; [|intros; repeat case_match; simplify_eq].
  destruct (py_get wd "status" (PDict [])) as [ws|] eqn:Hs;
    [|intros; repeat case_match; simplify_eq].
  destruct (py_get ws "nodes" (PDict [])) as [nodes|] eqn:Hn;
    [|intros; repeat case_match; simplify_eq].
  destruct (len nodes) as [total|]; [|intros; repeat case_match; simplify_eq].
  destruct (values nodes) as [vals|]; [|intros; repeat case_match; simplify_eq].
  destruct (count_phase terminal vals) as [done|];
    [|intros; repeat case_match; simplify_eq].
  destruct (count_phase ["Running"] vals) as [run|];
    [|intros; repeat case_match; simplify_eq].
  destruct (items nodes) as [its|] eqn:Hi; [|intros; repeat case_match; simplify_eq].
  destruct (names_failed its) as [names|] eqn:Hf;
    [|intros; repeat case_match; simplify_eq].
  destruct (monitor_production_pipeline.percent done total) as [pct|];
    [|intros; repeat case_match; simplify_eq].
  intros Hv.
  destruct names as [|name names].
  - rewrite andb_false_r in Hv.
    destruct (in_strs status terminal) eqn:Ht; [|discriminate].
    destruct (eq_str status "Succeeded") eqn:Hsucc; simplify_eq.
    + exists true. auto.
    + exists false. auto.
  - destruct (_ && true) in Hv.
    + simplify_eq. exists false. split; [reflexivity|]. right.
      exists wd, ws, nodes, its, (name :: names). repeat split; auto.
    + destruct (in_strs status terminal) eqn:Ht; [|discriminate].
      destruct (eq_str status "Succeeded") eqn:Hsucc; simplify_eq.
      * exists true. auto.
      * exists false. auto.
Qed.

Lemma production_attempt_verdict (url : string) (t : tick)
    (st : submit_pipeline_production.locals) (v : option bool) :
  submit_pipeline_production.attempt url t st = Ok (inr v) ->
  exists status manifest,
    poll_run (get t) url = Ok (status, manifest) /\ truthy manifest = true /\
    submit_pipeline_production.inspect status manifest st = Ok (inr v).
Proof.
  unfold submit_pipeline_production.attempt. unfold_bind.
  destruct (poll_run (get t) url) as [[status manifest]|] eqn:Hp; [|discriminate].
  cbn [fst snd]. destruct (truthy manifest) eqn:Hm.
  - destruct (submit_pipeline_production.inspect status manifest st) as [[st1|v1]|] eqn:Hi;
      try discriminate.
    + destruct (submit_pipeline_production.sleep t st1); discriminate.
    + intros [= <-]. exists status, manifest. auto.
  - destruct (submit_pipeline_production.sleep t st); discriminate.
Qed.

Lemma production_body_exits (url : string) (t : tick)
    (st : submit_pipeline_production.locals) (r : result (option bool)) :
  submit_pipeline_production.body url t st = inr r ->
  (exists b, submit_pipeline_production.attempt url t st = Ok (inr (Some b)) /\ r = Ok (Some b))
  \/ (submit_pipeline_production.attempt url t st = Raise KeyboardInterrupt /\ r = Ok None)
  \/ (exists e, submit_pipeline_production.attempt url t st = Raise e /\
                is_KeyboardInterrupt e = false /\
                ((is_Exception e = true /\ nap t = Interrupted /\ r = Raise KeyboardInterrupt)
                 \/ (is_Exception e = false /\ r = Raise e))).
Proof.
  unfold submit_pipeline_production.body.
  destruct (submit_pipeline_production.attempt url t st) as [[st1|v]|e] eqn:Ha.
  - discriminate.
  - intros [= <-]. left.
    destruct (production_attempt_verdict _ _ _ _ Ha) as [s [m [_ [_ Hi]]]].
    destruct (production_inspect_verdict _ _ _ _ Hi) as [b [-> _]]. eauto.
  - destruct (is_KeyboardInterrupt e) eqn:Hk.
    + intros [= <-]. right. left. apply interrupt_is in Hk. subst. auto.
    + intros Hr. right. right. exists e. split; [reflexivity|]. split; [exact Hk|].
      unfold submit_pipeline_production.sleep in Hr.
      destruct (is_Exception e); [left|right; split; congruence].
      destruct (nap t); [discriminate|].
      split; [reflexivity|]. split; congruence.
Qed.

(** *** submit_pipeline_nfs_storage.py *)

Lemma nfs_body_exception (url : string) (t : tick)
    (st : submit_pipeline_nfs_storage.locals) (e : exn) (late : nat) :
  submit_pipeline_nfs_storage.attempt url t st = Raise e ->
  is_Exception e = true ->
  nap t = Slept late ->
  submit_pipeline_nfs_storage.body url t st
  = inl {| submit_pipeline_nfs_storage.now :=
             submit_pipeline_nfs_storage.now st + poll_secs t
             + submit_pipeline_nfs_storage.error_delay + late;
           submit_pipeline_nfs_storage.last_status :=
             submit_pipeline_nfs_storage.last_status st |}.
Proof.
  intros Ha He Hn. unfold submit_pipeline_nfs_storage.body.
  rewrite Ha, (Exception_not_interrupt e He), He.
  unfold submit_pipeline_nfs_storage.sleep. rewrite Hn. reflexivity.
Qed.

Lemma nfs_body_interrupt (url : string) (t : tick)
    (st : submit_pipeline_nfs_storage.locals) :
  submit_pipeline_nfs_storage.attempt url t st = Raise KeyboardInterrupt ->
  submit_pipeline_nfs_storage.body url t st = inr (Ok tt).
Proof. intros Ha. unfold submit_pipeline_nfs_storage.body. rewrite Ha. reflexivity. Qed.

Lemma nfs_body_exits (url : string) (t : tick)
    (st : submit_pipeline_nfs_storage.locals) (r : result unit) :
  submit_pipeline_nfs_storage.body url t st = inr r ->
  (submit_pipeline_nfs_storage.attempt url t st = Ok (inr tt) /\ r = Ok tt)
  \/ (submit_pipeline_nfs_storage.attempt url t st = Raise KeyboardInterrupt /\ r = Ok tt)
  \/ (exists e, submit_pipeline_nfs_storage.attempt url t st = Raise e /\
                is_KeyboardInterrupt e = false /\
                ((is_Exception e = true /\ nap t = Interrupted /\ r = Raise KeyboardInterrupt)
                 \/ (is_Exception e = false /\ r = Raise e))).
Proof.
  unfold submit_pipeline_nfs_storage.body.
  destruct (submit_pipeline_nfs_storage.attempt url t st) as [[st1|[]]|e] eqn:Ha.
  - discriminate.
  - intros [= <-]. left. auto.
  - destruct (is_KeyboardInterrupt e) eqn:Hk.
    + intros [= <-]. right. left. apply interrupt_is in Hk. subst. auto.
    + intros Hr. right. right. exists e. split; [reflexivity|]. split; [exact Hk|].
      unfold submit_pipeline_nfs_storage.sleep in Hr.
      destruct (is_Exception e); [left|right; split; congruence].
      destruct (nap t); [discriminate|].
      split; [reflexivity|]. split; congruence.
Qed.

End PassFactsHttp.

Section PassFactsComplete.
Import Py World submit_pipeline_complete.
Context `{Runtime}.

(** *** submit_pipeline_complete.py *)

Lemma complete_body_exception (w ns : string) (t : tick) (st st1 : locals)
    (e : exn) (late : nat) :
  attempt w ns t st = (st1, Raise e) ->
  is_Exception e = true ->
  current_time st1 = true ->
  nap t = Slept late ->
  body w ns t st
  = inl {| now := now st1 + poll_secs t + check_interval + late;
           monitoring_duration := monitoring_duration st1 + check_interval;
           last_status := last_status st1;
           last_progress := last_progress st1;
           current_time := true |}.
Proof.
  intros Ha He Hc Hn. unfold body.
  rewrite Ha, (Exception_not_interrupt e He), He, Hc.
  unfold sleep_and_count. rewrite Hn, Hc. reflexivity.
Qed.

Lemma complete_body_interrupt (w ns : string) (t : tick) (st st1 : locals) :
  attempt w ns t st = (st1, Raise KeyboardInterrupt) ->
  body w ns t st = inr (Ok false).
Proof. intros Ha. unfold body. rewrite Ha. reflexivity. Qed.

Lemma complete_attempt_verdict (w ns : string) (t : tick) (st st1 : locals) (b : bool) :
  attempt w ns t st = (st1, Ok (inr b)) ->
  exists out, popen t (jsonpath_cmd w ns "phase") = Ok out /\
              existsb (String.eqb (strip out)) terminal = true /\
              b = String.eqb (strip out) "Succeeded".
Proof.
  unfold attempt. intros Ha.
  destruct (popen t (jsonpath_cmd w ns "phase")) as [out1|]; [|discriminate].
  exists out1. split; [reflexivity|].
  repeat case_match; simplify_eq; auto;
    match goal with Ht : training_check _ _ _ = _ |- _ =>
      apply complete_training_check in Ht; contradiction end.
Qed.

Lemma complete_body_exits (w ns : string) (t : tick) (st : locals) (r : result bool) :
  body w ns t st = inr r ->
  (exists st1 b, attempt w ns t st = (st1, Ok (inr b)) /\ r = Ok b)
  \/ (exists st1, attempt w ns t st = (st1, Raise KeyboardInterrupt) /\ r = Ok false)
  \/ (exists st1 e, attempt w ns t st = (st1, Raise e) /\
                    is_KeyboardInterrupt e = false /\
                    match r with Raise _ => True | Ok _ => False end).
Proof.
  unfold body.
  destruct (attempt w ns t st) as [st1 [[[]|b]|e]] eqn:Ha.
  - discriminate.
  - intros [= <-]. left. eauto.
  - destruct (is_KeyboardInterrupt e) eqn:Hk.
    + intros [= <-]. right. left. apply interrupt_is in Hk. subst. eauto.
    + intros Hr. right. right. exists st1, e. split; [reflexivity|]. split; [exact Hk|].
      repeat case_match; simplify_eq; exact I.
Qed.

End PassFactsComplete.

(* ===================================================================== *)
(** ** C1: the polling loops and their time bounds *)
(* ===================================================================== *)

(** C1 (as amended).  The two 24-hour monitors,
    [monitor_production_pipeline.monitor_pipeline] and
    [submit_pipeline_production.monitor_pipeline_run], read the wall clock
    at the head of every pass and return [None] as soon as it shows 24
    hours or more since the start; every pass that goes on sleeps at least
    600 seconds, so they return within 145 passes whatever the cluster
    does.  [submit_pipeline_complete.monitor_pipeline] does not read the
    clock: it adds up the 30 seconds it asks to sleep and returns [False]
    once the sum reaches 4 hours, which is within 481 passes. *)
Theorem polling_loops_end `{Py.Runtime} :
  (forall world start_time,
      exists r, monitor_production_pipeline.monitor_pipeline 145 world start_time = Some r)
  /\ (forall world start_time dspa_host token run_id namespace,
      exists r, submit_pipeline_production.monitor_pipeline_run
                  145 world start_time dspa_host token run_id namespace = Some r)
  /\ (forall lookup world start_time namespace run_id,
      exists r, submit_pipeline_complete.monitor_pipeline
                  481 lookup world start_time namespace run_id = Some r)
  /\ (forall world start_time fuel k over last_progress iteration,
      World.while (monitor_production_pipeline.in_time start_time)
        (fun k => monitor_production_pipeline.body (world k)) (fun _ => Py.Ok None)
        (S fuel) k
        {| monitor_production_pipeline.now :=
             start_time + monitor_production_pipeline.max_duration + over;
           monitor_production_pipeline.last_progress := last_progress;
           monitor_production_pipeline.iteration := iteration |}
      = Some (Py.Ok None))
  /\ (forall url world start_time fuel k over last_status last_progress,
      World.while (submit_pipeline_production.in_time start_time)
        (fun k => submit_pipeline_production.body url (world k)) (fun _ => Py.Ok None)
        (S fuel) k
        {| submit_pipeline_production.now :=
             start_time + submit_pipeline_production.max_duration + over;
           submit_pipeline_production.last_status := last_status;
           submit_pipeline_production.last_progress := last_progress |}
      = Some (Py.Ok None))
  /\ (forall workflow namespace world fuel k clock over last_status last_progress bound,
      World.while submit_pipeline_complete.in_time
        (fun k => submit_pipeline_complete.body workflow namespace (world k))
        (fun _ => Py.Ok false)
        (S fuel) k
        {| submit_pipeline_complete.now := clock;
           submit_pipeline_complete.monitoring_duration :=
             submit_pipeline_complete.max_monitoring_time + over;
           submit_pipeline_complete.last_status := last_status;
           submit_pipeline_complete.last_progress := last_progress;
           submit_pipeline_complete.current_time := bound |}
      = Some (Py.Ok false)).
Proof.
  split; [intros; apply monitor_pipeline_ends|].
  split; [intros; apply production_monitor_ends|].
  split; [intros; apply complete_monitor_ends|].
  split; [|split].
  - intros. apply (while_timeout _ _ (fun _ => Py.Ok None)).
    unfold monitor_production_pipeline.in_time. cbn [monitor_production_pipeline.now].
    apply Nat.ltb_ge. lia.
  - intros. apply (while_timeout _ _ (fun _ => Py.Ok None)).
    unfold submit_pipeline_production.in_time. cbn [submit_pipeline_production.now].
    apply Nat.ltb_ge. lia.
  - intros. apply (while_timeout _ _ (fun _ => Py.Ok false)).
    unfold submit_pipeline_complete.in_time.
    cbn [submit_pipeline_complete.monitoring_duration].
    apply Nat.ltb_ge. lia.
Qed.

(** C1 as stated fails: [monitor_pipeline_run] of
    submit_pipeline_nfs_storage.py is [while True].  On a server whose run
    stays in state Running it returns for no amount of fuel, while its
    clock passes every bound; and the loop of submit_pipeline_complete.py,
    polling a cluster that takes 30 seconds to answer, is still running
    when 4 hours of wall-clock time have passed. *)
Lemma polling_loops_not_all_clock_bounded :
  (forall fuel,
      submit_pipeline_nfs_storage.monitor_pipeline_run (H:=Sample.runtime)
        fuel (Sample.run_world "Running" 0) 0 Sample.host "token" Sample.run_id Sample.ns
      = None)
  /\ (forall n, exists st,
        World.locals_after (fun _ => true)
          (fun k => submit_pipeline_nfs_storage.body (H:=Sample.runtime)
                      Sample.run_url (Sample.run_world "Running" 0 k))
          n 0 Sample.nfs_start = Some st /\
        submit_pipeline_nfs_storage.now st = (30 * n)%nat)
  /\ (exists st,
        World.locals_after submit_pipeline_complete.in_time
          (fun k => submit_pipeline_complete.body (H:=Sample.runtime)
                      "instructlab-abc12" Sample.ns (Sample.popen_world "Running" 30 k))
          240 0 Sample.complete_start = Some st /\
        submit_pipeline_complete.now st = (4 * 60 * 60)%nat /\
        submit_pipeline_complete.in_time st = true).
Proof.
  split; [|split].
  - intros fuel. apply nfs_running_forever. left. reflexivity.
  - intros n. destruct (nfs_clock_runs n 0 Sample.nfs_start) as [st [Hn Hnow]];
      [left; reflexivity|].
    exists st. split; [exact Hn|]. rewrite Hnow. reflexivity.
  - eexists. split; [vm_compute; reflexivity|]. split; vm_compute; reflexivity.
Qed.

(* ===================================================================== *)
(** ** C7: an exception in a pass *)
(* ===================================================================== *)

(** C7 (as amended).  In each polling loop, when the body of the [try]
    raises an exception [e] that derives from [Exception], the handler
    sleeps for a fixed delay and the loop goes to its next pass with the
    locals it had: the delay is the check interval of 600 seconds in
    monitor_production_pipeline.py and submit_pipeline_production.py, 60
    seconds (the check interval is 30) in submit_pipeline_nfs_storage.py,
    and the check interval of 30 seconds in submit_pipeline_complete.py once
    the first timestamp has been taken. *)
Theorem polling_exception_retries `{Py.Runtime} (e : Py.exn) (late fuel k : nat) :
  Py.is_Exception e = true ->
  (forall world start_time st,
      monitor_production_pipeline.in_time start_time st = true ->
      monitor_production_pipeline.attempt (world k) st = Py.Raise e ->
      monitor_production_pipeline.nap (world k) = World.Slept late ->
      World.while (monitor_production_pipeline.in_time start_time)
        (fun k => monitor_production_pipeline.body (world k)) (fun _ => Py.Ok None)
        (S fuel) k st
      = World.while (monitor_production_pipeline.in_time start_time)
          (fun k => monitor_production_pipeline.body (world k)) (fun _ => Py.Ok None)
          fuel (S k)
          {| monitor_production_pipeline.now :=
               monitor_production_pipeline.now st
               + monitor_production_pipeline.poll_secs (world k) + 600 + late;
             monitor_production_pipeline.last_progress :=
               monitor_production_pipeline.last_progress st;
             monitor_production_pipeline.iteration :=
               monitor_production_pipeline.iteration st + 1 |})
  /\ (forall url world start_time st,
      submit_pipeline_production.in_time start_time st = true ->
      submit_pipeline_production.attempt url (world k) st = Py.Raise e ->
      v1beta1.nap (world k) = World.Slept late ->
      World.while (submit_pipeline_production.in_time start_time)
        (fun k => submit_pipeline_production.body url (world k)) (fun _ => Py.Ok None)
        (S fuel) k st
      = World.while (submit_pipeline_production.in_time start_time)
          (fun k => submit_pipeline_production.body url (world k)) (fun _ => Py.Ok None)
          fuel (S k)
          {| submit_pipeline_production.now :=
               submit_pipeline_production.now st + v1beta1.poll_secs (world k) + 600 + late;
             submit_pipeline_production.last_status :=
               submit_pipeline_production.last_status st;
             submit_pipeline_production.last_progress :=
               submit_pipeline_production.last_progress st |})
  /\ (forall url world st,
      submit_pipeline_nfs_storage.attempt url (world k) st = Py.Raise e ->
      v1beta1.nap (world k) = World.Slept late ->
      World.while (fun _ => true)
        (fun k => submit_pipeline_nfs_storage.body url (world k)) (fun _ => Py.Ok tt)
        (S fuel) k st
      = World.while (fun _ => true)
          (fun k => submit_pipeline_nfs_storage.body url (world k)) (fun _ => Py.Ok tt)
          fuel (S k)
          {| submit_pipeline_nfs_storage.now :=
               submit_pipeline_nfs_storage.now st + v1beta1.poll_secs (world k) + 60 + late;
             submit_pipeline_nfs_storage.last_status :=
               submit_pipeline_nfs_storage.last_status st |})
  /\ (forall workflow namespace world st st1,
      submit_pipeline_complete.in_time st = true ->
      submit_pipeline_complete.attempt workflow namespace (world k) st = (st1, Py.Raise e) ->
      submit_pipeline_complete.current_time st1 = true ->
      submit_pipeline_complete.nap (world k) = World.Slept late ->
      World.while submit_pipeline_complete.in_time
        (fun k => submit_pipeline_complete.body workflow namespace (world k))
        (fun _ => Py.Ok false)
        (S fuel) k st
      = World.while submit_pipeline_complete.in_time
          (fun k => submit_pipeline_complete.body workflow namespace (world k))
          (fun _ => Py.Ok false)
          fuel (S k)
          {| submit_pipeline_complete.now :=
               submit_pipeline_complete.now st1
               + submit_pipeline_complete.poll_secs (world k) + 30 + late;
             submit_pipeline_complete.monitoring_duration :=
               submit_pipeline_complete.monitoring_duration st1 + 30;
             submit_pipeline_complete.last_status :=
               submit_pipeline_complete.last_status st1;
             submit_pipeline_complete.last_progress :=
               submit_pipeline_complete.last_progress st1;
             submit_pipeline_complete.current_time := true |}).
Proof.
  intros He. split; [|split; [|split]].
  - intros world start_time st Hc Ha Hn. apply while_pass; [exact Hc|].
    apply (monitor_body_exception _ _ _ _ Ha He Hn).
  - intros url world start_time st Hc Ha Hn. apply while_pass; [exact Hc|].
    apply (production_body_exception _ _ _ _ _ Ha He Hn).
  - intros url world st Ha Hn. apply while_pass; [reflexivity|].
    apply (nfs_body_exception _ _ _ _ _ Ha He Hn).
  - intros workflow namespace world st st1 Hc Ha Hb Hn. apply while_pass; [exact Hc|].
    apply (complete_body_exception _ _ _ _ _ _ _ Ha He Hb Hn).
Qed.

(** The theorem at work: the shell cannot start [kubectl] in the first
    pass of [monitor_pipeline]; the second pass starts 600 seconds later. *)
Lemma polling_exception_retries_witness :
  World.while (monitor_production_pipeline.in_time 0)
    (fun k => monitor_production_pipeline.body (H:=Sample.runtime)
                ((fun _ => Sample.kubectl_gone) k))
    (fun _ => Py.Ok None) 1 0 Sample.monitor_start
  = World.while (monitor_production_pipeline.in_time 0)
      (fun k => monitor_production_pipeline.body (H:=Sample.runtime)
                  ((fun _ => Sample.kubectl_gone) k))
      (fun _ => Py.Ok None) 0 1
      {| monitor_production_pipeline.now := 0 + 0 + 600 + 0;
         monitor_production_pipeline.last_progress := -1;
         monitor_production_pipeline.iteration := 1 + 1 |}.
Proof.
  apply (proj1 (polling_exception_retries (H:=Sample.runtime) Py.OSError 0 0 0 eq_refl)
               (fun _ => Sample.kubectl_gone) 0%nat Sample.monitor_start);
    reflexivity.
Defined.

(** C7 as stated fails for submit_pipeline_nfs_storage.py: after an error
    the loop sleeps 60 seconds, twice its check interval of 30. *)
Lemma nfs_error_delay_is_not_the_check_interval :
  submit_pipeline_nfs_storage.body (H:=Sample.runtime)
    Sample.run_url Sample.http_down Sample.nfs_start
  = inl {| submit_pipeline_nfs_storage.now := 60;
           submit_pipeline_nfs_storage.last_status := Py.PNone |}
  /\ submit_pipeline_nfs_storage.check_interval = 30%nat.
Proof. split; reflexivity. Qed.

(* ===================================================================== *)
(** ** C8: a keyboard interrupt in a pass *)
(* ===================================================================== *)

(** C8 (as amended).  A [KeyboardInterrupt] raised in the body of the
    [try] ends the loop in that pass, without a sleep:
    [monitor_pipeline] of monitor_production_pipeline.py returns [None],
    the two [monitor_pipeline_run] break out of the loop and then return
    [None], and [monitor_pipeline] of submit_pipeline_complete.py returns
    [False].  A pass leaves a loop in no other way than by a verdict read
    off the polled status, by such an interrupt, or by an exception that
    no handler catches. *)
Theorem keyboard_interrupt_stops `{Py.Runtime} (fuel k : nat) :
  (forall world start_time st,
      monitor_production_pipeline.in_time start_time st = true ->
      monitor_production_pipeline.attempt (world k) st = Py.Raise Py.KeyboardInterrupt ->
      World.while (monitor_production_pipeline.in_time start_time)
        (fun k => monitor_production_pipeline.body (world k)) (fun _ => Py.Ok None)
        (S fuel) k st = Some (Py.Ok None))
  /\ (forall url world start_time st,
      submit_pipeline_production.in_time start_time st = true ->
      submit_pipeline_production.attempt url (world k) st = Py.Raise Py.KeyboardInterrupt ->
      World.while (submit_pipeline_production.in_time start_time)
        (fun k => submit_pipeline_production.body url (world k)) (fun _ => Py.Ok None)
        (S fuel) k st = Some (Py.Ok None))
  /\ (forall url world st,
      submit_pipeline_nfs_storage.attempt url (world k) st = Py.Raise Py.KeyboardInterrupt ->
      World.while (fun _ => true)
        (fun k => submit_pipeline_nfs_storage.body url (world k)) (fun _ => Py.Ok tt)
        (S fuel) k st = Some (Py.Ok tt))
  /\ (forall workflow namespace world st st1,
      submit_pipeline_complete.in_time st = true ->
      submit_pipeline_complete.attempt workflow namespace (world k) st
      = (st1, Py.Raise Py.KeyboardInterrupt) ->
      World.while submit_pipeline_complete.in_time
        (fun k => submit_pipeline_complete.body workflow namespace (world k))
        (fun _ => Py.Ok false)
        (S fuel) k st = Some (Py.Ok false))
  /\ (forall t st r,
      monitor_production_pipeline.body t st = inr r ->
      (exists b, monitor_production_pipeline.attempt t st = Py.Ok (inr (Some b))
                 /\ r = Py.Ok (Some b))
      \/ (monitor_production_pipeline.attempt t st = Py.Raise Py.KeyboardInterrupt
          /\ r = Py.Ok None)
      \/ (exists e, monitor_production_pipeline.attempt t st = Py.Raise e /\
                    Py.is_KeyboardInterrupt e = false /\
                    ((Py.is_Exception e = true /\
                      monitor_production_pipeline.nap t = World.Interrupted /\
                      r = Py.Raise Py.KeyboardInterrupt)
                     \/ (Py.is_Exception e = false /\ r = Py.Raise e))))
  /\ (forall url t st r,
      submit_pipeline_production.body url t st = inr r ->
      (exists b, submit_pipeline_production.attempt url t st = Py.Ok (inr (Some b))
                 /\ r = Py.Ok (Some b))
      \/ (submit_pipeline_production.attempt url t st = Py.Raise Py.KeyboardInterrupt
          /\ r = Py.Ok None)
      \/ (exists e, submit_pipeline_production.attempt url t st = Py.Raise e /\
                    Py.is_KeyboardInterrupt e = false /\
                    ((Py.is_Exception e = true /\ v1beta1.nap t = World.Interrupted /\
                      r = Py.Raise Py.KeyboardInterrupt)
                     \/ (Py.is_Exception e = false /\ r = Py.Raise e))))
  /\ (forall url t st r,
      submit_pipeline_nfs_storage.body url t st = inr r ->
      (submit_pipeline_nfs_storage.attempt url t st = Py.Ok (inr tt) /\ r = Py.Ok tt)
      \/ (submit_pipeline_nfs_storage.attempt url t st = Py.Raise Py.KeyboardInterrupt
          /\ r = Py.Ok tt)
      \/ (exists e, submit_pipeline_nfs_storage.attempt url t st = Py.Raise e /\
                    Py.is_KeyboardInterrupt e = false /\
                    ((Py.is_Exception e = true /\ v1beta1.nap t = World.Interrupted /\
                      r = Py.Raise Py.KeyboardInterrupt)
                     \/ (Py.is_Exception e = false /\ r = Py.Raise e))))
  /\ (forall workflow namespace t st r,
      submit_pipeline_complete.body workflow namespace t st = inr r ->
      (exists st1 b, submit_pipeline_complete.attempt workflow namespace t st
                     = (st1, Py.Ok (inr b)) /\ r = Py.Ok b)
      \/ (exists st1, submit_pipeline_complete.attempt workflow namespace t st
                      = (st1, Py.Raise Py.KeyboardInterrupt) /\ r = Py.Ok false)
      \/ (exists st1 e, submit_pipeline_complete.attempt workflow namespace t st
                        = (st1, Py.Raise e) /\
                        Py.is_KeyboardInterrupt e = false /\
                        match r with Py.Raise _ => True | Py.Ok _ => False end)).
Proof.
  repeat split.
  - intros world start_time st Hc Ha. apply while_exit; [exact Hc|].
    apply monitor_body_interrupt. exact Ha.
  - intros url world start_time st Hc Ha. apply while_exit; [exact Hc|].
    apply production_body_interrupt. exact Ha.
  - intros url world st Ha. apply while_exit; [reflexivity|].
    apply nfs_body_interrupt. exact Ha.
  - intros workflow namespace world st st1 Hc Ha. apply while_exit; [exact Hc|].
    eapply complete_body_interrupt. exact Ha.
  - apply monitor_body_exits.
  - apply production_body_exits.
  - apply nfs_body_exits.
  - apply complete_body_exits.
Qed.

(** The theorem at work: the user interrupts [kubectl] in the first pass. *)
Lemma keyboard_interrupt_stops_witness :
  World.while (monitor_production_pipeline.in_time 0)
    (fun k => monitor_production_pipeline.body (H:=Sample.runtime)
                ((fun _ => Sample.kubectl_interrupted) k))
    (fun _ => Py.Ok None) 1 0 Sample.monitor_start
  = Some (Py.Ok None).
Proof.
  apply (proj1 (keyboard_interrupt_stops (H:=Sample.runtime) 0 0)
               (fun _ => Sample.kubectl_interrupted) 0%nat Sample.monitor_start);
    reflexivity.
Defined.

(** C8 as stated fails for submit_pipeline_complete.py: on a keyboard
    interrupt its [monitor_pipeline] neither returns [None] nor breaks out
    of the loop, it returns [False]. *)
Lemma complete_monitor_interrupted_returns_False :
  submit_pipeline_complete.monitor_pipeline (H:=Sample.runtime) 1 Sample.workflow_found
    (fun _ => Sample.popen_interrupted) 0 Sample.ns Sample.run_id
  = Some (Py.Ok false).
Proof. reflexivity. Qed.

(* ===================================================================== *)
(** ** C5: exit codes after monitoring *)
(* ===================================================================== *)

Section ExitCodes.
Import Py World Reading.
Context `{Runtime}.

Lemma monitor_result_meaning (fuel : nat) (world : nat -> monitor_production_pipeline.tick)
    (start_time : nat) (r : option bool) :
  monitor_production_pipeline.monitor_pipeline fuel world start_time = Some (Ok r) ->
  monitor_meaning world start_time r.
Proof.
  unfold monitor_production_pipeline.monitor_pipeline. intros Hrun.
  destruct (while_leaves _ _ _ _ _ _ _ Hrun) as [n [st [Hn Hend]]].
  exists n, st. split; [exact Hn|].
  replace (n + 0)%nat with n in Hend by lia.
  destruct Hend as [[Hc Hr] | [Hc Hb]].
  - simplify_eq. left.
    unfold monitor_production_pipeline.in_time in Hc. apply Nat.ltb_ge in Hc. exact Hc.
  - destruct (monitor_body_exits _ _ _ Hb) as [[b [Ha Hr]] | [[Ha Hr] | [e [Ha [Hk Hr]]]]].
    + simplify_eq. apply monitor_attempt_verdict in Ha. exact Ha.
    + simplify_eq. right. exact Ha.
    + destruct Hr as [[_ [_ Hr]] | [_ Hr]]; discriminate.
Qed.

Lemma production_result_meaning (fuel : nat) (world : nat -> v1beta1.tick)
    (start_time : nat) (dspa_host token : string) (run_id : pyval) (namespace : string)
    (r : option bool) :
  submit_pipeline_production.monitor_pipeline_run
    fuel world start_time dspa_host token run_id namespace = Some (Ok r) ->
  production_meaning world start_time (v1beta1.run_url dspa_host run_id) r.
Proof.
  unfold submit_pipeline_production.monitor_pipeline_run. intros Hrun.
  destruct (while_leaves _ _ _ _ _ _ _ Hrun) as [n [st [Hn Hend]]].
  exists n, st. split; [exact Hn|].
  replace (n + 0)%nat with n in Hend by lia.
  destruct Hend as [[Hc Hr] | [Hc Hb]].
  - simplify_eq. left.
    unfold submit_pipeline_production.in_time in Hc. apply Nat.ltb_ge in Hc. exact Hc.
  - destruct (production_body_exits _ _ _ _ Hb)
      as [[b [Ha Hr]] | [[Ha Hr] | [e [Ha [Hk Hr]]]]].
    + simplify_eq.
      destruct (production_attempt_verdict _ _ _ _ Ha) as [status [manifest [Hp [Hm Hi]]]].
      exists status, manifest. split; [exact Hp|]. split; [exact Hm|].
      destruct (production_inspect_verdict _ _ _ _ Hi) as [b' [Hb' Hmean]].
      simplify_eq. exact Hmean.
    + simplify_eq. right. exact Ha.
    + destruct Hr as [[_ [_ Hr]] | [_ Hr]]; discriminate.
Qed.

End ExitCodes.

(** C5 (as amended).  In monitor_production_pipeline.py and in
    submit_pipeline_production.py (when it monitors), the exit code follows
    the result of the monitoring function: 0 when it returned [True], which
    it does only after a poll that showed the status Succeeded; 1 when it
    returned [False], which it does after a poll that showed a failed node
    or the status Failed or Error (and, in monitor_production_pipeline.py,
    after a poll that gave no status at all); 2 when it returned [None],
    which it does when the 24 hours are over or the user interrupted a
    pass. *)
Theorem exit_code_follows_monitoring `{Py.Runtime} (fuel : nat) (r : option bool) :
  (forall world start_time,
      monitor_production_pipeline.monitor_pipeline fuel world start_time = Some (Py.Ok r) ->
      monitor_production_pipeline.main fuel world start_time
      = Some (World.Exit (match r with Some true => 0 | Some false => 1 | None => 2 end))
      /\ Reading.monitor_meaning world start_time r)
  /\ (forall a env dspa_host token run_id,
      World.outcome (submit_pipeline_production.submit a env)
      = Py.Ok (dspa_host, token, run_id) ->
      submit_pipeline_production.no_monitor a = false ->
      submit_pipeline_production.monitor_pipeline_run fuel
        (submit_pipeline_production.world env) (submit_pipeline_production.start_time env)
        dspa_host token run_id (submit_pipeline_production.namespace a) = Some (Py.Ok r) ->
      submit_pipeline_production.main fuel a env
      = Some (World.Exit (match r with Some true => 0 | Some false => 1 | None => 2 end))
      /\ Reading.production_meaning (submit_pipeline_production.world env)
           (submit_pipeline_production.start_time env)
           (v1beta1.run_url dspa_host run_id) r).
Proof.
  split.
  - intros world start_time Hrun. split.
    + unfold monitor_production_pipeline.main. rewrite Hrun.
      destruct r as [[]|]; reflexivity.
    + eapply monitor_result_meaning. exact Hrun.
  - intros a env dspa_host token run_id Hs Hm Hrun. split.
    + unfold submit_pipeline_production.main. rewrite Hs, Hm. cbn [negb].
      rewrite Hrun. destruct r as [[]|]; reflexivity.
    + eapply production_result_meaning. exact Hrun.
Qed.

(** The theorem at work: the workflow has succeeded when
    monitor_production_pipeline.py first looks; the script exits with 0. *)
Lemma exit_code_follows_monitoring_witness :
  monitor_production_pipeline.main (H:=Sample.runtime) 1
    (Sample.kubectl_world "Succeeded" 0) 0
  = Some (World.Exit 0).
Proof.
  apply (proj1 (exit_code_follows_monitoring (H:=Sample.runtime) 1 (Some true))
               (Sample.kubectl_world "Succeeded" 0) 0%nat).
  reflexivity.
Defined.

(** C5 as stated fails for the other two scripts that monitor: when the
    run has failed, [monitor_pipeline] of submit_pipeline_complete.py
    returns [False] and [monitor_pipeline_run] of
    submit_pipeline_nfs_storage.py reports the failure, and both scripts
    exit with 0. *)
Lemma monitoring_scripts_exit_0_on_failure :
  submit_pipeline_complete.monitor_pipeline (H:=Sample.runtime) 1 Sample.workflow_found
    (Sample.popen_world "Failed" 0) 0 Sample.ns Sample.run_id
  = Some (Py.Ok false)
  /\ submit_pipeline_complete.main_after_submit (H:=Sample.runtime) 1 true true
       Sample.run_id Sample.workflow_found (Sample.popen_world "Failed" 0) 0 Sample.ns
     = Some (World.Exit 0)
  /\ submit_pipeline_nfs_storage.main (H:=Sample.runtime) 1
       Sample.nfs_args (Sample.nfs_environment "Failed")
     = Some (World.Exit 0).
Proof. repeat split; vm_compute; reflexivity. Qed.

(* ===================================================================== *)
(** ** C9: [analyze_workflow_progress] *)
(* ===================================================================== *)

Section Analyze.
Import Py World monitor_production_pipeline Reading.

Lemma place_placed (name : string) (phase : pyval) (b : buckets) :
  (placed (place name phase b) <= placed b + 1)%nat.
Proof.
  unfold place, placed.
  repeat case_match; cbn [b_completed b_running b_failed b_pending];
    rewrite ?length_app; simpl; lia.
Qed.

Lemma classify_placed (nodes : list (string * pyval)) (b b' : buckets) :
  classify nodes b = Ok b' -> (placed b' <= placed b + length nodes)%nat.
Proof.
  revert b. induction nodes as [|[name node] rest IH]; intros b; simpl.
  - intros [= <-]. lia.
  - unfold_bind. destruct (py_get node "phase" (PStr "Unknown")) as [phase|]; [|discriminate].
    intros Hc. apply IH in Hc. pose proof (place_placed name phase b). lia.
Qed.

(** The summary is [None] exactly for a falsy input; in a summary the four
    counts add up to at most [total_nodes], and the percentage is 0 when
    there are no nodes. *)
Lemma analyze_workflow_progress_summary (workflow_data : pyval) :
  (analyze_workflow_progress workflow_data = Ok None <-> truthy workflow_data = false)
  /\ (forall i, analyze_workflow_progress workflow_data = Ok (Some i) ->
        (completed_nodes i + running_nodes i + failed_nodes i + pending_nodes i
         <= total_nodes i)%nat
        /\ (total_nodes i = 0%nat -> progress_pct i = 0)).
Proof.
  unfold analyze_workflow_progress. unfold_bind.
  destruct (truthy workflow_data) eqn:Ht; cbn [negb].
  - split.
    + split; [|discriminate]. intros Hr. repeat case_match; simplify_eq.
    + intros i Hr.
      destruct (py_get workflow_data "status" (PDict [])) as [status|]; [|discriminate].
      destruct (py_get status "phase" (PStr "Unknown")); [|discriminate].
      destruct (py_get workflow_data "metadata" (PDict [])) as [metadata|]; [|discriminate].
      destruct (py_get metadata "creationTimestamp" PNone); [|discriminate].
      destruct (py_get status "finishedAt" PNone); [|discriminate].
      destruct (py_get status "nodes" (PDict [])) as [nodes|]; [|discriminate].
      destruct nodes as [| | | | | |d]; try discriminate.
      cbn [len items] in Hr.
      destruct (classify d no_buckets) as [b|] eqn:Hc; [|discriminate].
      destruct (percent (length (b_completed b)) (length d)) as [pct|] eqn:Hp;
        [|discriminate].
      simplify_eq. cbn [completed_nodes running_nodes failed_nodes pending_nodes
                        total_nodes progress_pct].
      split.
      * apply classify_placed in Hc. unfold placed in Hc. simpl in Hc. lia.
      * intros Hz. unfold percent in Hp. rewrite Hz in Hp. simpl in Hp. congruence.
  - split; [split; reflexivity|]. intros i. discriminate.
Qed.

End Analyze.

(** C9 at the failing input: a workflow with 50 nodes of which 29 have
    succeeded.  [analyze_workflow_progress] reports 57 percent, since
    29/50 is rounded to the double 0.57999999999999996 before it is
    multiplied by 100 and truncated; the floor of 100 * 29 / 50 is 58. *)
Theorem progress_pct_of_29_in_50 :
  exists i,
    monitor_production_pipeline.analyze_workflow_progress (Sample.workflow "Running" 29 50)
    = Py.Ok (Some i)
    /\ monitor_production_pipeline.total_nodes i = 50%nat
    /\ monitor_production_pipeline.completed_nodes i = 29%nat
    /\ monitor_production_pipeline.progress_pct i = 57
    /\ 100 * 29 / 50 = 58.
Proof.
  eexists. split; [vm_compute; reflexivity|]. repeat split.
Qed.

(* ===================================================================== *)
(** ** C10: [get_pipeline_info] of the v1beta1 scripts *)
(* ===================================================================== *)

Section IoFacts.
Import Py World.

Lemma outcome_bind {A B : Type} (m : io A) (k : A -> io B) :
  outcome (m ≫= k) = match outcome m with
                      | Ok a => outcome (k a)
                      | Raise e => Raise e
                      end.
Proof. unfold mbind, io_bind. destruct (outcome m); reflexivity. Qed.

Lemma trace_bind {A B : Type} (m : io A) (k : A -> io B) :
  trace (m ≫= k) = (trace m ++ match outcome m with
                                | Ok a => trace (k a)
                                | Raise e => []
                                end)%list.
Proof.
  unfold mbind, io_bind. destruct (outcome m); simpl; [reflexivity|].
  rewrite app_nil_r. reflexivity.
Qed.

Lemma outcome_try {A : Type} (m : io A) (handles : exn -> bool) (h : exn -> io A) :
  outcome (try_except m handles h)
  = match outcome m with
    | Ok a => Ok a
    | Raise e => if handles e then outcome (h e) else Raise e
    end.
Proof.
  unfold try_except. destruct (outcome m) as [a|e] eqn:Hm; [exact Hm|].
  destruct (handles e); [reflexivity|exact Hm].
Qed.

Lemma trace_try {A : Type} (m : io A) (handles : exn -> bool) (h : exn -> io A) :
  trace (try_except m handles h)
  = (trace m ++ match outcome m with
                | Ok a => []
                | Raise e => if handles e then trace (h e) else []
                end)%list.
Proof.
  unfold try_except. destruct (outcome m) as [a|e] eqn:Hm;
    [rewrite app_nil_r; reflexivity|].
  destruct (handles e); [reflexivity|rewrite app_nil_r; reflexivity].
Qed.

End IoFacts.

Section PipelineInfo.
Import Py World v1beta1 Reading.
Context `{Runtime}.
Variable bad good : string.

Lemma look_for_instructlab_none (pipelines : list pyval) :
  Forall other_pipeline pipelines ->
  outcome (look_for_instructlab good pipelines) = Ok None.
Proof.
  induction 1 as [|p rest [d [name [-> [Hd Hn]]]] _ IH]; [reflexivity|].
  cbn [look_for_instructlab]. rewrite outcome_bind. cbn [lift outcome py_get].
  rewrite Hd. rewrite outcome_bind. cbn [lift outcome py_lower].
  rewrite Hn. exact IH.
Qed.

(** When no pipeline is the InstructLab one and the first pipeline has an
    [id], [get_pipeline_info] returns that [id]. *)
Lemma get_pipeline_info_falls_back (get : string -> http_outcome)
    (dspa_host token namespace text : string) (code : Z)
    (d : list (string * pyval)) (first : pyval) (rest : list pyval) (id : pyval) :
  get (pipelines_url dspa_host) = Response code text ->
  (400 <=? code) && (code <? 600) = false ->
  json_loads text = Some (PDict d) ->
  dict_lookup "pipelines" d = Some (PList (first :: rest)) ->
  Forall other_pipeline (first :: rest) ->
  subscript first "id" = Ok id ->
  outcome (get_pipeline_info bad good get dspa_host token namespace) = Ok id.
Proof.
  intros Hg Hc Hj Hd Hall Hid.
  inversion Hall as [|? ? [d1 [name [-> [Hd1 _]]]] _]. subst.
  cbn [subscript] in Hid.
  unfold get_pipeline_info. rewrite outcome_try.
  repeat (rewrite outcome_bind;
          unfold raise_for_status, response_json;
          cbn [act lift print outcome request fst snd
               contains subscript iterate first_item truthy mret io_ret];
          rewrite ?Hg, ?Hc, ?Hj, ?Hd, ?Hd1, ?Hid, ?(look_for_instructlab_none _ Hall);
          cbn [act lift print outcome request fst snd
               contains subscript iterate first_item truthy mret io_ret]).
  reflexivity.
Qed.

End PipelineInfo.

(** C10 at the failing input: the server lists one pipeline, which has an
    [id] and a [name] but no [display_name].  The search finds no
    InstructLab pipeline, and the fall-back to the first pipeline raises
    [KeyError] when it prints the pipeline's [display_name]: the function
    prints the error and returns [None] instead of the [id]. *)
Theorem get_pipeline_info_without_display_name :
  Py.json_loads (Runtime:=Sample.runtime) Sample.listing_text = Some Sample.listing
  /\ World.outcome
       (submit_pipeline_nfs_storage.get_pipeline_info (H:=Sample.runtime)
          (fun _ => World.Response 200 Sample.listing_text) Sample.host "token" Sample.ns)
     = Py.Ok Py.PNone
  /\ World.printed
       (submit_pipeline_nfs_storage.get_pipeline_info (H:=Sample.runtime)
          (fun _ => World.Response 200 Sample.listing_text) Sample.host "token" Sample.ns)
     = ["Error getting pipeline info: 'display_name'"]
  /\ World.outcome
       (submit_pipeline_production.get_pipeline_info (H:=Sample.runtime)
          (fun _ => World.Response 200 Sample.listing_text) Sample.host "token" Sample.ns)
     = Py.Ok Py.PNone.
Proof. repeat split; vm_compute; reflexivity. Qed.

(* ===================================================================== *)
(** ** C6: [get_openshift_token] *)
(* ===================================================================== *)

(** A loop over the characters of a text or over the keys of an object
    cannot have found an entry. *)
Ltac not_a_list Hloop :=
  match type of Hloop with
  | context [Py.chars ?s] => destruct s; cbn in Hloop; discriminate
  | context [map _ ?d] => destruct d as [|[] ?]; cbn in Hloop; discriminate
  end.

Section Token.
Import Py World v2beta1 Kubeconfig.

Lemma py_get_Exception (v : pyval) (k : string) (dflt : pyval) (e : exn) :
  py_get v k dflt = Raise e -> is_Exception e = true.
Proof. destruct v; simpl; intros; simplify_eq; reflexivity. Qed.

Lemma subscript_Exception (v : pyval) (k : string) (e : exn) :
  subscript v k = Raise e -> is_Exception e = true.
Proof. destruct v; simpl; intros; repeat case_match; simplify_eq; reflexivity. Qed.

Lemma iterate_Exception (v : pyval) (e : exn) :
  iterate v = Raise e -> is_Exception e = true.
Proof. destruct v; simpl; intros; simplify_eq; reflexivity. Qed.

Lemma contains_Exception (k : string) (v : pyval) (e : exn) :
  contains k v = Raise e -> is_Exception e = true.
Proof. destruct v; simpl; intros; simplify_eq; reflexivity. Qed.

Lemma subscript_field (v : pyval) (k : string) (x : pyval) :
  subscript v k = Ok x <-> field v k = Some x.
Proof.
  destruct v; simpl; try (split; discriminate).
  destruct (dict_lookup k d); split; intros; simplify_eq; reflexivity.
Qed.

Lemma find_context_Exception (l : list pyval) (cc : pyval) (e : exn) :
  find_context l cc = Raise e -> is_Exception e = true.
Proof.
  induction l as [|c l IH]; simpl; [discriminate|]. unfold_bind.
  destruct (subscript c "name") eqn:H1; [|intros; simplify_eq; eauto using subscript_Exception].
  destruct (py_eq a cc); [|exact IH].
  destruct (subscript c "context") eqn:H2;
    [|intros; simplify_eq; eauto using subscript_Exception].
  destruct (subscript a0 "user") eqn:H3;
    [discriminate|intros; simplify_eq; eauto using subscript_Exception].
Qed.

Lemma find_token_Exception (l : list pyval) (u : pyval) (e : exn) :
  find_token l u = Raise e -> is_Exception e = true.
Proof.
  induction l as [|c l IH]; simpl; [discriminate|]. unfold_bind.
  destruct (subscript c "name") eqn:H1; [|intros; simplify_eq; eauto using subscript_Exception].
  destruct (py_eq a u); [|exact IH].
  destruct (subscript c "user") eqn:H2;
    [|intros; simplify_eq; eauto using subscript_Exception].
  destruct (contains "token" a0) as [[]|] eqn:H3;
    [| exact IH | intros; simplify_eq; eauto using contains_Exception].
  destruct (subscript a0 "token") eqn:H4;
    [discriminate|intros; simplify_eq; eauto using subscript_Exception].
Qed.

(** What the two loops find is what [List.find] finds. *)
Lemma find_context_found (l : list pyval) (cc u : pyval) :
  find_context l cc = Ok (Some u) ->
  exists c, List.find (named cc) l = Some c /\ user_of c = Some u.
Proof.
  induction l as [|c l IH]; simpl; [discriminate|]. unfold_bind.
  destruct (subscript c "name") as [n|] eqn:H1; [|discriminate].
  apply subscript_field in H1. unfold named at 1. rewrite H1.
  destruct (py_eq n cc); [|exact IH].
  destruct (subscript c "context") as [inner|] eqn:H2; [|discriminate].
  destruct (subscript inner "user") as [u'|] eqn:H3; [|discriminate].
  intros [= <-]. exists c. split; [reflexivity|].
  apply subscript_field in H2, H3. unfold user_of. rewrite H2. exact H3.
Qed.

Lemma find_context_none (l : list pyval) (cc : pyval) :
  find_context l cc = Ok None -> List.find (named cc) l = None.
Proof.
  induction l as [|c l IH]; simpl; [reflexivity|]. unfold_bind.
  destruct (subscript c "name") as [n|] eqn:H1; [|discriminate].
  apply subscript_field in H1. unfold named at 1. rewrite H1.
  destruct (py_eq n cc); [|exact IH].
  destruct (subscript c "context") as [inner|]; [|discriminate].
  destruct (subscript inner "user"); discriminate.
Qed.

Lemma find_token_found (l : list pyval) (u t : pyval) :
  find_token l u = Ok (Some t) ->
  exists c, List.find (fun e => named u e && has_token e) l = Some c /\
            token_of c = Some t.
Proof.
  induction l as [|c l IH]; simpl; [discriminate|]. unfold_bind.
  destruct (subscript c "name") as [n|] eqn:H1; [|discriminate].
  apply subscript_field in H1. unfold named at 1. rewrite H1.
  destruct (py_eq n u); [|exact IH]. cbn [andb].
  destruct (subscript c "user") as [inner|] eqn:H2; [|discriminate].
  apply subscript_field in H2. unfold has_token at 1, token_of at 1. rewrite H2.
  destruct (contains "token" inner) as [[]|] eqn:H3; [| |discriminate].
  - destruct (subscript inner "token") as [t'|] eqn:H4; [|discriminate].
    intros [= <-]. apply subscript_field in H4. rewrite H4.
    exists c. split; [reflexivity|]. unfold token_of. rewrite H2. exact H4.
  - assert (field inner "token" = None) as ->; [|exact IH].
    destruct inner; try reflexivity. simpl in *.
    destruct (dict_lookup "token" d); [discriminate|reflexivity].
Qed.

Lemma find_token_none (l : list pyval) (u : pyval) :
  find_token l u = Ok None ->
  List.find (fun e => named u e && has_token e) l = None.
Proof.
  induction l as [|c l IH]; simpl; [reflexivity|]. unfold_bind.
  destruct (subscript c "name") as [n|] eqn:H1; [|discriminate].
  apply subscript_field in H1. unfold named at 1. rewrite H1.
  destruct (py_eq n u); [|exact IH]. cbn [andb].
  destruct (subscript c "user") as [inner|] eqn:H2; [|discriminate].
  apply subscript_field in H2. unfold has_token at 1, token_of at 1. rewrite H2.
  destruct (contains "token" inner) as [[]|] eqn:H3; [| |discriminate].
  - destruct (subscript inner "token"); discriminate.
  - assert (field inner "token" = None) as ->; [|exact IH].
    destruct inner; try reflexivity. simpl in *.
    destruct (dict_lookup "token" d); [discriminate|reflexivity].
Qed.

(** On entries of the right shape the loops do not raise before they find
    their entry. *)
Lemma find_context_shaped (l : list pyval) (cc : pyval) :
  forallb (entry_shape "context") l = true ->
  find_context l cc
  = match List.find (named cc) l with
    | Some c => match user_of c with
                | Some u => Ok (Some u)
                | None => Raise (KeyError "user")
                end
    | None => Ok None
    end.
Proof.
  induction l as [|c l IH]; simpl; [reflexivity|].
  intros Hs. apply andb_true_iff in Hs as [Hc Hl]. unfold_bind.
  unfold entry_shape in Hc.
  destruct (field c "name") as [n|] eqn:H1; [|discriminate].
  destruct (field c "context") as [[]|] eqn:H2; try discriminate.
  apply subscript_field in H1 as H1'. apply subscript_field in H2 as H2'.
  rewrite H1'. unfold named at 1. rewrite H1.
  destruct (py_eq n cc); [|exact (IH Hl)].
  rewrite H2'. unfold user_of. rewrite H2. simpl.
  destruct (dict_lookup "user" d); reflexivity.
Qed.

Lemma find_token_shaped (l : list pyval) (u : pyval) :
  forallb (entry_shape "user") l = true ->
  find_token l u
  = Ok (match List.find (fun e => named u e && has_token e) l with
        | Some c => token_of c
        | None => None
        end).
Proof.
  induction l as [|c l IH]; simpl; [reflexivity|].
  intros Hs. apply andb_true_iff in Hs as [Hc Hl]. unfold_bind.
  unfold entry_shape in Hc.
  destruct (field c "name") as [n|] eqn:H1; [|discriminate].
  destruct (field c "user") as [[]|] eqn:H2; try discriminate.
  apply subscript_field in H1 as H1'. apply subscript_field in H2 as H2'.
  rewrite H1'. unfold named at 1. rewrite H1.
  destruct (py_eq n u); [|exact (IH Hl)]. cbn [andb].
  rewrite H2'. unfold has_token at 1. unfold token_of. rewrite H2. simpl.
  destruct (dict_lookup "token" d) as [t|] eqn:Hd; [|exact (IH Hl)].
  rewrite H2. simpl. rewrite Hd. reflexivity.
Qed.

Context `{Runtime}.

Lemma get_openshift_token_unreadable (e : exn) :
  is_Exception e = true ->
  outcome (get_openshift_token (Raise e)) = Ok PNone.
Proof.
  intros He. unfold get_openshift_token. rewrite outcome_try, outcome_bind.
  cbn [lift outcome]. rewrite He. reflexivity.
Qed.

(** Whatever the file holds, the function returns, and what it returns is
    [None] or the referenced token. *)
Lemma get_openshift_token_sound (config : pyval) :
  exists t, outcome (get_openshift_token (Ok config)) = Ok t /\
            (t = PNone \/ referenced_token config = Some t).
Proof.
  unfold get_openshift_token. rewrite outcome_try, outcome_bind. cbn [lift outcome].
  rewrite outcome_bind. cbn [lift outcome].
  destruct (py_get config "current-context" PNone) as [cc|e] eqn:Hcc;
    [|rewrite (py_get_Exception _ _ _ _ Hcc); simpl; eauto].
  destruct (truthy cc) eqn:Ht; cbn [negb]; [|simpl; eauto].
  rewrite outcome_bind. cbn [lift outcome].
  destruct (py_get config "contexts" (PList [])) as [contexts|e] eqn:Hcs;
    [|rewrite (py_get_Exception _ _ _ _ Hcs); simpl; eauto].
  rewrite outcome_bind. cbn [lift outcome].
  destruct (iterate contexts) as [each|e] eqn:Hit;
    [|rewrite (iterate_Exception _ _ Hit); simpl; eauto].
  rewrite outcome_bind. cbn [lift outcome].
  destruct (find_context each cc) as [[u|]|e] eqn:Hfc;
    [| simpl; eauto | rewrite (find_context_Exception _ _ _ Hfc); simpl; eauto].
  rewrite outcome_bind. cbn [lift outcome].
  destruct (py_get config "users" (PList [])) as [users|e] eqn:Hus;
    [|rewrite (py_get_Exception _ _ _ _ Hus); simpl; eauto].
  rewrite outcome_bind. cbn [lift outcome].
  destruct (iterate users) as [each_user|e] eqn:Hiu;
    [|rewrite (iterate_Exception _ _ Hiu); simpl; eauto].
  rewrite outcome_bind. cbn [lift outcome].
  destruct (find_token each_user u) as [[t|]|e] eqn:Hft;
    [| simpl; eauto | rewrite (find_token_Exception _ _ _ Hft); simpl; eauto].
  exists t. split; [reflexivity|]. right.
  destruct config as [| | | | | |d]; try discriminate.
  cbn [py_get] in Hcc, Hcs, Hus.
  unfold referenced_token. cbn [field].
  destruct (dict_lookup "current-context" d) as [cc'|] eqn:Hd1;
    [|simplify_eq; discriminate].
  simplify_eq. rewrite Ht.
  assert (entries (PDict d) "contexts" = each) as ->.
  { unfold entries. cbn [field].
    destruct (dict_lookup "contexts" d) as [[]|]; cbn in Hit; simplify_eq;
      try reflexivity; not_a_list Hfc. }
  destruct (find_context_found _ _ _ Hfc) as [c [Hc Hu]]. rewrite Hc, Hu.
  assert (entries (PDict d) "users" = each_user) as ->.
  { unfold entries. cbn [field].
    destruct (dict_lookup "users" d) as [[]|]; cbn in Hiu; simplify_eq;
      try reflexivity; not_a_list Hft. }
  destruct (find_token_found _ _ _ Hft) as [c1 [Hc1 Ht1]]. rewrite Hc1. exact Ht1.
Qed.

End Token.

Section TokenShaped.
Import Py World v2beta1 Kubeconfig.
Context `{Runtime}.

Lemma shaped_entries (inner : string) (d : list (string * pyval)) (key : string) :
  list_shape inner (PDict d) key = true ->
  iterate (match dict_lookup key d with Some x => x | None => PList [] end)
  = Ok (entries (PDict d) key)
  /\ forallb (entry_shape inner) (entries (PDict d) key) = true.
Proof.
  unfold list_shape, entries. cbn [field].
  destruct (dict_lookup key d) as [[]|]; try discriminate; simpl; auto.
Qed.

Lemma get_openshift_token_shaped (config : pyval) :
  kubeconfig_shape config = true ->
  outcome (get_openshift_token (Ok config)) = Ok (default PNone (referenced_token config)).
Proof.
  destruct config as [| | | | | |d]; try discriminate.
  cbn [kubeconfig_shape]. intros Hs. apply andb_true_iff in Hs as [Hc Hu].
  destruct (shaped_entries _ _ _ Hc) as [Hci Hcs].
  destruct (shaped_entries _ _ _ Hu) as [Hui Hus].
  unfold get_openshift_token, referenced_token. cbn [field].
  rewrite outcome_try, outcome_bind. cbn [lift outcome].
  rewrite outcome_bind. cbn [lift outcome py_get].
  destruct (dict_lookup "current-context" d) as [cc|]; [|reflexivity].
  destruct (truthy cc); cbn [negb]; [|reflexivity].
  rewrite outcome_bind. cbn [lift outcome].
  rewrite outcome_bind. cbn [lift outcome]. rewrite Hci.
  rewrite outcome_bind. cbn [lift outcome].
  rewrite (find_context_shaped _ cc Hcs).
  destruct (List.find (named cc) (entries (PDict d) "contexts")) as [c|]; [|reflexivity].
  destruct (user_of c) as [u|]; [|reflexivity].
  rewrite outcome_bind. cbn [lift outcome].
  rewrite outcome_bind. cbn [lift outcome]. rewrite Hui.
  rewrite outcome_bind. cbn [lift outcome].
  rewrite (find_token_shaped _ u Hus).
  destruct (List.find _ (entries (PDict d) "users")) as [c1|]; reflexivity.
Qed.

End TokenShaped.

Section TokenClaimed.
Import Py World v2beta1 Kubeconfig.

(** When at most one user entry has the name, the first entry of that name
    that carries a token is the entry of that name, if it carries one. *)
Lemma find_one_user (users : list pyval) (user_name : pyval) :
  (length (List.filter (named user_name) users) <=? 1)%nat = true ->
  match List.find (fun e => named user_name e && has_token e) users with
  | Some user_entry => token_of user_entry
  | None => None
  end
  = match List.find (named user_name) users with
    | Some user_entry => token_of user_entry
    | None => None
    end.
Proof.
  induction users as [|e users IH]; [reflexivity|].
  cbn [List.filter List.find]. destruct (named user_name e) eqn:Hn; cbn [andb].
  - cbn [length]. intros Hone. apply Nat.leb_le in Hone.
    destruct (has_token e) eqn:Ht; [reflexivity|].
    assert (List.filter (named user_name) users = []) as Hnone
      by (destruct (List.filter (named user_name) users); [reflexivity|simpl in Hone; lia]).
    assert (List.find (fun e0 => named user_name e0 && has_token e0) users = None) as ->.
    { destruct (List.find _ users) as [x|] eqn:Hf; [|reflexivity].
      apply List.find_some in Hf as [Hin Hp]. apply andb_true_iff in Hp as [Hp _].
      assert (In x (List.filter (named user_name) users)) as Hx
        by (apply List.filter_In; split; [exact Hin|exact Hp]).
      rewrite Hnone in Hx. destruct Hx. }
    unfold has_token in Ht. destruct (token_of e); [discriminate|reflexivity].
  - exact IH.
Qed.

Lemma referenced_is_claimed (config : pyval) :
  one_referenced_user config = true -> referenced_token config = claimed_token config.
Proof.
  unfold one_referenced_user, referenced_token, claimed_token, referenced_user.
  destruct (field config "current-context") as [cc|]; [|reflexivity].
  destruct (truthy cc); [|reflexivity].
  destruct (List.find (named cc) (entries config "contexts")) as [c|]; [|reflexivity].
  destruct (user_of c) as [u|]; [|reflexivity].
  apply find_one_user.
Qed.

(** A context entry without a [name], met before the entry of the current
    context, ends the search with an exception. *)
Lemma find_context_nameless (before : list pyval) (entry : pyval) (rest : list pyval)
    (cc : pyval) :
  Forall (fun e => entry_shape "context" e = true /\ named cc e = false) before ->
  field entry "name" = None ->
  exists e, find_context (before ++ entry :: rest) cc = Raise e /\ is_Exception e = true.
Proof.
  intros Hb He.
  induction Hb as [|c before [Hs Hn] _ IH]; cbn [app find_context]; unfold_bind.
  - destruct (subscript entry "name") as [n|e] eqn:Hsub.
    + apply subscript_field in Hsub. congruence.
    + exists e. split; [reflexivity|]. eapply subscript_Exception. exact Hsub.
  - unfold entry_shape in Hs.
    destruct (field c "name") as [n|] eqn:H1; [|discriminate].
    apply subscript_field in H1 as H1'. rewrite H1'.
    unfold named in Hn. rewrite H1 in Hn. rewrite Hn. exact IH.
Qed.

Context `{Runtime}.

Lemma get_openshift_token_nameless (d : list (string * pyval)) (cc : pyval)
    (before : list pyval) (entry : pyval) (rest : list pyval) :
  dict_lookup "current-context" d = Some cc ->
  truthy cc = true ->
  dict_lookup "contexts" d = Some (PList (before ++ entry :: rest)) ->
  Forall (fun e => entry_shape "context" e = true /\ named cc e = false) before ->
  field entry "name" = None ->
  outcome (get_openshift_token (Ok (PDict d))) = Ok PNone.
Proof.
  intros Hcc Ht Hcs Hb He.
  destruct (find_context_nameless before entry rest cc Hb He) as [e [Hf Hex]].
  unfold get_openshift_token. rewrite outcome_try.
  repeat (rewrite outcome_bind; cbn [lift outcome py_get iterate];
          rewrite ?Hcc, ?Ht, ?Hcs, ?Hf; cbn [negb]).
  rewrite Hex. reflexivity.
Qed.

End TokenClaimed.

(** C6 (as amended).  On a kubeconfig of the usual shape (an object whose
    [contexts] and [users], when present, are lists of objects with a
    [name] and an inner object), [get_openshift_token] returns the [token]
    of the first user entry that has the name the current context refers
    to and carries a token; when at most one user entry has that name,
    this is the [token] field of the referenced user entry, as the claim
    words it.  It returns [None] when reading or parsing the file raises,
    when there is no current context, when no context entry has that name,
    and when no user entry of the referenced name carries a token.
    Whatever the file holds, it returns, with [None] or that token; and it
    returns [None] whenever its search raises, as it does at a context
    entry without a [name] that is listed before the entry of the current
    context. *)
Theorem get_openshift_token_returns_referenced_token `{Py.Runtime} (config : Py.pyval) :
  Kubeconfig.kubeconfig_shape config = true ->
  World.outcome (v2beta1.get_openshift_token (Py.Ok config))
  = Py.Ok (default Py.PNone (Kubeconfig.referenced_token config))
  /\ (Kubeconfig.one_referenced_user config = true ->
        World.outcome (v2beta1.get_openshift_token (Py.Ok config))
        = Py.Ok (default Py.PNone (Kubeconfig.claimed_token config)))
  /\ (forall e, Py.is_Exception e = true ->
        World.outcome (v2beta1.get_openshift_token (Py.Raise e)) = Py.Ok Py.PNone)
  /\ (forall any : Py.pyval,
        exists t, World.outcome (v2beta1.get_openshift_token (Py.Ok any)) = Py.Ok t /\
                  (t = Py.PNone \/ Kubeconfig.referenced_token any = Some t))
  /\ ((forall cc, Kubeconfig.field config "current-context" = Some cc ->
                  Py.truthy cc = false) ->
        World.outcome (v2beta1.get_openshift_token (Py.Ok config)) = Py.Ok Py.PNone)
  /\ (forall cc, Kubeconfig.field config "current-context" = Some cc ->
        List.find (Kubeconfig.named cc) (Kubeconfig.entries config "contexts") = None ->
        World.outcome (v2beta1.get_openshift_token (Py.Ok config)) = Py.Ok Py.PNone)
  /\ (forall cc context_entry user_name,
        Kubeconfig.field config "current-context" = Some cc ->
        List.find (Kubeconfig.named cc) (Kubeconfig.entries config "contexts")
        = Some context_entry ->
        Kubeconfig.user_of context_entry = Some user_name ->
        Forall (fun e => Kubeconfig.named user_name e = false
                         \/ Kubeconfig.token_of e = None)
               (Kubeconfig.entries config "users") ->
        World.outcome (v2beta1.get_openshift_token (Py.Ok config)) = Py.Ok Py.PNone)
  /\ (forall d cc before entry rest,
        Py.dict_lookup "current-context" d = Some cc ->
        Py.truthy cc = true ->
        Py.dict_lookup "contexts" d = Some (Py.PList (before ++ entry :: rest)) ->
        Forall (fun e => Kubeconfig.entry_shape "context" e = true
                         /\ Kubeconfig.named cc e = false) before ->
        Kubeconfig.field entry "name" = None ->
        World.outcome (v2beta1.get_openshift_token (Py.Ok (Py.PDict d))) = Py.Ok Py.PNone).
Proof.
  intros Hs. pose proof (get_openshift_token_shaped config Hs) as Hr.
  split; [exact Hr|].
  split; [intros Hone; rewrite Hr, (referenced_is_claimed _ Hone); reflexivity|].
  split; [apply get_openshift_token_unreadable|].
  split; [apply get_openshift_token_sound|].
  rewrite Hr. unfold Kubeconfig.referenced_token.
  split; [|split; [|split]].
  - intros Hcc. destruct (Kubeconfig.field config "current-context") as [cc|];
      [|reflexivity].
    rewrite (Hcc cc eq_refl). reflexivity.
  - intros cc Hcc Hf. rewrite Hcc, Hf. destruct (Py.truthy cc); reflexivity.
  - intros cc c u Hcc Hf Hu Hall. rewrite Hcc, Hf, Hu.
    destruct (Py.truthy cc); [|reflexivity].
    destruct (List.find _ (Kubeconfig.entries config "users")) as [c1|] eqn:Hf1;
      [|reflexivity].
    apply List.find_some in Hf1 as [Hin Hp].
    apply andb_true_iff in Hp as [Hn Ht].
    rewrite Forall_forall in Hall. apply list_elem_of_In in Hin.
    destruct (Hall c1 Hin) as [Hx|Hx].
    + congruence.
    + unfold Kubeconfig.has_token in Ht. rewrite Hx in Ht. discriminate.
  - intros d cc before entry rest. apply get_openshift_token_nameless.
Qed.

(** C6 as stated fails, since it speaks of every file content.  In the
    first kubeconfig the context entry listed before the current one has
    no [name]: the user entry that the current context refers to carries
    a token, and the function prints the [KeyError] and returns [None].
    In the second, two user entries have the referenced name and the first
    of them has no [token] field: the function goes on to the second and
    returns its token. *)
Lemma get_openshift_token_not_for_every_kubeconfig :
  Kubeconfig.claimed_token Sample.kubeconfig_nameless = Some (Py.PStr "sha256~alice")
  /\ World.outcome (v2beta1.get_openshift_token (H:=Sample.runtime)
                      (Py.Ok Sample.kubeconfig_nameless))
     = Py.Ok Py.PNone
  /\ World.printed (v2beta1.get_openshift_token (H:=Sample.runtime)
                      (Py.Ok Sample.kubeconfig_nameless))
     = ["Error reading kubeconfig: 'name'"]
  /\ Kubeconfig.claimed_token Sample.kubeconfig_two_alices = None
  /\ World.outcome (v2beta1.get_openshift_token (H:=Sample.runtime)
                      (Py.Ok Sample.kubeconfig_two_alices))
     = Py.Ok (Py.PStr "sha256~second").
Proof. repeat split. Qed.

(* ===================================================================== *)
(** ** Traces *)
(* ===================================================================== *)

Section TraceFacts.
Import Py World Reading.
Variable P : event -> Prop.

Lemma all_ret {A : Type} (a : A) : all_events P (mret a : io A).
Proof. constructor. Qed.

Lemma all_lift {A : Type} (r : result A) : all_events P (lift r).
Proof. constructor. Qed.

Lemma all_raise {A : Type} (e : exn) : all_events P (raise e : io A).
Proof. constructor. Qed.

Lemma all_act {A : Type} (e : event) (r : result A) : P e -> all_events P (act e r).
Proof. intros He. constructor; [exact He|constructor]. Qed.

Lemma all_bind {A B : Type} (m : io A) (k : A -> io B) :
  all_events P m -> (forall a, outcome m = Ok a -> all_events P (k a)) ->
  all_events P (m ≫= k).
Proof.
  unfold all_events. intros Hm Hk. rewrite trace_bind. apply Forall_app. split; [exact Hm|].
  destruct (outcome m) as [a|]; [apply Hk; reflexivity|constructor].
Qed.

Lemma all_try {A : Type} (m : io A) (handles : exn -> bool) (h : exn -> io A) :
  all_events P m -> (forall e, all_events P (h e)) ->
  all_events P (try_except m handles h).
Proof.
  unfold all_events. intros Hm Hh. rewrite trace_try. apply Forall_app. split; [exact Hm|].
  destruct (outcome m) as [a|e]; [constructor|].
  destruct (handles e); [apply Hh|constructor].
Qed.

End TraceFacts.

(** Walks through a computation built from [bind], [try_except] and the
    primitive actions, leaving what must hold of the events. *)
Ltac walk :=
  repeat first
    [ apply all_ret | apply all_lift | apply all_raise
    | apply all_bind; [|intros ? ?] | apply all_try; [|intros ?]
    | apply all_act; simpl
    | progress unfold World.print
    | match goal with
      | |- Reading.all_events _ (match ?x with _ => _ end) => destruct x
      | |- Reading.all_events _ (if ?x then _ else _) => destruct x
      end ].

(* ===================================================================== *)
(** ** C3: the parameters submit_pipeline.py sends *)
(* ===================================================================== *)

Section Parameters.
Import Py World v2beta1 Reading.

Lemma dict_lookup_set (d : list (string * pyval)) (key k : string) (v : pyval) :
  dict_lookup k (dict_set d key v)
  = if String.eqb k key then Some v else dict_lookup k d.
Proof.
  induction d as [|[k' v'] d IH]; simpl.
  - destruct (String.eqb k key); reflexivity.
  - destruct (String.eqb key k') eqn:E1; simpl.
    + apply String.eqb_eq in E1. subst k'.
      destruct (String.eqb k key); reflexivity.
    + rewrite IH. destruct (String.eqb k k') eqn:E2; [|reflexivity].
      apply String.eqb_eq in E2. subst k'.
      destruct (String.eqb k key) eqn:E3; [|reflexivity].
      apply String.eqb_eq in E3. subst. rewrite String.eqb_refl in E1. discriminate.
Qed.

Lemma dict_lookup_update_other (d other : list (string * pyval)) (k : string) :
  Forall (fun kv => String.eqb k (fst kv) = false) other ->
  dict_lookup k (dict_update d other) = dict_lookup k d.
Proof.
  unfold dict_update. revert d.
  induction other as [|[k' v'] other IH]; intros d Hall; simpl; [reflexivity|].
  inversion Hall as [|? ? Hk Hrest]; subst. simpl in Hk.
  rewrite (IH _ Hrest), dict_lookup_set, Hk. reflexivity.
Qed.

Lemma dict_set_keys (d : list (string * pyval)) (key : string) (v : pyval) :
  dict_lookup key d <> None -> map fst (dict_set d key v) = map fst d.
Proof.
  induction d as [|[k' v'] d IH]; simpl; [congruence|].
  destruct (String.eqb key k'); simpl; [reflexivity|].
  intros Hk. rewrite (IH Hk). reflexivity.
Qed.

Context `{Runtime}.

Lemma get_openshift_token_quiet (P : event -> Prop) (kubeconfig : result pyval) :
  (forall line, P (Print line)) ->
  all_events P (get_openshift_token kubeconfig).
Proof. intros HP. unfold get_openshift_token. walk; apply HP. Qed.

Lemma get_dspa_info_events (P : event -> Prop) (popen : string -> result string)
    (namespace : string) :
  P (Command (route_cmd namespace)) ->
  all_events P (get_dspa_info popen namespace).
Proof. intros HP. unfold get_dspa_info. walk. exact HP. Qed.

Lemma look_for_pipeline_events (P : event -> Prop) (get : string -> http_outcome)
    (dspa_url : string) (pipelines : list pyval) :
  (forall url, P (Get url)) ->
  all_events P (look_for_pipeline get dspa_url pipelines).
Proof.
  intros HP. induction pipelines as [|p rest IH]; cbn [look_for_pipeline]; walk;
    first [apply HP | exact IH].
Qed.

Lemma get_pipeline_info_events (P : event -> Prop) (get : string -> http_outcome)
    (dspa_url : string) :
  (forall url, P (Get url)) -> (forall line, P (Print line)) ->
  all_events P (get_pipeline_info get dspa_url).
Proof.
  intros HG HP. unfold get_pipeline_info. walk;
    first [apply HG | apply HP | apply look_for_pipeline_events; exact HG].
Qed.

End Parameters.

Section SubmitPipeline.
Import Py World v2beta1 Reading submit_pipeline.
Context `{Runtime}.

(** The parameters [submit_pipeline] puts in its payload. *)
Lemma submit_pipeline_posts (env : environment) (namespace : string)
    (use_port_forward : bool) (custom : option (list (string * pyval))) :
  all_events
    (posts (fun body =>
       exists pipeline_id version_id,
         body = payload pipeline_id version_id
                  (match custom with
                   | Some (c :: cs) => dict_update default_params (c :: cs)
                   | _ => default_params
                   end)))
    (submit_pipeline env namespace use_port_forward custom).
Proof.
  unfold submit_pipeline.
  apply all_bind; [apply get_openshift_token_quiet; intros; exact I|intros token _].
  destruct (negb (truthy token)); [walk; exact I|].
  apply all_bind; [destruct use_port_forward; walk; exact I|].
  intros [dspa_url|] _; [|walk; exact I].
  apply all_bind; [walk; exact I|intros _ _].
  apply all_bind; [apply get_pipeline_info_events; intros; exact I|intros ids _].
  destruct (negb (truthy ids.1) || negb (truthy ids.2)); [walk; exact I|].
  apply all_bind; [walk|intros short_id _].
  apply all_bind; [walk; exact I|intros _ _].
  apply all_bind; [walk|intros short_version _].
  apply all_bind; [walk; exact I|intros _ _].
  apply all_bind; [walk; exact I|intros _ _].
  unfold post_run. walk; first [exact I | eauto].
Qed.

Lemma custom_params_keys (a : args) (k : string) :
  k <> "sdg_repo_url" -> k <> "sdg_base_model" -> k <> "output_model_name" ->
  Forall (fun kv => String.eqb k (fst kv) = false) (custom_params a).
Proof.
  intros H1 H2 H3.
  apply String.eqb_neq in H1, H2, H3.
  unfold custom_params.
  destruct (given (repo_url a)), (given (base_model a)), (given (output_model_name a));
    simpl; repeat constructor; assumption.
Qed.

Lemma sent_parameters_update (a : args) :
  sent_parameters a = dict_update default_params (custom_params a).
Proof. unfold sent_parameters. destruct (custom_params a); reflexivity. Qed.

End SubmitPipeline.

(** C3.  Every run that submit_pipeline.py posts carries the parameters of
    the table [default_params], with the same keys in the same order; the
    values are those of the table except for [sdg_repo_url],
    [sdg_base_model] and [output_model_name], each of which holds the
    command-line override when one is given. *)
Theorem overrides_replace_only_their_keys `{Py.Runtime}
    (a : submit_pipeline.args) (env : submit_pipeline.environment)
    (url : string) (body : Py.pyval) :
  In (World.Post url body) (World.trace (submit_pipeline.main a env)) ->
  exists parameters,
    Reading.payload_parameters body = Some parameters
    /\ map fst parameters = map fst submit_pipeline.default_params
    /\ (forall key,
          key <> "sdg_repo_url" -> key <> "sdg_base_model" -> key <> "output_model_name" ->
          Py.dict_lookup key parameters = Py.dict_lookup key submit_pipeline.default_params)
    /\ Py.dict_lookup "sdg_repo_url" parameters
       = (if submit_pipeline.given (submit_pipeline.repo_url a)
          then Some (Py.PStr (default "" (submit_pipeline.repo_url a)))
          else Py.dict_lookup "sdg_repo_url" submit_pipeline.default_params)
    /\ Py.dict_lookup "sdg_base_model" parameters
       = (if submit_pipeline.given (submit_pipeline.base_model a)
          then Some (Py.PStr (default "" (submit_pipeline.base_model a)))
          else Py.dict_lookup "sdg_base_model" submit_pipeline.default_params)
    /\ Py.dict_lookup "output_model_name" parameters
       = (if submit_pipeline.given (submit_pipeline.output_model_name a)
          then Some (Py.PStr (default "" (submit_pipeline.output_model_name a)))
          else Py.dict_lookup "output_model_name" submit_pipeline.default_params).
Proof.
  intros Hin.
  assert (exists pipeline_id version_id,
             body = submit_pipeline.payload pipeline_id version_id
                      (Reading.sent_parameters a)) as [pid [vid ->]].
  { unfold submit_pipeline.main in Hin. rewrite trace_bind in Hin.
    apply in_app_or in Hin as [Hin|Hin].
    - pose proof (submit_pipeline_posts env (submit_pipeline.namespace a)
                    (negb (submit_pipeline.route a))
                    (match submit_pipeline.custom_params a with
                     | [] => None
                     | _ => Some (submit_pipeline.custom_params a)
                     end)) as Hall.
      unfold Reading.all_events in Hall. rewrite List.Forall_forall in Hall.
      specialize (Hall _ Hin). cbn [Reading.posts] in Hall.
      destruct Hall as [pid [vid ->]]. exists pid, vid.
      unfold Reading.sent_parameters.
      destruct (submit_pipeline.custom_params a); reflexivity.
    - destruct (World.outcome _) as [[]|]; simpl in Hin; contradiction. }
  exists (Reading.sent_parameters a). split; [reflexivity|].
  rewrite sent_parameters_update.
  split; [|split].
  - unfold submit_pipeline.custom_params.
    destruct (submit_pipeline.given (submit_pipeline.repo_url a)),
             (submit_pipeline.given (submit_pipeline.base_model a)),
             (submit_pipeline.given (submit_pipeline.output_model_name a));
      reflexivity.
  - intros key H1 H2 H3. apply dict_lookup_update_other.
    apply custom_params_keys; assumption.
  - unfold submit_pipeline.custom_params.
    destruct (submit_pipeline.given (submit_pipeline.repo_url a)),
             (submit_pipeline.given (submit_pipeline.base_model a)),
             (submit_pipeline.given (submit_pipeline.output_model_name a));
      repeat split; reflexivity.
Qed.

(** The theorem at work: the repository is overridden on the command
    line, the cluster answers, and the run is posted. *)
Lemma overrides_replace_only_their_keys_witness :
  exists parameters,
    Reading.payload_parameters
      (submit_pipeline.payload (Py.PStr "p-2") (Py.PStr "v-2")
         (Reading.sent_parameters Sample.submit_args)) = Some parameters
    /\ map fst parameters = map fst submit_pipeline.default_params
    /\ (forall key,
          key <> "sdg_repo_url" -> key <> "sdg_base_model" -> key <> "output_model_name" ->
          Py.dict_lookup key parameters = Py.dict_lookup key submit_pipeline.default_params)
    /\ Py.dict_lookup "sdg_repo_url" parameters
       = Some (Py.PStr "https://example.org/taxonomy.git")
    /\ Py.dict_lookup "sdg_base_model" parameters
       = Some (Py.PStr "oci://registry.redhat.io/rhoai/granite-7b-starter")
    /\ Py.dict_lookup "output_model_name" parameters
       = Some (Py.PStr "fine-tuned-granite-7b").
Proof.
  apply (overrides_replace_only_their_keys (H:=Sample.runtime)
           Sample.submit_args Sample.submit_environment
           "https://localhost:8888/apis/v2beta1/runs"
           (submit_pipeline.payload (Py.PStr "p-2") (Py.PStr "v-2")
              (Reading.sent_parameters Sample.submit_args))).
  vm_compute. repeat first [left; reflexivity | right].
Defined.

(** The theorem at work on a kubeconfig with two contexts and two users. *)
Lemma get_openshift_token_witness :
  World.outcome (v2beta1.get_openshift_token (H:=Sample.runtime) (Py.Ok Sample.kubeconfig))
  = Py.Ok (Py.PStr "sha256~alice").
Proof.
  exact (proj1 (get_openshift_token_returns_referenced_token (H:=Sample.runtime)
                  Sample.kubeconfig eq_refl)).
Defined.

(* ===================================================================== *)
(** ** C2: failing commands and requests *)
(* ===================================================================== *)

Section SoftFailures.
Import Py World Reading.
Context `{Runtime}.

Lemma run_kubectl_fails (sh : string -> proc_outcome) (cmd : string)
    (rc : Z) (out err : string) :
  sh cmd = Exited rc out err -> rc <> 0 ->
  outcome (monitor_production_pipeline.run_kubectl sh cmd) = Ok None
  /\ printed (monitor_production_pipeline.run_kubectl sh cmd)
     = ["❌ Error running command: " +:+ cmd; "Error: " +:+ err].
Proof.
  intros Hs Hrc. apply Z.eqb_neq in Hrc.
  unfold monitor_production_pipeline.run_kubectl, printed, try_except.
  cbn. rewrite Hs. cbn. rewrite Hrc. cbn. auto.
Qed.

Lemma run_oc_command_fails (env : fix_granite_image.environment) (cmd : string)
    (rc : Z) (out err : string) :
  fix_granite_image.sh env cmd = Exited rc out err -> rc <> 0 ->
  outcome (fix_granite_image.run_oc_command env cmd) = Ok None
  /\ printed (fix_granite_image.run_oc_command env cmd)
     = ["Command failed: " +:+ cmd; "Error: " +:+ err].
Proof.
  intros Hs Hrc. apply Z.eqb_neq in Hrc.
  unfold fix_granite_image.run_oc_command, printed, try_except.
  cbn. rewrite Hs. cbn. rewrite Hrc. cbn. auto.
Qed.

(** A poll whose [kubectl] fails makes [monitor_pipeline] return [False]. *)
Lemma monitor_gives_up (t : monitor_production_pipeline.tick)
    (st : monitor_production_pipeline.locals) (rc : Z) (out err : string) :
  (forall cmd, monitor_production_pipeline.kubectl t cmd = Exited rc out err) ->
  rc <> 0 ->
  monitor_production_pipeline.body t st = inr (Ok (Some false)).
Proof.
  intros Hs Hrc. apply Z.eqb_neq in Hrc.
  unfold monitor_production_pipeline.body, monitor_production_pipeline.attempt,
    monitor_production_pipeline.get_workflow_status,
    monitor_production_pipeline.run_kubectl, try_except.
  cbn. rewrite Hs. cbn. rewrite Hrc. cbn. reflexivity.
Qed.

Lemma v1_get_pipeline_info_fails (bad good : string) (get : string -> http_outcome)
    (dspa_host token namespace : string) (e : exn) :
  request_error (get (v1beta1.pipelines_url dspa_host)) = Some e ->
  outcome (v1beta1.get_pipeline_info bad good get dspa_host token namespace) = Ok PNone
  /\ printed (v1beta1.get_pipeline_info bad good get dspa_host token namespace)
     = [bad +:+ "Error getting pipeline info: " +:+ str_of_exn e].
Proof.
  unfold request_error, v1beta1.get_pipeline_info, printed, try_except.
  destruct (get (v1beta1.pipelines_url dspa_host)) as [code text|e'] eqn:Hg.
  - destruct ((400 <=? code) && (code <? 600)) eqn:Hc; [|discriminate].
    intros [= <-]. cbn. rewrite ?Hg. cbn.
    unfold raise_for_status. cbn. rewrite Hc. cbn. auto.
  - destruct (is_Exception e') eqn:He; [|discriminate].
    intros [= <-]. cbn. rewrite ?Hg. cbn. rewrite He. cbn. auto.
Qed.

Lemma v1_submit_pipeline_run_refused (bad : string)
    (post : string -> pyval -> http_outcome) (spec : pyval) (dspa_host : string)
    (lines : pyval -> pyval -> list string) (code : Z) (text : string) :
  post (v1beta1.runs_url dspa_host) spec = Response code text ->
  (400 <=? code) && (code <? 600) = true ->
  outcome (v1beta1.submit_pipeline_run bad post spec dspa_host lines) = Ok (PNone, PNone)
  /\ printed (v1beta1.submit_pipeline_run bad post spec dspa_host lines)
     = [bad +:+ "Error submitting pipeline run: " +:+ str_of_exn (HTTPError code);
        "Response: " +:+ text].
Proof.
  intros Hp Hc.
  unfold v1beta1.submit_pipeline_run, printed, try_except.
  cbn. rewrite Hp. cbn. unfold raise_for_status. cbn. rewrite Hc. cbn. auto.
Qed.

Lemma get_openshift_token_logs (e : exn) :
  is_Exception e = true ->
  outcome (v2beta1.get_openshift_token (Raise e)) = Ok PNone
  /\ printed (v2beta1.get_openshift_token (Raise e))
     = ["Error reading kubeconfig: " +:+ str_of_exn e].
Proof.
  intros He. unfold v2beta1.get_openshift_token, printed, try_except.
  cbn. rewrite He. cbn. auto.
Qed.

Lemma post_run_fails (env : submit_pipeline.environment) (namespace : string)
    (use_port_forward : bool) (dspa_url : string) (body : pyval) (e : exn) :
  submit_pipeline.http_post env (dspa_url +:+ "/apis/v2beta1/runs") body = HttpRaise e ->
  is_Exception e = true ->
  outcome (submit_pipeline.post_run env namespace use_port_forward dspa_url body) = Ok false
  /\ printed (submit_pipeline.post_run env namespace use_port_forward dspa_url body)
     = ["❌ Error submitting pipeline: " +:+ str_of_exn e].
Proof.
  intros Hp He. unfold submit_pipeline.post_run, printed, try_except.
  cbn. rewrite Hp. cbn. rewrite He. cbn. auto.
Qed.

Lemma get_bearer_token_exits (bad : string) (oc : list string -> proc_outcome)
    (rc : Z) (out err : string) :
  oc ["oc"; "whoami"; "--show-token"] = Exited rc out err -> rc <> 0 ->
  outcome (v1beta1.get_bearer_token bad oc) = Raise (SystemExit 1)
  /\ printed (v1beta1.get_bearer_token bad oc)
     = [bad +:+ "Error getting token: " +:+ str_of_exn (CalledProcessError rc err)].
Proof.
  intros Hs Hrc. apply Z.eqb_neq in Hrc.
  unfold v1beta1.get_bearer_token, printed, try_except.
  cbn. rewrite Hs. cbn. rewrite Hrc. cbn. auto.
Qed.

Lemma get_dspa_route_exits (bad : string) (oc : list string -> proc_outcome)
    (namespace : string) (rc : Z) (out err : string) :
  oc ["oc"; "get"; "route"; "ds-pipeline-dspa"; "-n"; namespace;
      "-o"; "jsonpath={.spec.host}"] = Exited rc out err ->
  rc <> 0 ->
  outcome (v1beta1.get_dspa_route bad oc namespace) = Raise (SystemExit 1)
  /\ printed (v1beta1.get_dspa_route bad oc namespace)
     = [bad +:+ "Error getting route: " +:+ str_of_exn (CalledProcessError rc err)].
Proof.
  intros Hs Hrc. apply Z.eqb_neq in Hrc.
  unfold v1beta1.get_dspa_route, printed, try_except.
  cbn. rewrite Hs. cbn. rewrite Hrc. cbn. auto.
Qed.

End SoftFailures.

(** C2 (as amended).  A command that exits with an error or a request
    that fails is caught inside the helper that issued it; the helper
    prints a message and hands [None], [False] or [(None, None)] to its
    caller: [run_kubectl], [run_oc_command], [get_pipeline_info] and
    [submit_pipeline_run] (on an error status) of the v1beta1 scripts,
    [get_openshift_token] and the POST of [submit_pipeline]; a failed
    [kubectl] makes [monitor_pipeline] return [False].  The exceptions are
    [get_bearer_token] and [get_dspa_route] of the v1beta1 scripts: their
    handler prints the error and calls [sys.exit(1)], which ends the
    process from inside the helper. *)
Theorem failing_calls `{Py.Runtime} :
  (forall sh cmd rc out err,
      sh cmd = World.Exited rc out err -> rc <> 0 ->
      World.outcome (monitor_production_pipeline.run_kubectl sh cmd) = Py.Ok None
      /\ World.printed (monitor_production_pipeline.run_kubectl sh cmd)
         = ["❌ Error running command: " +:+ cmd; "Error: " +:+ err])
  /\ (forall t st rc out err,
      (forall cmd, monitor_production_pipeline.kubectl t cmd = World.Exited rc out err) ->
      rc <> 0 ->
      monitor_production_pipeline.body t st = inr (Py.Ok (Some false)))
  /\ (forall env cmd rc out err,
      fix_granite_image.sh env cmd = World.Exited rc out err -> rc <> 0 ->
      World.outcome (fix_granite_image.run_oc_command env cmd) = Py.Ok None
      /\ World.printed (fix_granite_image.run_oc_command env cmd)
         = ["Command failed: " +:+ cmd; "Error: " +:+ err])
  /\ (forall bad good get dspa_host token namespace e,
      Reading.request_error (get (v1beta1.pipelines_url dspa_host)) = Some e ->
      World.outcome (v1beta1.get_pipeline_info bad good get dspa_host token namespace)
      = Py.Ok Py.PNone
      /\ World.printed (v1beta1.get_pipeline_info bad good get dspa_host token namespace)
         = [bad +:+ "Error getting pipeline info: " +:+ Py.str_of_exn e])
  /\ (forall bad post spec dspa_host lines code text,
      post (v1beta1.runs_url dspa_host) spec = World.Response code text ->
      (400 <=? code) && (code <? 600) = true ->
      World.outcome (v1beta1.submit_pipeline_run bad post spec dspa_host lines)
      = Py.Ok (Py.PNone, Py.PNone)
      /\ World.printed (v1beta1.submit_pipeline_run bad post spec dspa_host lines)
         = [bad +:+ "Error submitting pipeline run: "
                +:+ Py.str_of_exn (Py.HTTPError code);
            "Response: " +:+ text])
  /\ (forall e,
      Py.is_Exception e = true ->
      World.outcome (v2beta1.get_openshift_token (Py.Raise e)) = Py.Ok Py.PNone
      /\ World.printed (v2beta1.get_openshift_token (Py.Raise e))
         = ["Error reading kubeconfig: " +:+ Py.str_of_exn e])
  /\ (forall env namespace use_port_forward dspa_url body e,
      submit_pipeline.http_post env (dspa_url +:+ "/apis/v2beta1/runs") body
      = World.HttpRaise e ->
      Py.is_Exception e = true ->
      World.outcome (submit_pipeline.post_run env namespace use_port_forward dspa_url body)
      = Py.Ok false
      /\ World.printed (submit_pipeline.post_run env namespace use_port_forward dspa_url body)
         = ["❌ Error submitting pipeline: " +:+ Py.str_of_exn e])
  /\ (forall bad oc rc out err,
      oc ["oc"; "whoami"; "--show-token"] = World.Exited rc out err -> rc <> 0 ->
      World.outcome (v1beta1.get_bearer_token bad oc) = Py.Raise (Py.SystemExit 1)
      /\ World.printed (v1beta1.get_bearer_token bad oc)
         = [bad +:+ "Error getting token: "
                +:+ Py.str_of_exn (Py.CalledProcessError rc err)])
  /\ (forall bad oc namespace rc out err,
      oc ["oc"; "get"; "route"; "ds-pipeline-dspa"; "-n"; namespace;
          "-o"; "jsonpath={.spec.host}"] = World.Exited rc out err ->
      rc <> 0 ->
      World.outcome (v1beta1.get_dspa_route bad oc namespace) = Py.Raise (Py.SystemExit 1)
      /\ World.printed (v1beta1.get_dspa_route bad oc namespace)
         = [bad +:+ "Error getting route: "
                +:+ Py.str_of_exn (Py.CalledProcessError rc err)]).
Proof.
  split; [intros; eapply run_kubectl_fails; eassumption|].
  split; [intros; eapply monitor_gives_up; eassumption|].
  split; [intros; eapply run_oc_command_fails; eassumption|].
  split; [intros; eapply v1_get_pipeline_info_fails; eassumption|].
  split; [intros; eapply v1_submit_pipeline_run_refused; eassumption|].
  split; [intros; eapply get_openshift_token_logs; eassumption|].
  split; [intros; eapply post_run_fails; eassumption|].
  split; [intros; eapply get_bearer_token_exits; eassumption|].
  intros; eapply get_dspa_route_exits; eassumption.
Qed.

(** The theorem at work: [kubectl] exits with status 1. *)
Lemma failing_calls_witness :
  World.outcome (monitor_production_pipeline.run_kubectl Sample.refusing "kubectl get pods")
  = Py.Ok None
  /\ World.printed (monitor_production_pipeline.run_kubectl Sample.refusing "kubectl get pods")
     = ["❌ Error running command: kubectl get pods";
        "Error: error: the server doesn't have a resource type"].
Proof.
  apply (proj1 (failing_calls (H:=Sample.runtime)) Sample.refusing "kubectl get pods"
               1 "" "error: the server doesn't have a resource type");
    [reflexivity | discriminate].
Defined.

(** C2 as stated fails for [get_bearer_token] and [get_dspa_route] of the
    v1beta1 scripts: when [oc] fails they do not return to their caller,
    they end the process with exit code 1. *)
Lemma get_bearer_token_ends_the_process :
  World.outcome (submit_pipeline_nfs_storage.get_bearer_token (H:=Sample.runtime)
                   Sample.not_logged_in)
  = Py.Raise (Py.SystemExit 1)
  /\ World.outcome (submit_pipeline_production.get_dspa_route (H:=Sample.runtime)
                      Sample.not_logged_in Sample.ns)
     = Py.Raise (Py.SystemExit 1)
  /\ World.end_of (World.outcome
                     (submit_pipeline_nfs_storage.get_bearer_token (H:=Sample.runtime)
                        Sample.not_logged_in))
     = World.Exit 1.
Proof. repeat split. Qed.

(* ===================================================================== *)
(** ** C4: what the scripts write to the cluster *)
(* ===================================================================== *)

Section TextFacts.
Import Py Reading.

Lemma prefix_app (needle after : string) :
  String.prefix needle (needle +:+ after) = true.
Proof.
  induction needle as [|c n IH]; simpl; [destruct after; reflexivity|].
  destruct (Ascii.ascii_dec c c) as [_|Hne]; [exact IH|congruence].
Qed.

Lemma append_assoc (a b c : string) : (a +:+ b) +:+ c = a +:+ (b +:+ c).
Proof.
  induction a as [|x a IH]; [reflexivity|].
  change (String x ((a +:+ b) +:+ c) = String x (a +:+ (b +:+ c))).
  rewrite IH. reflexivity.
Qed.

Lemma length_append (a b : string) :
  String.length (a +:+ b) = (String.length a + String.length b)%nat.
Proof.
  induction a as [|x a IH]; [reflexivity|].
  change (S (String.length (a +:+ b)) = S (String.length a + String.length b)).
  rewrite IH. reflexivity.
Qed.

Lemma harmless_app (a b : string) : harmless (a +:+ b) = harmless a && harmless b.
Proof.
  induction a as [|x a IH]; [reflexivity|].
  change (harmless (String x a +:+ b))
    with (negb (shell_operator x) && harmless (a +:+ b)).
  rewrite IH. apply andb_assoc.
Qed.

Lemma drop_suffix_app (base tail : string) : drop_suffix tail (base +:+ tail) = Some base.
Proof.
  induction base as [|x base IH].
  - destruct tail; simpl; [reflexivity|]. rewrite Ascii.eqb_refl, String.eqb_refl.
    reflexivity.
  - change (String x base +:+ tail) with (String x (base +:+ tail)).
    cbn [drop_suffix]. destruct (String.eqb (String x (base +:+ tail)) tail) eqn:He.
    + apply String.eqb_eq in He. apply (f_equal String.length) in He.
      simpl in He. rewrite length_append in He. lia.
    + rewrite IH. reflexivity.
Qed.

Lemma drop_suffix_nil (s : string) : drop_suffix "" s = Some s.
Proof.
  induction s as [|x s IH]; [reflexivity|]. cbn [drop_suffix].
  change (String.eqb (String x s) "") with false. cbn iota. rewrite IH. reflexivity.
Qed.

(** A [get] command followed by one of the tails reads. *)
Lemma reads_tail (command tail : string) :
  In tail read_tails -> get_command command = true -> reads (command +:+ tail) = true.
Proof.
  intros Hin Hc. unfold reads. apply existsb_exists. exists tail.
  split; [exact Hin|]. rewrite drop_suffix_app. exact Hc.
Qed.

Lemma reads_alone (command : string) : get_command command = true -> reads command = true.
Proof.
  intros Hc. unfold reads, read_tails. cbn [existsb]. rewrite drop_suffix_nil, Hc.
  reflexivity.
Qed.

Lemma runs_endpoint_app (url tail : string) :
  In tail [ "/apis/v1beta1/runs"; "/apis/v2beta1/runs" ] ->
  runs_endpoint (url +:+ tail) = true.
Proof.
  intros Hin. unfold runs_endpoint. apply existsb_exists. exists tail.
  split; [exact Hin|]. rewrite drop_suffix_app. reflexivity.
Qed.

End TextFacts.

(** Shows that a text put together from harmless parts is harmless. *)
Ltac harmless_parts :=
  repeat rewrite harmless_app;
  repeat (apply andb_true_intro; split);
  first [assumption | reflexivity].

(** Shows that a line which starts with the words of a [get] command and
    whose parts are harmless is such a command. *)
Ltac get_command_parts :=
  unfold Reading.get_command; apply andb_true_intro; split;
  [ first [ reflexivity
          | apply orb_true_iff; first [left; apply prefix_app | right; apply prefix_app] ]
  | harmless_parts ].

Section Commands.
Import Py World Reading.

Lemma get_workflow_cmd_reads (workflow namespace output : string) :
  harmless workflow = true -> harmless namespace = true -> harmless output = true ->
  reads (fix_granite_image.get_workflow_cmd workflow namespace output) = true.
Proof.
  intros Hw Hn Ho. apply reads_alone. unfold fix_granite_image.get_workflow_cmd.
  get_command_parts.
Qed.

Lemma delete_pod_cmd_deletes (pod namespace : string) :
  harmless pod = true -> harmless namespace = true ->
  deletes_pod (fix_granite_image.delete_pod_cmd pod namespace) = true.
Proof.
  intros Hp Hn. unfold deletes_pod, fix_granite_image.delete_pod_cmd.
  apply andb_true_intro. split; [apply prefix_app|harmless_parts].
Qed.

Lemma route_cmd_reads (namespace : string) :
  harmless namespace = true -> reads (v2beta1.route_cmd namespace) = true.
Proof.
  intros Hn.
  replace (v2beta1.route_cmd namespace)
    with (("oc get route ds-pipeline-dspa -n " +:+ namespace
           +:+ " -o jsonpath='{.spec.host}'") +:+ " 2>/dev/null")
    by (unfold v2beta1.route_cmd; rewrite !append_assoc; reflexivity).
  apply reads_tail; [right; left; reflexivity|]. get_command_parts.
Qed.

Lemma jsonpath_cmd_reads (workflow namespace field : string) :
  harmless workflow = true -> harmless namespace = true -> harmless field = true ->
  reads (submit_pipeline_complete.jsonpath_cmd workflow namespace field) = true.
Proof.
  intros Hw Hn Hf. apply reads_alone. unfold submit_pipeline_complete.jsonpath_cmd.
  get_command_parts.
Qed.

Lemma pytorchjobs_cmd_reads (namespace : string) :
  harmless namespace = true ->
  reads (submit_pipeline_complete.pytorchjobs_cmd namespace) = true.
Proof.
  intros Hn.
  replace (submit_pipeline_complete.pytorchjobs_cmd namespace)
    with (("kubectl get pytorchjobs -n " +:+ namespace +:+ " --no-headers")
          +:+ " 2>/dev/null | wc -l")
    by (unfold submit_pipeline_complete.pytorchjobs_cmd; rewrite !append_assoc;
        reflexivity).
  apply reads_tail; [right; right; left; reflexivity|]. get_command_parts.
Qed.

Lemma latest_cmd_reads (namespace : string) :
  harmless namespace = true ->
  reads (submit_pipeline_storage_fixed.latest_cmd namespace) = true.
Proof.
  intros Hn.
  replace (submit_pipeline_storage_fixed.latest_cmd namespace)
    with (("kubectl get workflows -n " +:+ namespace
           +:+ " --sort-by=.metadata.creationTimestamp --no-headers") +:+ " | tail -1")
    by (unfold submit_pipeline_storage_fixed.latest_cmd; rewrite !append_assoc;
        reflexivity).
  apply reads_tail; [right; right; right; left; reflexivity|]. get_command_parts.
Qed.

Context `{Runtime}.

Lemma find_cmd_reads (namespace : string) (run_id : pyval) :
  harmless namespace = true ->
  (truthy run_id = true -> harmless (str_of run_id) = true) ->
  reads (submit_pipeline_complete.find_cmd namespace run_id) = true.
Proof.
  intros Hn Hr. apply reads_alone. unfold submit_pipeline_complete.find_cmd.
  destruct (truthy run_id); [specialize (Hr eq_refl)|]; get_command_parts.
Qed.

End Commands.

(** Settles what is asked of a single event. *)
Ltac settle :=
  first [ exact I
        | assumption
        | reflexivity
        | left; first [exact I | assumption | reflexivity]
        | right; first [ reflexivity
                       | left; first [assumption | reflexivity]
                       | right; left; reflexivity
                       | right; right; reflexivity ] ].

Section WhileEventsFacts.
Import World.
Context {S R : Type}.
Variable P : event -> Prop.
Variable cond : S -> bool.
Variable body : nat -> S -> S + R.
Variable events : nat -> S -> list event.

(** What holds of the events of every pass holds of the events of the
    loop. *)
Lemma while_events_all :
  (forall k s, Forall P (events k s)) ->
  forall fuel k s, Forall P (while_events cond body events fuel k s).
Proof.
  intros Hpass fuel. induction fuel as [|fuel IH]; intros k s; cbn [while_events];
    [constructor|].
  destruct (cond s); [|constructor].
  apply Forall_app. split; [apply Hpass|].
  destruct (body k s) as [s'|r]; [apply IH|constructor].
Qed.

End WhileEventsFacts.

Section Writes.
Import Py World Reading.

Lemma run_oc_command_events (P : event -> Prop) (env : fix_granite_image.environment)
    (cmd : string) :
  P (Command cmd) -> (forall line, P (Print line)) ->
  all_events P (fix_granite_image.run_oc_command env cmd).
Proof.
  intros Hc Hp. unfold fix_granite_image.run_oc_command. walk; first [exact Hc | apply Hp].
Qed.

Lemma failing_pods_harmless :
  forallb harmless fix_granite_image.failing_pods = true.
Proof. reflexivity. Qed.

Lemma delete_pods_events (env : fix_granite_image.environment) (verb workflow namespace : string) :
  harmless namespace = true ->
  all_events (fix_event workflow namespace) (fix_granite_image.delete_pods env verb namespace).
Proof.
  intros Hn.
  unfold fix_granite_image.delete_pods, fix_granite_image.failing_pods. cbn [foldr].
  walk; first [ settle | right; left; apply delete_pod_cmd_deletes;
                              first [exact Hn | reflexivity] ].
Qed.

Lemma create_replacement_pods_events (env : fix_granite_image.environment)
    (workflow namespace : string) :
  harmless namespace = true ->
  all_events (fix_event workflow namespace)
             (fix_granite_image.create_replacement_pods env namespace).
Proof.
  intros Hn. unfold fix_granite_image.create_replacement_pods.
  apply all_bind; [walk; settle|intros _ _].
  apply all_bind; [apply run_oc_command_events; intros; settle|intros [out|] _].
  - apply all_bind; [walk; settle|intros _ _].
    apply all_bind; [walk; settle|intros _ _].
    apply all_bind; [|intros _ _; walk].
    apply run_oc_command_events; intros; try settle.
    right; left; apply delete_pod_cmd_deletes; first [exact Hn | reflexivity].
  - walk.
Qed.

Lemma fix_main_events (env : fix_granite_image.environment) :
  all_events (fix_event fix_granite_image.workflow_name fix_granite_image.namespace)
             (fix_granite_image.main env).
Proof.
  unfold fix_granite_image.main.
  repeat first
    [ apply delete_pods_events; reflexivity
    | apply create_replacement_pods_events; reflexivity
    | apply run_oc_command_events; intros;
      first [ settle | left; apply get_workflow_cmd_reads; reflexivity ]
    | apply all_bind; [|intros ? _]
    | apply all_act; settle
    | apply all_ret
    | match goal with
      | |- all_events _ (match ?x with _ => _ end) => destruct x
      | |- all_events _ (if ?x then _ else _) => destruct x
      end ].
Qed.

Context `{Runtime}.

Lemma skip_granite_tasks_events (env : fix_granite_image.environment)
    (workflow namespace : string) :
  harmless workflow = true -> harmless namespace = true ->
  all_events (skip_event workflow namespace)
             (fix_granite_image.skip_granite_tasks env workflow namespace).
Proof.
  intros Hw Hn. unfold fix_granite_image.skip_granite_tasks.
  repeat first
    [ apply run_oc_command_events; intros;
      first [ settle | left; apply get_workflow_cmd_reads; first [assumption|reflexivity] ]
    | apply all_bind; [|intros ? _]
    | apply all_try; [|intros ?]
    | apply all_act; settle
    | apply all_ret | apply all_lift
    | match goal with
      | |- all_events _ (match ?x with _ => _ end) => destruct x
      | |- all_events _ (if ?x then _ else _) => destruct x
      end ].
Qed.

End Writes.

Section ReadsAndPosts.
Import Py World Reading.
Context `{Runtime}.

Lemma run_kubectl_events (P : event -> Prop) (sh : string -> proc_outcome) (cmd : string) :
  P (Command cmd) -> (forall line, P (Print line)) ->
  all_events P (monitor_production_pipeline.run_kubectl sh cmd).
Proof.
  intros Hc Hp. unfold monitor_production_pipeline.run_kubectl.
  walk; first [exact Hc | apply Hp].
Qed.

Lemma get_workflow_status_reads (sh : string -> proc_outcome) (workflow : string) :
  harmless workflow = true ->
  all_events is_read (monitor_production_pipeline.get_workflow_status sh workflow).
Proof.
  intros Hw. unfold monitor_production_pipeline.get_workflow_status.
  apply all_bind; [|intros ? _; walk].
  apply run_kubectl_events; intros; [|exact I].
  apply reads_alone. get_command_parts.
Qed.

Lemma get_workflow_pods_reads (sh : string -> proc_outcome) (workflow : string) :
  harmless workflow = true ->
  all_events is_read (monitor_production_pipeline.get_workflow_pods sh workflow).
Proof.
  intros Hw. unfold monitor_production_pipeline.get_workflow_pods.
  apply all_bind; [|intros ? _; walk].
  apply run_kubectl_events; intros; [|exact I].
  apply reads_alone. get_command_parts.
Qed.

(** monitor_production_pipeline.py *)
Lemma monitor_events_read (fuel : nat) (world : nat -> monitor_production_pipeline.tick)
    (start_time : nat) :
  Forall is_read (monitor_production_pipeline.events fuel world start_time).
Proof.
  unfold monitor_production_pipeline.events. apply while_events_all. intros k _.
  apply get_workflow_status_reads. reflexivity.
Qed.

Lemma get_bearer_token_reads (bad : string) (oc : list string -> proc_outcome) :
  all_events is_read (v1beta1.get_bearer_token bad oc).
Proof. unfold v1beta1.get_bearer_token. walk; settle. Qed.

Lemma get_dspa_route_reads (bad : string) (oc : list string -> proc_outcome)
    (namespace : string) :
  all_events is_read (v1beta1.get_dspa_route bad oc namespace).
Proof. unfold v1beta1.get_dspa_route. walk; settle. Qed.

Lemma look_for_instructlab_reads (good : string) (pipelines : list pyval) :
  all_events is_read (v1beta1.look_for_instructlab good pipelines).
Proof.
  induction pipelines as [|p rest IH]; cbn [v1beta1.look_for_instructlab]; walk;
    first [settle | exact IH].
Qed.

Lemma v1_get_pipeline_info_reads (bad good : string) (get : string -> http_outcome)
    (dspa_host token namespace : string) :
  all_events is_read (v1beta1.get_pipeline_info bad good get dspa_host token namespace).
Proof.
  unfold v1beta1.get_pipeline_info. walk;
    first [settle | apply look_for_instructlab_reads].
Qed.

Lemma prints_events (P : event -> Prop) (lines : list string) :
  (forall line, P (Print line)) -> all_events P (IO (map Print lines) (Ok tt)).
Proof.
  intros Hp. unfold all_events. cbn [trace]. apply List.Forall_forall. intros e He.
  apply in_map_iff in He as [line [<- _]]. apply Hp.
Qed.

Lemma v1_submit_pipeline_run_events (bad : string) (post : string -> pyval -> http_outcome)
    (spec : pyval) (dspa_host : string) (lines : pyval -> pyval -> list string) :
  all_events submit_event (v1beta1.submit_pipeline_run bad post spec dspa_host lines).
Proof.
  unfold v1beta1.submit_pipeline_run.
  apply all_try.
  - repeat (apply all_bind; [|intros ? _]); walk; try settle.
    all: try (right; unfold v1beta1.runs_url; rewrite <- append_assoc;
              apply runs_endpoint_app; left; reflexivity).
    all: apply prints_events; intros; left; exact I.
  - intros e. walk; settle.
Qed.

Lemma is_read_submit_event (e : event) : is_read e -> submit_event e.
Proof. intros He. left. exact He. Qed.

Lemma all_events_weaken {A : Type} (P Q : event -> Prop) (m : io A) :
  (forall e, P e -> Q e) -> all_events P m -> all_events Q m.
Proof. intros HPQ. unfold all_events. apply List.Forall_impl. exact HPQ. Qed.

(** submit_pipeline_production.py: the events of [main] up to the
    monitoring. *)
Lemma production_submit_events (a : submit_pipeline_production.args)
    (env : submit_pipeline_production.environment) :
  all_events submit_event (submit_pipeline_production.submit a env).
Proof.
  unfold submit_pipeline_production.submit, submit_pipeline_production.get_bearer_token,
    submit_pipeline_production.get_dspa_route, submit_pipeline_production.get_pipeline_info,
    submit_pipeline_production.submit_pipeline_run.
  apply all_bind;
    [eapply all_events_weaken; [apply is_read_submit_event|apply get_bearer_token_reads]|
     intros token _].
  apply all_bind; [|intros dspa_host _].
  { destruct (submit_pipeline_production.given _); [walk|].
    eapply all_events_weaken; [apply is_read_submit_event|apply get_dspa_route_reads]. }
  apply all_bind;
    [eapply all_events_weaken; [apply is_read_submit_event|apply v1_get_pipeline_info_reads]|
     intros pipeline_id _].
  destruct (negb (truthy pipeline_id)); [walk; settle|].
  apply all_bind; [apply v1_submit_pipeline_run_events|intros run _].
  destruct (negb (truthy run.1)); walk; settle.
Qed.

Lemma production_events (fuel : nat) (a : submit_pipeline_production.args)
    (env : submit_pipeline_production.environment) :
  Forall submit_event (submit_pipeline_production.events fuel a env).
Proof.
  unfold submit_pipeline_production.events. apply Forall_app.
  split; [apply production_submit_events|].
  destruct (outcome (submit_pipeline_production.submit a env)) as [[[host token] run_id]|];
    [|constructor].
  destruct (negb (submit_pipeline_production.no_monitor a)); [|constructor].
  unfold submit_pipeline_production.monitor_events. apply while_events_all.
  intros _ _. repeat constructor.
Qed.

Lemma nfs_submit_events (a : submit_pipeline_nfs_storage.args)
    (env : submit_pipeline_nfs_storage.environment) :
  all_events submit_event (submit_pipeline_nfs_storage.submit a env).
Proof.
  unfold submit_pipeline_nfs_storage.submit, submit_pipeline_nfs_storage.get_bearer_token,
    submit_pipeline_nfs_storage.get_dspa_route, submit_pipeline_nfs_storage.get_pipeline_info,
    submit_pipeline_nfs_storage.submit_pipeline_run.
  apply all_bind;
    [eapply all_events_weaken; [apply is_read_submit_event|apply get_bearer_token_reads]|
     intros token _].
  apply all_bind; [|intros dspa_host _].
  { destruct (submit_pipeline_production.given _); [walk|].
    eapply all_events_weaken; [apply is_read_submit_event|apply get_dspa_route_reads]. }
  apply all_bind;
    [eapply all_events_weaken; [apply is_read_submit_event|apply v1_get_pipeline_info_reads]|
     intros pipeline_id _].
  destruct (negb (truthy pipeline_id)); [walk; settle|].
  apply all_bind; [apply v1_submit_pipeline_run_events|intros run _].
  destruct (negb (truthy run.1)); walk; settle.
Qed.

Lemma nfs_events (fuel : nat) (a : submit_pipeline_nfs_storage.args)
    (env : submit_pipeline_nfs_storage.environment) :
  Forall submit_event (submit_pipeline_nfs_storage.events fuel a env).
Proof.
  unfold submit_pipeline_nfs_storage.events. apply Forall_app.
  split; [apply nfs_submit_events|].
  destruct (outcome (submit_pipeline_nfs_storage.submit a env)) as [[[host token] run_id]|];
    [|constructor].
  destruct (submit_pipeline_nfs_storage.monitor a); [|constructor].
  unfold submit_pipeline_nfs_storage.monitor_events. apply while_events_all.
  intros _ _. repeat constructor.
Qed.

End ReadsAndPosts.

Section Submissions.
Import Py World v2beta1 Reading.
Context `{Runtime}.

Lemma get_dspa_info_reads (P : event -> Prop) (popen : string -> result string)
    (namespace : string) :
  (forall e, is_read e -> P e) ->
  harmless namespace = true ->
  all_events P (get_dspa_info popen namespace).
Proof.
  intros HP Hn. apply get_dspa_info_events. apply HP. apply route_cmd_reads. exact Hn.
Qed.

(** submit_pipeline.py *)
Lemma submit_pipeline_events (env : submit_pipeline.environment) (namespace : string)
    (use_port_forward : bool) (custom : option (list (string * pyval))) :
  (use_port_forward = false -> harmless namespace = true) ->
  all_events submit_event
    (submit_pipeline.submit_pipeline env namespace use_port_forward custom).
Proof.
  intros Hn. unfold submit_pipeline.submit_pipeline.
  apply all_bind; [apply get_openshift_token_quiet; intros; settle|intros token _].
  destruct (negb (truthy token)); [walk; settle|].
  apply all_bind.
  { destruct use_port_forward; [walk; settle|].
    apply all_bind; [walk; settle|intros _ _].
    apply get_dspa_info_reads; [apply is_read_submit_event|apply Hn; reflexivity]. }
  intros [dspa_url|] _; [|walk; settle].
  apply all_bind; [walk; settle|intros _ _].
  apply all_bind; [apply get_pipeline_info_events; intros; settle|intros ids _].
  destruct (negb (truthy ids.1) || negb (truthy ids.2)); [walk; settle|].
  apply all_bind; [walk|intros short_id _].
  apply all_bind; [walk; settle|intros _ _].
  apply all_bind; [walk|intros short_version _].
  apply all_bind; [walk; settle|intros _ _].
  apply all_bind; [walk; settle|intros _ _].
  unfold submit_pipeline.post_run. apply all_try; [|intros e; walk; settle].
  apply all_bind;
    [apply all_act; right; apply runs_endpoint_app; right; left; reflexivity|
     intros response _].
  destruct ((response.1 =? 200) || (response.1 =? 201)); [|walk; settle].
  repeat (apply all_bind; [|intros ? _]); try (walk; settle).
  destruct use_port_forward; [walk|].
  apply all_bind; [|intros [?|] _; walk].
  apply get_dspa_info_reads; [apply is_read_submit_event|apply Hn; reflexivity].
Qed.

Lemma submit_pipeline_main_events (a : submit_pipeline.args)
    (env : submit_pipeline.environment) :
  (submit_pipeline.route a = true -> harmless (submit_pipeline.namespace a) = true) ->
  all_events submit_event (submit_pipeline.main a env).
Proof.
  intros Hn. unfold submit_pipeline.main.
  apply all_bind; [|intros success _; destruct (negb success); walk].
  apply submit_pipeline_events. intros Hr. apply Hn.
  destruct (submit_pipeline.route a); [reflexivity|discriminate].
Qed.

(** [submit_pipeline] of the three other scripts *)
Lemma variants_submit_pipeline_events {R : Type} (failed refused : R) (accepted : pyval -> R)
    (table : list (string * pyval)) (display_name description : string)
    (announce : list string) (submitted : string) (report : string -> list string)
    (env : submit_pipeline.environment) (namespace : string)
    (use_port_forward : bool) (custom : option (list (string * pyval))) :
  (use_port_forward = false -> harmless namespace = true) ->
  all_events submit_event
    (variants.submit_pipeline failed refused accepted table display_name description
       announce submitted report env namespace use_port_forward custom).
Proof.
  intros Hn. unfold variants.submit_pipeline.
  apply all_bind; [apply get_openshift_token_quiet; intros; settle|intros token _].
  destruct (negb (truthy token)); [walk; settle|].
  apply all_bind.
  { destruct use_port_forward; [walk; settle|].
    apply all_bind; [walk; settle|intros _ _].
    apply get_dspa_info_reads; [apply is_read_submit_event|apply Hn; reflexivity]. }
  intros [dspa_url|] _; [|walk; settle].
  apply all_bind; [walk; settle|intros _ _].
  apply all_bind; [apply get_pipeline_info_events; intros; settle|intros ids _].
  destruct (negb (truthy ids.1) || negb (truthy ids.2)); [walk; settle|].
  apply all_bind; [walk|intros short_id _].
  apply all_bind; [walk; settle|intros _ _].
  apply all_bind; [walk|intros short_version _].
  apply all_bind; [walk; settle|intros _ _].
  apply all_bind; [apply prints_events; intros; left; exact I|intros _ _].
  unfold variants.post_run. apply all_try; [|intros e; walk; settle].
  apply all_bind;
    [apply all_act; right; apply runs_endpoint_app; right; left; reflexivity|
     intros response _].
  destruct ((response.1 =? 200) || (response.1 =? 201)); [|walk; settle].
  repeat (apply all_bind; [|intros ? _]); try (walk; settle).
  apply prints_events; intros; left; exact I.
Qed.

(** submit_pipeline_fixed.py *)
Lemma fixed_main_events (a : submit_pipeline.args) (env : submit_pipeline.environment) :
  (submit_pipeline.route a = true -> harmless (submit_pipeline.namespace a) = true) ->
  all_events submit_event (submit_pipeline_fixed.main a env).
Proof.
  intros Hn. unfold submit_pipeline_fixed.main.
  repeat (apply all_bind; [walk; settle|intros _ _]).
  apply all_bind; [|intros success _; destruct (negb success); walk; settle].
  apply variants_submit_pipeline_events. intros Hr. apply Hn.
  destruct (submit_pipeline.route a); [reflexivity|discriminate].
Qed.

(** submit_pipeline_storage_fixed.py *)
Lemma simple_pass_reads (namespace : string) (t : submit_pipeline_storage_fixed.tick) :
  harmless namespace = true ->
  all_events is_read (submit_pipeline_storage_fixed.pass namespace t).
Proof.
  intros Hn. unfold submit_pipeline_storage_fixed.pass, submit_pipeline_storage_fixed.sleep.
  apply all_try; [|intros e; walk; settle].
  apply all_bind; [apply all_act; apply latest_cmd_reads; exact Hn|intros out _].
  walk; settle.
Qed.

Lemma simple_passes_read (namespace : string)
    (world : nat -> submit_pipeline_storage_fixed.tick) (n k : nat) :
  harmless namespace = true ->
  all_events is_read (submit_pipeline_storage_fixed.passes namespace world n k).
Proof.
  intros Hn. revert k. induction n as [|n IH]; intros k;
    cbn [submit_pipeline_storage_fixed.passes]; [walk|].
  apply all_bind; [apply simple_pass_reads; exact Hn|intros [] _; [walk|apply IH]].
Qed.

Lemma monitor_pipeline_simple_reads (namespace : string)
    (world : nat -> submit_pipeline_storage_fixed.tick) :
  harmless namespace = true ->
  all_events is_read (submit_pipeline_storage_fixed.monitor_pipeline_simple namespace world).
Proof.
  intros Hn. unfold submit_pipeline_storage_fixed.monitor_pipeline_simple.
  apply all_bind; [walk; settle|intros _ _].
  apply all_bind; [apply simple_passes_read; exact Hn|intros _ _].
  walk; settle.
Qed.

Lemma storage_fixed_main_events (a : submit_pipeline_storage_fixed.args)
    (env : submit_pipeline.environment)
    (world : nat -> submit_pipeline_storage_fixed.tick) :
  (submit_pipeline_storage_fixed.route a = true
   \/ submit_pipeline_storage_fixed.monitor a = true ->
   harmless (submit_pipeline_storage_fixed.namespace a) = true) ->
  all_events submit_event (submit_pipeline_storage_fixed.main a env world).
Proof.
  intros Hn. unfold submit_pipeline_storage_fixed.main.
  repeat (apply all_bind; [walk; settle|intros _ _]).
  apply all_bind.
  { unfold submit_pipeline_storage_fixed.submit_pipeline.
    apply variants_submit_pipeline_events. intros Hr. apply Hn. left.
    destruct (submit_pipeline_storage_fixed.route a); [reflexivity|discriminate]. }
  intros submitted _. destruct (negb submitted.1); [walk|].
  repeat (apply all_bind; [walk; settle|intros _ _]).
  destruct (submit_pipeline_storage_fixed.monitor a) eqn:Hm; [|walk; settle].
  eapply all_events_weaken; [apply is_read_submit_event|].
  apply monitor_pipeline_simple_reads. apply Hn. right. reflexivity.
Qed.

(** submit_pipeline_complete.py *)
Lemma complete_pass_reads (workflow namespace : string) (t : submit_pipeline_complete.tick)
    (st : submit_pipeline_complete.locals) :
  harmless workflow = true -> harmless namespace = true ->
  Forall is_read (submit_pipeline_complete.pass_events workflow namespace t st).
Proof.
  intros Hw Hn.
  assert (forall field, harmless field = true ->
            is_read (Command (submit_pipeline_complete.jsonpath_cmd workflow namespace field)))
    as Hj by (intros; apply jsonpath_cmd_reads; assumption).
  assert (is_read (Command (submit_pipeline_complete.pytorchjobs_cmd namespace))) as Hp
    by (apply pytorchjobs_cmd_reads; exact Hn).
  unfold submit_pipeline_complete.pass_events.
  repeat match goal with
         | |- Forall _ (match ?x with _ => _ end) => destruct x
         | |- Forall _ (if ?x then _ else _) => destruct x
         end;
    repeat constructor; first [exact Hp | apply Hj; reflexivity].
Qed.

Lemma complete_monitor_reads (fuel : nat) (lookup : string -> result string)
    (world : nat -> submit_pipeline_complete.tick) (start_time : nat)
    (namespace : string) (run_id : pyval) :
  harmless namespace = true ->
  (truthy run_id = true -> harmless (str_of run_id) = true) ->
  (forall out, lookup (submit_pipeline_complete.find_cmd namespace run_id) = Ok out ->
               harmless (strip out) = true) ->
  Forall is_read
    (submit_pipeline_complete.monitor_events fuel lookup world start_time namespace run_id).
Proof.
  intros Hn Hr Hl. unfold submit_pipeline_complete.monitor_events.
  constructor; [apply find_cmd_reads; assumption|].
  destruct (lookup _) as [out|] eqn:Hout; [|constructor].
  cbn zeta. destruct (nonempty (strip out)); [|constructor].
  apply while_events_all. intros k st. apply complete_pass_reads; [|exact Hn].
  apply Hl. reflexivity.
Qed.

Lemma complete_events (fuel : nat) (a : submit_pipeline_complete.args)
    (env : submit_pipeline.environment) (lookup : string -> result string)
    (world : nat -> submit_pipeline_complete.tick) (start_time : nat) :
  (submit_pipeline_complete.route a = true \/ submit_pipeline_complete.monitor a = true ->
   harmless (submit_pipeline_complete.namespace a) = true) ->
  (forall run_id,
      outcome (submit_pipeline_complete.submission a env)
      = Ok (submit_pipeline_complete.Pair true run_id) ->
      truthy run_id = true -> harmless (str_of run_id) = true) ->
  (forall cmd out, lookup cmd = Ok out -> harmless (strip out) = true) ->
  Forall submit_event
    (submit_pipeline_complete.events fuel a env lookup world start_time).
Proof.
  intros Hn Hr Hl. unfold submit_pipeline_complete.events. apply Forall_app. split.
  { unfold submit_pipeline_complete.submission, submit_pipeline_complete.submit_pipeline.
    apply variants_submit_pipeline_events. intros Hroute. apply Hn. left.
    destruct (submit_pipeline_complete.route a); [reflexivity|discriminate]. }
  destruct (outcome (submit_pipeline_complete.submission a env)) as [[|[] run_id]|] eqn:Hs;
    try constructor.
  destruct (submit_pipeline_complete.monitor a) eqn:Hm; [|constructor].
  eapply List.Forall_impl; [apply is_read_submit_event|].
  apply complete_monitor_reads.
  - apply Hn. right. reflexivity.
  - apply Hr. reflexivity.
  - intros out. apply Hl.
Qed.

End Submissions.

(** C4 (as amended).  The scripts change the state of the cluster in four
    ways: fix_granite_image.py deletes pods, writes and applies the
    manifest of a placeholder pod ([create_replacement_pods]), and patches
    the workflow ([skip_granite_tasks], whose one patch replaces the phase
    of exactly the two hardcoded nodes, each by Succeeded, and nothing
    else), and the six submit scripts POST a run to the runs endpoint of
    the DSPA server.  Everything else that a run of any of the eight
    scripts does to the cluster, its monitoring loop included, is a read:
    one [oc get] or [kubectl get] command, [oc whoami], or a GET request.
    For the command lines that go through a shell this is so when the
    names spliced into them (namespace, workflow name, run id) hold no
    shell operator, which the scripts do not check. *)
Theorem cluster_writes `{Py.Runtime} :
  (forall env,
      Reading.all_events
        (Reading.fix_event fix_granite_image.workflow_name fix_granite_image.namespace)
        (fix_granite_image.main env))
  /\ (forall env workflow namespace,
      Reading.harmless workflow = true -> Reading.harmless namespace = true ->
      Reading.all_events (Reading.fix_event workflow namespace)
        (fix_granite_image.create_replacement_pods env namespace)
      /\ Reading.all_events (Reading.fix_event workflow namespace)
           (fix_granite_image.patch_workflow_image env workflow namespace)
      /\ Reading.all_events (Reading.skip_event workflow namespace)
           (fix_granite_image.skip_granite_tasks env workflow namespace)
      /\ Reading.all_events Reading.is_read
           (fix_granite_image.get_workflow_yaml env workflow namespace))
  /\ (Reading.occurrences (fix_granite_image.quoted "op") fix_granite_image.patch_body
      = 2%nat
      /\ Reading.occurrences
           (fix_granite_image.quoted "op" +:+ ": " +:+ fix_granite_image.quoted "replace")
           fix_granite_image.patch_body = 2%nat
      /\ Reading.occurrences (fix_granite_image.quoted "path") fix_granite_image.patch_body
         = 2%nat
      /\ Reading.occurrences
           (fix_granite_image.quoted "path" +:+ ": " +:+ fix_granite_image.quoted
              "/status/nodes/instructlab-dpltw-system-container-impl-1650928254/phase")
           fix_granite_image.patch_body = 1%nat
      /\ Reading.occurrences
           (fix_granite_image.quoted "path" +:+ ": " +:+ fix_granite_image.quoted
              "/status/nodes/instructlab-dpltw-system-container-impl-3973677185/phase")
           fix_granite_image.patch_body = 1%nat
      /\ Reading.occurrences (fix_granite_image.quoted "value") fix_granite_image.patch_body
         = 2%nat
      /\ Reading.occurrences
           (fix_granite_image.quoted "value" +:+ ": " +:+ fix_granite_image.quoted "Succeeded")
           fix_granite_image.patch_body = 2%nat
      /\ Reading.occurrences "{" fix_granite_image.patch_body = 2%nat)
  /\ (forall fuel world start_time,
      Forall Reading.is_read (monitor_production_pipeline.events fuel world start_time))
  /\ (forall sh workflow,
      Reading.harmless workflow = true ->
      Reading.all_events Reading.is_read
        (monitor_production_pipeline.get_workflow_status sh workflow)
      /\ Reading.all_events Reading.is_read
           (monitor_production_pipeline.get_workflow_pods sh workflow))
  /\ (forall fuel a env,
      Forall Reading.submit_event (submit_pipeline_production.events fuel a env))
  /\ (forall fuel a env,
      Forall Reading.submit_event (submit_pipeline_nfs_storage.events fuel a env))
  /\ (forall a env,
      (submit_pipeline.route a = true ->
       Reading.harmless (submit_pipeline.namespace a) = true) ->
      Reading.all_events Reading.submit_event (submit_pipeline.main a env)
      /\ Reading.all_events Reading.submit_event (submit_pipeline_fixed.main a env))
  /\ (forall a env world,
      (submit_pipeline_storage_fixed.route a = true
       \/ submit_pipeline_storage_fixed.monitor a = true ->
       Reading.harmless (submit_pipeline_storage_fixed.namespace a) = true) ->
      Reading.all_events Reading.submit_event
        (submit_pipeline_storage_fixed.main a env world))
  /\ (forall fuel a env lookup world start_time,
      (submit_pipeline_complete.route a = true
       \/ submit_pipeline_complete.monitor a = true ->
       Reading.harmless (submit_pipeline_complete.namespace a) = true) ->
      (forall run_id,
          World.outcome (submit_pipeline_complete.submission a env)
          = Py.Ok (submit_pipeline_complete.Pair true run_id) ->
          Py.truthy run_id = true -> Reading.harmless (Py.str_of run_id) = true) ->
      (forall cmd out, lookup cmd = Py.Ok out -> Reading.harmless (World.strip out) = true) ->
      Forall Reading.submit_event
        (submit_pipeline_complete.events fuel a env lookup world start_time)).
Proof.
  split; [apply fix_main_events|].
  split.
  { intros env workflow namespace Hw Hn.
    split; [apply create_replacement_pods_events; exact Hn|].
    split; [|split; [apply skip_granite_tasks_events; assumption|]].
    - unfold fix_granite_image.patch_workflow_image.
      apply all_bind; [walk; settle|intros _ _].
      apply all_bind; [apply delete_pods_events; exact Hn|intros _ _].
      apply create_replacement_pods_events; exact Hn.
    - unfold fix_granite_image.get_workflow_yaml.
      apply run_oc_command_events; intros; [|exact I].
      apply get_workflow_cmd_reads; first [assumption | reflexivity]. }
  split; [repeat split; vm_compute; reflexivity|].
  split; [apply monitor_events_read|].
  split; [intros; split; [apply get_workflow_status_reads|apply get_workflow_pods_reads];
          assumption|].
  split; [apply production_events|].
  split; [apply nfs_events|].
  split; [intros; split; [apply submit_pipeline_main_events|apply fixed_main_events];
          assumption|].
  split; [intros; apply storage_fixed_main_events; assumption|].
  intros; apply complete_events; assumption.
Qed.

(** C4 as stated fails: fix_granite_image.py applies a pod manifest, which
    is neither a read, nor a pod deletion, nor the patch; and
    submit_pipeline_nfs_storage.py posts a run. *)
Lemma scripts_also_apply_and_post :
  In (World.Command fix_granite_image.apply_cmd)
     (World.trace (fix_granite_image.main Sample.obliging))
  /\ Reading.reads fix_granite_image.apply_cmd = false
  /\ Reading.deletes_pod fix_granite_image.apply_cmd = false
  /\ String.prefix "oc patch" fix_granite_image.apply_cmd = false
  /\ exists body,
       In (World.Post "https://dspa.example/apis/v1beta1/runs" body)
          (World.trace (submit_pipeline_nfs_storage.submit (H:=Sample.runtime)
                          Sample.nfs_args (Sample.nfs_environment "Running"))).
Proof.
  split; [vm_compute; repeat first [left; reflexivity | right]|].
  split; [reflexivity|]. split; [reflexivity|]. split; [reflexivity|].
  eexists. vm_compute. repeat first [left; reflexivity | right].
Qed.

(** The polls of the monitoring loops are among the events: the third
    pass of [monitor_pipeline_run] of submit_pipeline_nfs_storage.py has
    requested the run three times, and the first pass of
    monitor_production_pipeline.py has run its [kubectl get]. *)
Lemma monitoring_polls_are_events :
  List.filter (fun e => match e with World.Get url => String.eqb url Sample.run_url
                                  | _ => false end)
    (submit_pipeline_nfs_storage.events (H:=Sample.runtime) 3
       Sample.nfs_args (Sample.nfs_environment "Running"))
  = [World.Get Sample.run_url; World.Get Sample.run_url; World.Get Sample.run_url]
  /\ monitor_production_pipeline.events (H:=Sample.runtime) 1
       (Sample.kubectl_world "Running" 0) 0
     = [World.Command
          "kubectl get workflow instructlab-production-z4fqp -n petloan-instructlab -o json"].
Proof. split; vm_compute; reflexivity. Qed.

(* ===================================================================== *)
(** ** Further properties: [analyze_workflow_progress] *)
(* ===================================================================== *)

Section AnalyzeMore.
Import Py World monitor_production_pipeline Nodes.

Lemma eq_str_is (v : pyval) (s : string) : eq_str v s = true -> v = PStr s.
Proof.
  unfold eq_str. destruct v; simpl; try discriminate.
  intros Heq. apply String.eqb_eq in Heq. congruence.
Qed.

Lemma place_sorted (name : string) (d : list (string * pyval)) (b : buckets) :
  place name (phase_of (PDict d)) b = sorted [(name, PDict d)] b.
Proof.
  unfold place, sorted, names_in. cbn [List.filter snd map fst].
  destruct b as [c r f p]. cbn [b_completed b_running b_failed b_pending].
  set (ph := phase_of (PDict d)).
  unfold in_strs. cbn [existsb].
  destruct (eq_str ph "Succeeded") eqn:H1.
  { apply eq_str_is in H1. rewrite H1. cbn. rewrite !app_nil_r. reflexivity. }
  destruct (eq_str ph "Running") eqn:H2.
  { apply eq_str_is in H2. rewrite H2. cbn. rewrite !app_nil_r. reflexivity. }
  destruct (eq_str ph "Failed") eqn:H3.
  { apply eq_str_is in H3. rewrite H3. cbn. rewrite !app_nil_r. reflexivity. }
  destruct (eq_str ph "Error") eqn:H4.
  { apply eq_str_is in H4. rewrite H4. cbn. rewrite !app_nil_r. reflexivity. }
  destruct (eq_str ph "Pending") eqn:H5.
  { cbn. rewrite !app_nil_r. reflexivity. }
  cbn. rewrite !app_nil_r. reflexivity.
Qed.

Lemma names_in_cons (phases : list string) (kv : string * pyval)
    (nodes : list (string * pyval)) :
  names_in phases (kv :: nodes) = (names_in phases [kv] ++ names_in phases nodes)%list.
Proof.
  unfold names_in. cbn [List.filter].
  destruct (in_strs (phase_of kv.2) phases); reflexivity.
Qed.

Lemma classify_sorted (nodes : list (string * pyval)) (b : buckets) :
  forallb is_dict (map snd nodes) = true ->
  classify nodes b = Ok (sorted nodes b).
Proof.
  revert b. induction nodes as [|[name node] rest IH]; intros b Hd.
  - destruct b. unfold sorted, names_in. simpl. rewrite !app_nil_r. reflexivity.
  - cbn [map snd forallb] in Hd. apply andb_prop in Hd as [Hn Hrest].
    destruct node as [| | | | | |d]; try discriminate.
    cbn [classify]. unfold_bind. cbn [py_get].
    change (match dict_lookup "phase" d with Some x => x | None => PStr "Unknown" end)
      with (phase_of (PDict d)).
    rewrite place_sorted, (IH _ Hrest). f_equal.
    unfold sorted. cbn [b_completed b_running b_failed b_pending].
    rewrite !(names_in_cons _ (name, PDict d) rest), !app_assoc. reflexivity.
Qed.

Lemma classify_dicts (nodes : list (string * pyval)) (b b' : buckets) :
  classify nodes b = Ok b' -> forallb is_dict (map snd nodes) = true.
Proof.
  revert b. induction nodes as [|[name node] rest IH]; intros b; [reflexivity|].
  cbn [classify]. unfold_bind.
  destruct node; cbn [py_get]; try discriminate.
  intros Hc. cbn [map snd forallb is_dict]. simpl. eapply IH. exact Hc.
Qed.

Lemma percent_percentZ (done total : nat) :
  percent done total = percentZ (Z.of_nat done) (Z.of_nat total).
Proof. unfold percent, percentZ, float_of_nat. destruct total; reflexivity. Qed.

Lemma In_upto (n : nat) (from z : Z) :
  from <= z < from + Z.of_nat n -> In z (upto n from).
Proof.
  revert from. induction n as [|n IH]; intros from Hz; [lia|].
  cbn [upto]. destruct (Z.eq_dec from z) as [->|Hne]; [left; reflexivity|].
  right. apply IH. lia.
Qed.

Lemma close_upto_spec (n : nat) (done total : Z) :
  close_upto n = true -> 1 <= total < 1 + Z.of_nat n -> 0 <= done <= total ->
  close done total = true.
Proof.
  unfold close_upto. intros Hall Ht Hd.
  rewrite forallb_forall in Hall. specialize (Hall total (In_upto _ _ _ Ht)).
  rewrite forallb_forall in Hall. apply Hall. apply In_upto. lia.
Qed.

(** The check, run for every count of nodes up to 300. *)
Lemma close_upto_300 : close_upto 300 = true.
Proof. vm_cast_no_check (eq_refl true). Qed.

End AnalyzeMore.

(** X1.  The loop of [analyze_workflow_progress] sorts the nodes by their
    phase.  When every node is an object, [completed_node_names] are the
    names of the nodes whose phase is Succeeded, [running_node_names]
    those of the nodes that are Running, [failed_node_names] those of the
    nodes that are Failed or in Error, each in the order of the workflow,
    and a fourth list takes the Pending ones; the four counts are the
    lengths of these lists, and [total_nodes] counts every node, also
    those with another phase or none.  A node that is not an object makes
    the function raise. *)
Theorem analyze_workflow_progress_buckets :
  (forall nodes,
      forallb Nodes.is_dict (map snd nodes) = true ->
      monitor_production_pipeline.classify nodes monitor_production_pipeline.no_buckets
      = Py.Ok {| monitor_production_pipeline.b_completed :=
                   Nodes.names_in ["Succeeded"] nodes;
                 monitor_production_pipeline.b_running := Nodes.names_in ["Running"] nodes;
                 monitor_production_pipeline.b_failed :=
                   Nodes.names_in ["Failed"; "Error"] nodes;
                 monitor_production_pipeline.b_pending :=
                   Nodes.names_in ["Pending"] nodes |})
  /\ (forall workflow_data i,
      monitor_production_pipeline.analyze_workflow_progress workflow_data = Py.Ok (Some i) ->
      exists status nodes,
        Py.py_get workflow_data "status" (Py.PDict []) = Py.Ok status
        /\ Py.py_get status "nodes" (Py.PDict []) = Py.Ok (Py.PDict nodes)
        /\ forallb Nodes.is_dict (map snd nodes) = true
        /\ monitor_production_pipeline.total_nodes i = length nodes
        /\ monitor_production_pipeline.completed_node_names i
           = Nodes.names_in ["Succeeded"] nodes
        /\ monitor_production_pipeline.running_node_names i
           = Nodes.names_in ["Running"] nodes
        /\ monitor_production_pipeline.failed_node_names i
           = Nodes.names_in ["Failed"; "Error"] nodes
        /\ monitor_production_pipeline.completed_nodes i
           = length (Nodes.names_in ["Succeeded"] nodes)
        /\ monitor_production_pipeline.running_nodes i
           = length (Nodes.names_in ["Running"] nodes)
        /\ monitor_production_pipeline.failed_nodes i
           = length (Nodes.names_in ["Failed"; "Error"] nodes)
        /\ monitor_production_pipeline.pending_nodes i
           = length (Nodes.names_in ["Pending"] nodes))
  /\ (forall nodes b,
      forallb Nodes.is_dict (map snd nodes) = false ->
      exists e, monitor_production_pipeline.classify nodes b = Py.Raise e).
Proof.
  split; [|split].
  - intros nodes Hd. rewrite (classify_sorted _ _ Hd). reflexivity.
  - intros workflow_data i. unfold monitor_production_pipeline.analyze_workflow_progress.
    unfold_bind.
    destruct (Py.truthy workflow_data); cbn [negb]; [|discriminate].
    destruct (Py.py_get workflow_data "status" (Py.PDict [])) as [status|] eqn:Hs;
      [|discriminate].
    destruct (Py.py_get status "phase" (Py.PStr "Unknown")); [|discriminate].
    destruct (Py.py_get workflow_data "metadata" (Py.PDict [])) as [metadata|];
      [|discriminate].
    destruct (Py.py_get metadata "creationTimestamp" Py.PNone); [|discriminate].
    destruct (Py.py_get status "finishedAt" Py.PNone); [|discriminate].
    destruct (Py.py_get status "nodes" (Py.PDict [])) as [nodes|] eqn:Hn; [|discriminate].
    destruct nodes as [| | | | | |d]; try discriminate.
    cbn [Py.len Py.items].
    destruct (monitor_production_pipeline.classify d monitor_production_pipeline.no_buckets)
      as [b|] eqn:Hc; [|discriminate].
    destruct (monitor_production_pipeline.percent _ _); [|discriminate].
    intros [= <-]. cbn.
    pose proof (classify_dicts _ _ _ Hc) as Hd.
    rewrite (classify_sorted _ _ Hd) in Hc. injection Hc as <-.
    exists status, d. cbn. repeat split; first [reflexivity | assumption].
  - intros nodes b Hd.
    destruct (monitor_production_pipeline.classify nodes b) as [b'|e] eqn:Hc; [|eauto].
    apply classify_dicts in Hc. congruence.
Qed.

(** X2.  For a workflow of up to 300 nodes, the percentage that
    [analyze_workflow_progress] computes in floating point is the exact
    percentage rounded down, or one below it; it is 100 when all nodes are
    done and 0 when none is, and the computation does not raise. *)
Theorem progress_pct_within_one (done total : nat) :
  (0 < total <= 300)%nat -> (done <= total)%nat ->
  exists p,
    monitor_production_pipeline.percent done total = Py.Ok p
    /\ 100 * Z.of_nat done / Z.of_nat total - 1 <= p <= 100 * Z.of_nat done / Z.of_nat total
    /\ (done = total -> p = 100)
    /\ (done = 0%nat -> p = 0).
Proof.
  intros Ht Hd.
  assert (Nodes.close (Z.of_nat done) (Z.of_nat total) = true) as Hall
    by (apply (close_upto_spec 300 _ _ close_upto_300); lia).
  unfold Nodes.close in Hall. rewrite (percent_percentZ done total).
  destruct (Nodes.percentZ (Z.of_nat done) (Z.of_nat total)) as [p|]; [|discriminate].
  exists p. split; [reflexivity|].
  apply andb_prop in Hall as [Hall H0]. apply andb_prop in Hall as [Hall H100].
  apply andb_prop in Hall as [Hlo Hhi].
  apply Z.leb_le in Hlo, Hhi.
  split; [lia|]. split.
  - intros ->. rewrite Z.eqb_refl in H100. apply Z.eqb_eq in H100. exact H100.
  - intros ->. cbn in H0. apply Z.eqb_eq in H0. exact H0.
Qed.

(** The theorem at work: 29 of 50 nodes are done; the percentage is 57,
    one below 58. *)
Lemma progress_pct_within_one_witness :
  exists p,
    monitor_production_pipeline.percent 29 50 = Py.Ok p
    /\ 100 * Z.of_nat 29 / Z.of_nat 50 - 1 <= p <= 100 * Z.of_nat 29 / Z.of_nat 50
    /\ (29%nat = 50%nat -> p = 100)
    /\ (29%nat = 0%nat -> p = 0).
Proof. apply (progress_pct_within_one 29 50); lia. Defined.

(* ===================================================================== *)
(** ** Further properties: the v1beta1 scripts *)
(* ===================================================================== *)

Section FirstMatch.
Import Py World v1beta1 Listing.
Context `{Runtime}.
Variable bad good : string.

Lemma is_instructlab_named (p : pyval) :
  is_instructlab p = true ->
  exists d name, p = PDict d /\ dict_lookup "display_name" d = Some (PStr name)
                 /\ str_contains "instructlab" (lower name) = true.
Proof.
  unfold is_instructlab, display_name_of. destruct p as [| | | | | |d]; try discriminate.
  destruct (dict_lookup "display_name" d) as [[| | | |name| |]|] eqn:Hd; cbn [default];
    try discriminate.
  intros Hn. eauto.
Qed.

(** The search stops at the first pipeline whose name mentions
    InstructLab. *)
Lemma look_for_instructlab_first (before : list pyval) (p : pyval) (after : list pyval)
    (id : pyval) :
  forallb passed_over before = true ->
  is_instructlab p = true ->
  subscript p "id" = Ok id ->
  outcome (look_for_instructlab good (before ++ p :: after)) = Ok (Some id).
Proof.
  intros Hb Hp Hid. induction before as [|q before IH].
  - destruct (is_instructlab_named p Hp) as [d [name [-> [Hd Hn]]]].
    cbn [app look_for_instructlab].
    repeat (rewrite outcome_bind; cbn [lift print act outcome py_get py_lower subscript];
            rewrite ?Hd, ?Hn).
    cbn [subscript] in Hid. destruct (dict_lookup "id" d); [|discriminate].
    simplify_eq. reflexivity.
  - cbn [forallb] in Hb. apply andb_prop in Hb as [Hq Hb].
    unfold passed_over, display_name_of in Hq.
    destruct q as [| | | | | |d]; try discriminate.
    cbn [app look_for_instructlab].
    rewrite outcome_bind. cbn [lift outcome py_get].
    destruct (dict_lookup "display_name" d) as [[| | | |name| |]|] eqn:Hd;
      cbn in Hq; try discriminate;
      rewrite outcome_bind; cbn [lift outcome py_lower];
      try (apply negb_true_iff in Hq; rewrite Hq); exact (IH Hb).
Qed.

End FirstMatch.

(** X3.  [get_pipeline_info] of the v1beta1 scripts returns the [id] of
    the first pipeline of the listing whose [display_name] mentions
    InstructLab in whatever case, whatever pipelines follow it: the
    pipelines before it are passed over, with or without a
    [display_name]. *)
Theorem get_pipeline_info_first_match `{Py.Runtime} (bad good : string)
    (get : string -> World.http_outcome) (dspa_host token namespace text : string)
    (code : Z) (d : list (string * Py.pyval)) (before : list Py.pyval) (p : Py.pyval)
    (after : list Py.pyval) (id : Py.pyval) :
  get (v1beta1.pipelines_url dspa_host) = World.Response code text ->
  (400 <=? code) && (code <? 600) = false ->
  Py.json_loads text = Some (Py.PDict d) ->
  Py.dict_lookup "pipelines" d = Some (Py.PList (before ++ p :: after)) ->
  forallb Listing.passed_over before = true ->
  Listing.is_instructlab p = true ->
  Py.subscript p "id" = Py.Ok id ->
  World.outcome (v1beta1.get_pipeline_info bad good get dspa_host token namespace)
  = Py.Ok id.
Proof.
  intros Hg Hc Hj Hd Hb Hp Hid.
  assert (Py.truthy (Py.PList (before ++ p :: after)) = true) as Ht
    by (destruct before; reflexivity).
  unfold v1beta1.get_pipeline_info. rewrite outcome_try.
  repeat (rewrite outcome_bind;
          unfold World.raise_for_status, World.response_json;
          cbn [World.act World.lift World.print World.outcome World.request fst snd
               Py.contains Py.subscript Py.iterate mret World.io_ret];
          rewrite ?Hg, ?Hc, ?Hj, ?Hd, ?Ht, ?(look_for_instructlab_first good _ _ _ _ Hb Hp Hid);
          cbn [World.act World.lift World.print World.outcome World.request fst snd
               Py.contains Py.subscript Py.iterate mret World.io_ret]).
  reflexivity.
Qed.

(** The theorem at work: of three pipelines the second and the third
    mention InstructLab; the function returns the [id] of the second. *)
Lemma get_pipeline_info_first_match_witness :
  World.outcome
    (v1beta1.get_pipeline_info (H:=Cases.runtime) "" ""
       (fun _ => World.Response 200 Cases.three_pipelines_text) Sample.host "token" Sample.ns)
  = Py.Ok (Py.PStr "p-2").
Proof.
  apply (get_pipeline_info_first_match (H:=Cases.runtime) "" "" _ Sample.host "token"
           Sample.ns Cases.three_pipelines_text 200
           [ ("pipelines",
               Py.PList [ Py.PDict [ ("id", Py.PStr "p-1");
                                     ("display_name", Py.PStr "Data preparation") ];
                          Py.PDict [ ("id", Py.PStr "p-2");
                                     ("display_name", Py.PStr "InstructLab Training") ];
                          Py.PDict [ ("id", Py.PStr "p-3");
                                     ("display_name", Py.PStr "instructlab-nightly") ] ]) ]
           [ Py.PDict [ ("id", Py.PStr "p-1");
                        ("display_name", Py.PStr "Data preparation") ] ]
           (Py.PDict [ ("id", Py.PStr "p-2");
                       ("display_name", Py.PStr "InstructLab Training") ])
           [ Py.PDict [ ("id", Py.PStr "p-3");
                        ("display_name", Py.PStr "instructlab-nightly") ] ]);
    reflexivity.
Defined.

(* ===================================================================== *)
(** ** Further properties: submit_pipeline_complete.py *)
(* ===================================================================== *)

(** X4.  [monitor_pipeline] of submit_pipeline_complete.py: when one of
    the three status queries of the very first pass raises an exception
    that derives from [Exception], the handler reads [current_time], which
    is assigned only after the queries; the [UnboundLocalError] leaves the
    function, and a run of the script that got as far as the monitoring
    ends with its traceback. *)
Theorem first_pass_error_escapes `{Py.Runtime} (fuel : nat)
    (lookup : string -> Py.result string) (world : nat -> submit_pipeline_complete.tick)
    (start_time : nat) (namespace : string) (run_id : Py.pyval) (out : string)
    (e : Py.exn) :
  lookup (submit_pipeline_complete.find_cmd namespace run_id) = Py.Ok out ->
  World.nonempty (World.strip out) = true ->
  Py.is_Exception e = true ->
  (let query := fun field =>
     submit_pipeline_complete.popen (world 0%nat)
       (submit_pipeline_complete.jsonpath_cmd (World.strip out) namespace field) in
   query "phase" = Py.Raise e
   \/ (exists o1, query "phase" = Py.Ok o1 /\ query "progress" = Py.Raise e)
   \/ (exists o1 o2, query "phase" = Py.Ok o1 /\ query "progress" = Py.Ok o2
                     /\ query "message" = Py.Raise e)) ->
  submit_pipeline_complete.monitor_pipeline (S fuel) lookup world start_time namespace
    run_id
  = Some (Py.Raise (Py.UnboundLocalError "current_time"))
  /\ submit_pipeline_complete.main_after_submit (S fuel) true true run_id lookup world
       start_time namespace
     = Some (World.Traceback (Py.UnboundLocalError "current_time")).
Proof.
  intros Hl Hn He Hq.
  assert (Py.is_KeyboardInterrupt e = false) as Hk by (destruct e; try reflexivity; discriminate).
  assert (submit_pipeline_complete.monitor_pipeline (S fuel) lookup world start_time
            namespace run_id
          = Some (Py.Raise (Py.UnboundLocalError "current_time"))) as Hm.
  { unfold submit_pipeline_complete.monitor_pipeline. rewrite Hl, Hn.
    cbn [World.while]. unfold submit_pipeline_complete.in_time at 1.
    cbn [submit_pipeline_complete.monitoring_duration].
    change ((0 <? submit_pipeline_complete.max_monitoring_time)%nat) with true.
    cbv iota. unfold submit_pipeline_complete.body, submit_pipeline_complete.attempt.
    cbv zeta in Hq.
    destruct Hq as [H1 | [[o1 [H1 H2]] | [o1 [o2 [H1 [H2 H3]]]]]];
      rewrite ?H1, ?H2, ?H3; cbn [submit_pipeline_complete.current_time];
      rewrite Hk, He; reflexivity. }
  split; [exact Hm|].
  unfold submit_pipeline_complete.main_after_submit. cbn [negb]. rewrite Hm. reflexivity.
Qed.

(** The theorem at work: [os.popen] fails in the first pass. *)
Lemma first_pass_error_escapes_witness :
  submit_pipeline_complete.monitor_pipeline (H:=Sample.runtime) 1
    (fun _ => Py.Ok "instructlab-abc12") (fun _ => Cases.popen_fails) 0 Sample.ns
    (Py.PStr "run-1")
  = Some (Py.Raise (Py.UnboundLocalError "current_time"))
  /\ submit_pipeline_complete.main_after_submit (H:=Sample.runtime) 1 true true
       (Py.PStr "run-1") (fun _ => Py.Ok "instructlab-abc12") (fun _ => Cases.popen_fails)
       0 Sample.ns
     = Some (World.Traceback (Py.UnboundLocalError "current_time")).
Proof.
  apply (first_pass_error_escapes (H:=Sample.runtime) 0
           (fun _ => Py.Ok "instructlab-abc12") (fun _ => Cases.popen_fails) 0 Sample.ns
           (Py.PStr "run-1") "instructlab-abc12" Py.OSError);
    [reflexivity | reflexivity | reflexivity | left; reflexivity].
Defined.

Section GivingUp.
Import Py World v2beta1.
Context `{Runtime} {R : Type}.
Variable failed refused : R.
Variable accepted : pyval -> R.
Variable table : list (string * pyval).
Variable display_name description : string.
Variable announce : list string.
Variable submitted : string.
Variable report : string -> list string.

(** Without a token the function gives up at once. *)
Lemma variants_no_token (env : submit_pipeline.environment) (namespace : string)
    (use_port_forward : bool) (custom : option (list (string * pyval))) (token : pyval) :
  outcome (get_openshift_token (submit_pipeline.kubeconfig env)) = Ok token ->
  truthy token = false ->
  outcome (variants.submit_pipeline failed refused accepted table display_name description
             announce submitted report env namespace use_port_forward custom)
  = Ok failed.
Proof.
  intros Ht Hf. unfold variants.submit_pipeline.
  rewrite outcome_bind, Ht, Hf. reflexivity.
Qed.

(** Without a route, in route mode, it gives up as well. *)
Lemma variants_no_route (env : submit_pipeline.environment) (namespace : string)
    (custom : option (list (string * pyval))) (token : pyval) :
  outcome (get_openshift_token (submit_pipeline.kubeconfig env)) = Ok token ->
  truthy token = true ->
  outcome (get_dspa_info (submit_pipeline.popen env) namespace) = Ok None ->
  outcome (variants.submit_pipeline failed refused accepted table display_name description
             announce submitted report env namespace false custom)
  = Ok failed.
Proof.
  intros Ht Hf Hr. unfold variants.submit_pipeline.
  rewrite outcome_bind, Ht, Hf. cbn [negb].
  rewrite outcome_bind. unfold mbind at 1, io_bind at 1. cbn [print outcome].
  rewrite Hr. reflexivity.
Qed.

End GivingUp.

Section GivingUpOriginal.
Import Py World v2beta1.
Context `{Runtime}.

Lemma original_no_token (env : submit_pipeline.environment) (namespace : string)
    (use_port_forward : bool) (custom : option (list (string * pyval))) (token : pyval) :
  outcome (get_openshift_token (submit_pipeline.kubeconfig env)) = Ok token ->
  truthy token = false ->
  outcome (submit_pipeline.submit_pipeline env namespace use_port_forward custom)
  = Ok false.
Proof.
  intros Ht Hf. unfold submit_pipeline.submit_pipeline.
  rewrite outcome_bind, Ht, Hf. reflexivity.
Qed.

Lemma original_no_route (env : submit_pipeline.environment) (namespace : string)
    (custom : option (list (string * pyval))) (token : pyval) :
  outcome (get_openshift_token (submit_pipeline.kubeconfig env)) = Ok token ->
  truthy token = true ->
  outcome (get_dspa_info (submit_pipeline.popen env) namespace) = Ok None ->
  outcome (submit_pipeline.submit_pipeline env namespace false custom) = Ok false.
Proof.
  intros Ht Hf Hr. unfold submit_pipeline.submit_pipeline.
  rewrite outcome_bind, Ht, Hf. cbn [negb].
  rewrite outcome_bind. unfold mbind at 1, io_bind at 1. cbn [print outcome].
  rewrite Hr. reflexivity.
Qed.

End GivingUpOriginal.

(** X5.  Where the submission gives up before the POST, for want of a
    token or (with [--route]) of a route, submit_pipeline.py,
    submit_pipeline_fixed.py and submit_pipeline_storage_fixed.py exit
    with status 1, but submit_pipeline_complete.py ends with a
    [TypeError]: its [submit_pipeline] returns a bare [False] there, which
    [main] cannot unpack into [success, run_id]. *)
Theorem giving_up_before_the_post `{Py.Runtime} (env : submit_pipeline.environment)
    (token : Py.pyval) :
  World.outcome (v2beta1.get_openshift_token (submit_pipeline.kubeconfig env))
  = Py.Ok token ->
  (forall namespace : string,
      Py.truthy token = false
      \/ World.outcome (v2beta1.get_dspa_info (submit_pipeline.popen env) namespace)
         = Py.Ok None) ->
  (forall fuel a lookup world start_time,
      Py.truthy token = false \/ submit_pipeline_complete.route a = true ->
      submit_pipeline_complete.main fuel a env lookup world start_time
      = Some (World.Traceback Py.TypeError))
  /\ (forall a,
      Py.truthy token = false \/ submit_pipeline.route a = true ->
      World.end_of (World.outcome (submit_pipeline.main a env)) = World.Exit 1
      /\ World.end_of (World.outcome (submit_pipeline_fixed.main a env)) = World.Exit 1)
  /\ (forall a world,
      Py.truthy token = false \/ submit_pipeline_storage_fixed.route a = true ->
      World.end_of (World.outcome (submit_pipeline_storage_fixed.main a env world))
      = World.Exit 1).
Proof.
  intros Ht Hw.
  assert (forall (R : Type) (failed refused : R) accepted table dn ds an sb rp ns
                 (route : bool) custom,
             Py.truthy token = false \/ route = true ->
             World.outcome (variants.submit_pipeline failed refused accepted table dn ds an
                              sb rp env ns (negb route) custom)
             = Py.Ok failed) as Hv.
  { intros R failed refused accepted table dn ds an sb rp ns route custom Hc.
    destruct (Py.truthy token) eqn:Hf.
    - destruct Hc as [Hc | ->]; [discriminate|]. cbn [negb].
      destruct (Hw ns) as [Hn | Hr]; [discriminate|].
      eapply variants_no_route; eassumption.
    - eapply variants_no_token; eassumption. }
  assert (forall ns (route : bool) custom,
             Py.truthy token = false \/ route = true ->
             World.outcome (submit_pipeline.submit_pipeline env ns (negb route) custom)
             = Py.Ok false) as Ho.
  { intros ns route custom Hc.
    destruct (Py.truthy token) eqn:Hf.
    - destruct Hc as [Hc | ->]; [discriminate|]. cbn [negb].
      destruct (Hw ns) as [Hn | Hr]; [discriminate|].
      eapply original_no_route; eassumption.
    - eapply original_no_token; eassumption. }
  split; [|split].
  - intros fuel a lookup world start_time Hc.
    unfold submit_pipeline_complete.main, submit_pipeline_complete.submission,
      submit_pipeline_complete.submit_pipeline.
    rewrite (Hv _ _ _ _ _ _ _ _ _ _ _ _ _ Hc). reflexivity.
  - intros a Hc. split.
    + unfold submit_pipeline.main. rewrite outcome_bind.
      rewrite (Ho _ _ _ Hc). reflexivity.
    + unfold submit_pipeline_fixed.main, submit_pipeline_fixed.submit_pipeline.
      repeat (rewrite outcome_bind; cbn [World.print World.outcome]).
      rewrite (Hv _ _ _ _ _ _ _ _ _ _ _ _ _ Hc). reflexivity.
  - intros a world Hc.
    unfold submit_pipeline_storage_fixed.main, submit_pipeline_storage_fixed.submit_pipeline.
    repeat (rewrite outcome_bind; cbn [World.print World.outcome]).
    rewrite (Hv _ _ _ _ _ _ _ _ _ _ _ _ _ Hc). reflexivity.
Qed.

(** The theorem at work: a machine without a kubeconfig. *)
Lemma giving_up_before_the_post_witness :
  submit_pipeline_complete.main (H:=Sample.runtime) 1 Cases.complete_args Cases.logged_out
    (fun _ => Py.Ok "instructlab-abc12") (fun _ => Cases.popen_fails) 0
  = Some (World.Traceback Py.TypeError)
  /\ World.end_of (World.outcome (submit_pipeline_storage_fixed.main (H:=Sample.runtime)
                                    Cases.storage_fixed_args Cases.logged_out
                                    (Cases.latest "Running")))
     = World.Exit 1.
Proof.
  pose proof (giving_up_before_the_post (H:=Sample.runtime) Cases.logged_out Py.PNone
                eq_refl (fun _ => or_introl eq_refl)) as [Hc [_ Hs]].
  split.
  - apply Hc. left. reflexivity.
  - apply Hs. left. reflexivity.
Defined.

(* ===================================================================== *)
(** ** Further properties: submit_pipeline_production.py *)
(* ===================================================================== *)

Section ProductionPasses.
Import Py World v1beta1 submit_pipeline_production.
Context `{Runtime}.



(** A pass that finds no manifest sleeps, or is interrupted in its
    sleep. *)
Lemma body_without_manifest (url : string) (t : tick) (st : locals)
    (status manifest : pyval) :
  poll_run (get t) url = Ok (status, manifest) ->
  truthy manifest = false ->
  (exists st', body url t st = inl st') \/ body url t st = inr (Ok None).
Proof.
  intros Hp Hm. unfold body, attempt. rewrite Hp. unfold_bind. cbn [fst snd].
  rewrite Hm. unfold sleep. destruct (nap t); [left; eauto | right; reflexivity].
Qed.

Lemma monitor_without_manifest (world : nat -> tick) (start_time : nat)
    (dspa_host token : string) (run_id : pyval) (namespace : string) :
  (forall k, exists status manifest,
        poll_run (get (world k)) (run_url dspa_host run_id) = Ok (status, manifest)
        /\ truthy manifest = false) ->
  monitor_pipeline_run 145 world start_time dspa_host token run_id namespace
  = Some (Ok None).
Proof.
  intros Hw.
  destruct (production_monitor_ends world start_time dspa_host token run_id namespace)
    as [r Hr].
  rewrite Hr. f_equal. unfold monitor_pipeline_run in Hr.
  destruct (while_leaves _ _ _ _ _ _ _ Hr) as [n [s' [_ [[_ Hend] | [_ Hend]]]]];
    [exact Hend|].
  destruct (Hw (n + 0)%nat) as [status [manifest [Hp Hm]]].
  destruct (body_without_manifest _ _ s' _ _ Hp Hm) as [[st' Hb] | Hb];
    rewrite Hb in Hend; congruence.
Qed.

End ProductionPasses.

(** X6.  [monitor_pipeline_run] of submit_pipeline_production.py looks at
    the status of the run only in a pass whose answer carries a workflow
    manifest.  While the server reports no manifest the function returns
    neither [True] nor [False], whatever the status: it returns [None]
    when the 24 hours are over or a sleep is interrupted, and the script
    exits with status 2, also for a run reported as Succeeded. *)
Theorem status_without_manifest_is_ignored `{Py.Runtime}
    (a : submit_pipeline_production.args) (env : submit_pipeline_production.environment)
    (dspa_host token : string) (run_id : Py.pyval) :
  World.outcome (submit_pipeline_production.submit a env) = Py.Ok (dspa_host, token, run_id) ->
  submit_pipeline_production.no_monitor a = false ->
  (forall k, exists status manifest,
        v1beta1.poll_run (v1beta1.get (submit_pipeline_production.world env k))
          (v1beta1.run_url dspa_host run_id) = Py.Ok (status, manifest)
        /\ Py.truthy manifest = false) ->
  submit_pipeline_production.monitor_pipeline_run 145
    (submit_pipeline_production.world env) (submit_pipeline_production.start_time env)
    dspa_host token run_id (submit_pipeline_production.namespace a)
  = Some (Py.Ok None)
  /\ submit_pipeline_production.main 145 a env = Some (World.Exit 2).
Proof.
  intros Hs Hm Hw.
  pose proof (monitor_without_manifest (submit_pipeline_production.world env)
                (submit_pipeline_production.start_time env) dspa_host token run_id
                (submit_pipeline_production.namespace a) Hw) as Hr.
  split; [exact Hr|].
  unfold submit_pipeline_production.main. rewrite Hs, Hm. cbn [negb]. rewrite Hr.
  reflexivity.
Qed.

(** The theorem at work: the server reports the run as Succeeded, without
    a manifest, at every poll. *)
Lemma status_without_manifest_is_ignored_witness :
  submit_pipeline_production.main (H:=Cases.runtime) 145 Sample.production_args
    Cases.succeeded_without_manifest
  = Some (World.Exit 2).
Proof.
  apply (status_without_manifest_is_ignored (H:=Cases.runtime) Sample.production_args
           Cases.succeeded_without_manifest Sample.host "sha256~token" (Py.PStr "r-1")).
  - vm_compute. reflexivity.
  - reflexivity.
  - intros k. exists (Py.PStr "Succeeded"), Py.PNone. split; vm_compute; reflexivity.
Defined.



Section PostErrors.
Import Py World v1beta1.
Context `{Runtime}.



End PostErrors.


(** An instance: the server cannot be reached when the run is posted. *)
Lemma post_error_without_response_example :
  submit_pipeline_production.main (H:=Sample.runtime) 1 Sample.production_args
    Cases.unreachable_at_post
  = Some (World.Traceback Py.AttributeError).
Proof. vm_compute. reflexivity. Qed.

(* ===================================================================== *)
(** ** Further properties: fix_granite_image.py and the v2beta1 scripts *)
(* ===================================================================== *)

Section Closing.
Import Py World.




End Closing.

Section FixReturns.
Import Py World fix_granite_image.
Variable env : environment.
Hypothesis shell_runs : forall cmd, exists rc out err, sh env cmd = Exited rc out err.
Hypothesis file_written : forall path content, write env path content = Ok tt.
Hypothesis not_interrupted : nap env <> Interrupted.




End FixReturns.



Section SimpleMonitor.
Import Py World submit_pipeline_storage_fixed.
Context `{Runtime}.
Variable world : nat -> tick.
Hypothesis not_interrupted : forall k, nap (world k) <> Interrupted.
Hypothesis popen_errors : forall k cmd e, popen (world k) cmd = Raise e -> is_Exception e = true.

Lemma sleep_returns (k : nat) : outcome (sleep (world k)) = Ok tt.
Proof.
  unfold sleep. cbn [act outcome].
  destruct (nap (world k)) eqn:Hn; [reflexivity|].
  exfalso. exact (not_interrupted k Hn).
Qed.

Lemma pass_returns (namespace : string) (k : nat) :
  exists stop, outcome (pass namespace (world k)) = Ok stop.
Proof.
  unfold pass. rewrite outcome_try.
  assert (forall e, is_Exception e = true ->
                    exists stop,
                      (if is_Exception e
                       then outcome (print ("Monitoring error: " +:+ str_of_exn e);;
                                     sleep (world k);; mret false)
                       else Raise e) = Ok stop) as Hh.
  { intros e He. rewrite He. exists false.
    rewrite outcome_bind. cbn [print act outcome].
    rewrite outcome_bind, sleep_returns. reflexivity. }
  rewrite outcome_bind. cbn [act outcome].
  destruct (popen (world k) (latest_cmd namespace)) as [out|e] eqn:Hp;
    [|apply Hh; exact (popen_errors _ _ _ Hp)].
  rewrite outcome_bind.
  destruct (nonempty (strip out)).
  - rewrite outcome_bind. unfold item at 1. cbn [lift outcome].
    destruct (nth_error (split (strip out)) 0); [|apply Hh; reflexivity].
    rewrite outcome_bind. unfold item at 1. cbn [lift outcome].
    destruct (nth_error (split (strip out)) 1); [|apply Hh; reflexivity].
    rewrite outcome_bind. cbn [print act outcome].
    destruct (existsb _ terminal).
    + rewrite outcome_bind. cbn [print act outcome].
      rewrite outcome_bind.
      destruct (String.eqb _ "Succeeded"); cbn [print act outcome mret io_ret];
        eexists; reflexivity.
    + cbn [mret io_ret outcome]. rewrite outcome_bind, sleep_returns.
      eexists. reflexivity.
  - cbn [mret io_ret outcome]. rewrite outcome_bind, sleep_returns.
    eexists. reflexivity.
Qed.

Lemma passes_return (namespace : string) (n k : nat) :
  outcome (passes namespace world n k) = Ok tt.
Proof.
  revert k. induction n as [|n IH]; intros k; [reflexivity|].
  cbn [passes]. rewrite outcome_bind.
  destruct (pass_returns namespace k) as [stop Hs]. rewrite Hs.
  destruct stop; [reflexivity|apply IH].
Qed.

Lemma monitor_pipeline_simple_returns (namespace : string) :
  outcome (monitor_pipeline_simple namespace world) = Ok tt.
Proof.
  unfold monitor_pipeline_simple.
  rewrite outcome_bind. cbn [print act outcome].
  rewrite outcome_bind, passes_return. reflexivity.
Qed.

End SimpleMonitor.

(** X10.  submit_pipeline_storage_fixed.py: [monitor_pipeline_simple]
    returns nothing and catches every error of a poll, so the exit status
    says nothing about the pipeline.  Once the run has been accepted the
    script exits with status 0 whatever the polls show, a workflow that
    fails or a command that cannot be run included, unless the user
    interrupts it. *)
Theorem exit_status_ignores_the_monitoring `{Py.Runtime}
    (a : submit_pipeline_storage_fixed.args) (env : submit_pipeline.environment)
    (world : nat -> submit_pipeline_storage_fixed.tick) (run_id : Py.pyval) :
  World.outcome (submit_pipeline_storage_fixed.submit_pipeline env
                   (submit_pipeline_storage_fixed.namespace a)
                   (negb (submit_pipeline_storage_fixed.route a)))
  = Py.Ok (true, run_id) ->
  (forall k, submit_pipeline_storage_fixed.nap (world k) <> World.Interrupted) ->
  (forall k cmd e, submit_pipeline_storage_fixed.popen (world k) cmd = Py.Raise e ->
                   Py.is_Exception e = true) ->
  World.end_of (World.outcome (submit_pipeline_storage_fixed.main a env world))
  = World.Exit 0.
Proof.
  intros Hs Hn Hp.
  assert (World.outcome (submit_pipeline_storage_fixed.main a env world) = Py.Ok tt) as Hm.
  { unfold submit_pipeline_storage_fixed.main.
    repeat (rewrite outcome_bind; cbn [World.print World.act World.outcome]).
    rewrite Hs. cbn [fst negb].
    repeat (rewrite outcome_bind; cbn [World.print World.act World.outcome]).
    destruct (submit_pipeline_storage_fixed.monitor a).
    - apply monitor_pipeline_simple_returns; assumption.
    - repeat (rewrite outcome_bind; cbn [World.print World.act World.outcome]).
      reflexivity. }
  rewrite Hm. reflexivity.
Qed.

(** The theorem at work: the latest workflow is reported as Failed. *)
Lemma exit_status_ignores_the_monitoring_witness :
  World.end_of
    (World.outcome (submit_pipeline_storage_fixed.main (H:=Sample.runtime)
                      Cases.storage_fixed_args Sample.submit_environment
                      (Cases.latest "Failed")))
  = World.Exit 0.
Proof.
  apply (exit_status_ignores_the_monitoring (H:=Sample.runtime) Cases.storage_fixed_args
           Sample.submit_environment (Cases.latest "Failed") (Py.PStr "r-2")).
  - vm_compute. reflexivity.
  - intros k. discriminate.
  - intros k cmd e. discriminate.
Defined.

(** X11.  submit_pipeline.py with [--route]: after the server has accepted
    the run, the line that shows the route looks the route up once more,
    inside the [try] of the POST.  When that lookup gives nothing the
    [AttributeError] is caught by the handler of the POST: the function
    prints an error and returns [False] although the run has been
    created.  In port-forward mode the same answer gives [True]. *)
Theorem accepted_run_reported_as_failure `{Py.Runtime} (env : submit_pipeline.environment)
    (namespace dspa_url : string) (body : Py.pyval) (code : Z) (text : string)
    (d : list (string * Py.pyval)) :
  submit_pipeline.http_post env (dspa_url +:+ "/apis/v2beta1/runs") body
  = World.Response code text ->
  (code =? 200) || (code =? 201) = true ->
  Py.json_loads text = Some (Py.PDict d) ->
  World.outcome (v2beta1.get_dspa_info (submit_pipeline.popen env) namespace) = Py.Ok None ->
  World.outcome (submit_pipeline.post_run env namespace false dspa_url body) = Py.Ok false
  /\ World.printed (submit_pipeline.post_run env namespace false dspa_url body)
     = [ "✅ Pipeline run submitted successfully!";
         "   Run ID: " +:+ Py.str_of (default (Py.PStr "unknown") (Py.dict_lookup "run_id" d));
         "   Display Name: "
           +:+ Py.str_of (default Py.PNone (Py.dict_lookup "display_name" d));
         "
📊 Monitor your pipeline run:";
         "❌ Error submitting pipeline: " +:+ Py.str_of_exn Py.AttributeError ]
  /\ World.outcome (submit_pipeline.post_run env namespace true dspa_url body) = Py.Ok true.
Proof.
  intros Hp Hc Hj Hr.
  assert (World.printed (v2beta1.get_dspa_info (submit_pipeline.popen env) namespace) = [])
    as Hq.
  { unfold v2beta1.get_dspa_info, World.printed. rewrite trace_try, trace_bind.
    cbn [World.act World.trace World.outcome].
    destruct (submit_pipeline.popen env (v2beta1.route_cmd namespace)); cbn;
      [reflexivity|]. destruct (Py.is_Exception _); reflexivity. }
  unfold submit_pipeline.post_run.
  remember (v2beta1.get_dspa_info (submit_pipeline.popen env) namespace) as lookup eqn:El.
  clear El. destruct lookup as [events answer].
  unfold World.printed in Hq. cbn [World.outcome World.trace] in Hr, Hq. subst answer.
  unfold World.printed, World.try_except, World.response_json.
  cbn. rewrite Hp. cbn. rewrite Hc. cbn. rewrite Hj. cbn.
  split; [reflexivity|]. split; [|reflexivity].
  rewrite !omap_app, Hq. reflexivity.
Qed.

(** The theorem at work: the route is gone when it is looked up. *)
Lemma accepted_run_reported_as_failure_witness :
  World.outcome (submit_pipeline.post_run (H:=Sample.runtime) Cases.route_gone Sample.ns
                   false "https://dspa.example" Py.PNone)
  = Py.Ok false
  /\ World.outcome (submit_pipeline.post_run (H:=Sample.runtime) Cases.route_gone Sample.ns
                      true "https://dspa.example" Py.PNone)
     = Py.Ok true.
Proof.
  pose proof (accepted_run_reported_as_failure (H:=Sample.runtime) Cases.route_gone
                Sample.ns "https://dspa.example" Py.PNone 200 Sample.v2_created_text
                [ ("run_id", Py.PStr "r-2") ] eq_refl eq_refl eq_refl eq_refl)
    as [Hfalse [_ Htrue]].
  split; [exact Hfalse | exact Htrue].
Defined.

